(** * Logz.io alert evaluation and processing: a shallow embedding

    The Go sources modelled here are

    - [pkg/services/ngalert/api/logzio_alerting.go] (and its later revision,
      which converts the captured values entry by entry and carries a
      migrator), the evaluate / process endpoints of the unified alerting
      service;
    - [pkg/services/alerting/alert_evaluator_engine.logzio.go] (two revisions
      that differ only in the tracing calls) together with the [Job] type of
      [pkg/services/alerting], the legacy on-demand evaluation engine.

    Collaborators that live outside these files (the evaluator, the state
    manager, the instance store, the alertmanager registry, the result
    handler) are records of functions acting on an opaque world; every call
    to one of them is recorded in a trace, so that statements about ordering
    and side effects are statements about traces. *)

From stdpp Require Import gmap strings list.
From Stdlib Require Import ZArith Lia.

Local Open Scope string_scope.
Local Open Scope list_scope.
Local Open Scope Z_scope.

(** ** Go runtime notions used by the sources *)

Module Go.

(** Modelled from the spec: [expr.QueryError] is declared outside src/; the
    spec has a query failure wrapped as a typed query error that carries the
    originating reference id. The other Go [error] values are taken as far as
    the sources inspect them: sentinel values made by [errors.New] and
    compared by identity, and errors that wrap another one ([fmt.Errorf]
    with [%w]). *)
Inductive error : Type :=
| Sentinel (name : string)
| QueryError (RefID : string) (Err : error)
| Wrapped (msg : string) (inner : error).

Fixpoint error_eqb (a b : error) : bool :=
  match a, b with
  | Sentinel x, Sentinel y => bool_decide (x = y)
  | QueryError r e, QueryError r' e' => bool_decide (r = r') && error_eqb e e'
  | Wrapped m e, Wrapped m' e' => bool_decide (m = m') && error_eqb e e'
  | _, _ => false
  end.

(** [errors.Is(err, target)]: some error of the chain equals the target. *)
Fixpoint errors_Is (err target : error) : bool :=
  error_eqb err target ||
  match err with
  | Sentinel _ => false
  | QueryError _ inner => errors_Is inner target
  | Wrapped _ inner => errors_Is inner target
  end.

(** [errors.As(err, &queryError)] with [queryError] of type
    [expr.QueryError]: the first error of the chain that has this type. *)
Fixpoint errors_As_QueryError (err : error) : option (string * error) :=
  match err with
  | Sentinel _ => None
  | QueryError r inner => Some (r, inner)
  | Wrapped _ inner => errors_As_QueryError inner
  end.

(** The [Error()] method. *)
Fixpoint Error (e : error) : string :=
  match e with
  | Sentinel name => name
  | QueryError r inner => "failed to execute query " +:+ r +:+ ": " +:+ Error inner
  | Wrapped msg _ => msg
  end.

(** [context.Context] values as the tree they form. Every [WithTimeout]
    allocates a context of its own (with its own timer), told apart here by
    [id]. *)
Inductive Context : Type :=
| Background
| WithTimeout (parent : Context) (timeout : Z) (id : nat)
| WithSpan (parent : Context) (operation : string).

Definition parent (c : Context) : option Context :=
  match c with
  | Background => None
  | WithTimeout p _ _ => Some p
  | WithSpan p _ => Some p
  end.

(** The contexts [c] is derived from, nearest first. *)
Fixpoint ancestors (c : Context) : list Context :=
  match c with
  | Background => []
  | WithTimeout p _ _ => p :: ancestors p
  | WithSpan p _ => p :: ancestors p
  end.

(** The timers that can cancel [c]: its own and those of its ancestors,
    as (id, timeout) pairs. *)
Fixpoint timers (c : Context) : list (nat * Z) :=
  match c with
  | Background => []
  | WithTimeout p t i => (i, t) :: timers p
  | WithSpan p _ => timers p
  end.

(** The result of running a piece of Go code that may not return. *)
Inductive outcome (A : Type) : Type :=
| Returned (a : A)
| Blocked
| Panicked (msg : string).
Arguments Returned {A} a.
Arguments Blocked {A}.
Arguments Panicked {A} msg.

(** State passing with outcomes: the state reached is kept also when the
    code blocks or panics. *)
Definition M (S A : Type) : Type := S -> outcome A * S.

Definition ret {S A} (a : A) : M S A := fun s => (Returned a, s).

Definition bind {S A B} (m : M S A) (k : A -> M S B) : M S B :=
  fun s =>
    match m s with
    | (Returned a, s') => k a s'
    | (Blocked, s') => (Blocked, s')
    | (Panicked msg, s') => (Panicked msg, s')
    end.

Definition modify {S} (f : S -> S) : M S unit := fun s => (Returned tt, f s).
Definition panic {S A} (msg : string) : M S A := fun s => (Panicked msg, s).

(** A buffered channel nobody receives from. *)
Record chan (A : Type) : Type := mkChan {
  cap : Z;
  buf : list A;
  closed : bool
}.
Arguments mkChan {A} cap buf closed.
Arguments cap {A} c.
Arguments buf {A} c.
Arguments closed {A} c.

(** The limits of the allocator on a 64 bit platform (48 bit heap
    addresses): the largest allocation and the size of a channel header. *)
Definition maxAlloc : Z := 2 ^ 48.
Definition hchanSize : Z := 96.

(** The size of a machine word: the one of an [int] and of a function value
    such as a [context.CancelFunc]. *)
Definition PtrSize : Z := 8.

(** [make(chan A, n)] for an element type of [elemsize] bytes, as
    [runtime.makechan] checks it: the size must not be negative and the
    buffer, [elemsize * n] bytes, must fit under [maxAlloc] together with the
    header; otherwise the call panics. An allocation that passes the check
    is taken to succeed. *)
Definition make_chan {A} (elemsize n : Z) : outcome (chan A) :=
  if (n <? 0) || (maxAlloc - hchanSize <? elemsize * n)
  then Panicked "makechan: size out of range"
  else Returned (mkChan n [] false).

(** [c <- x] with no receiver: panics on a closed channel, blocks for ever
    on a full buffer. *)
Definition send {A} (c : chan A) (x : A) : outcome (chan A) :=
  if closed c then Panicked "send on closed channel"
  else if Z.of_nat (length (buf c)) <? cap c
       then Returned (mkChan (cap c) (buf c ++ [x]) false)
       else Blocked.

Definition close {A} (c : chan A) : outcome (chan A) :=
  if closed c then Panicked "close of closed channel"
  else Returned (mkChan (cap c) (buf c) true).

(** A [sync.Mutex] in a single goroutine: locking a held mutex blocks,
    unlocking a free one is a fatal error. *)
Definition Lock (held : bool) : outcome bool :=
  if held then Blocked else Returned true.

Definition Unlock (held : bool) : outcome bool :=
  if held then Returned false else Panicked "sync: unlock of unlocked mutex".

Definition int64_min : Z := - 2 ^ 63.
Definition int64_max : Z := 2 ^ 63 - 1.

(** Two's complement wrap-around of [int64] arithmetic. *)
Definition wrap64 (x : Z) : Z := (x + 2 ^ 63) mod 2 ^ 64 - 2 ^ 63.

(** *** [float64] arithmetic on the values reached from an [int64]

    Every finite binary64 number is an integer multiple of [2^-1074]; a
    number is carried as that integer. Rounding is to nearest, ties to
    even, on a 53 bit significand. Infinities and NaN are not reached by
    the code in scope (the operands come from an [int64] and the divisor
    is a non-zero constant) and are not represented. *)
Module Float64.

Definition scale : Z := 2 ^ 1074.

(** The integer nearest to [n / d], ties to even, for [0 < d]. *)
Definition rne (n d : Z) : Z :=
  let q := n / d in
  let r := n mod d in
  if 2 * r <? d then q
  else if d <? 2 * r then q + 1
  else if Z.even q then q else q + 1.

(** The binary64 number nearest to [n / (d * scale)], for [0 < d]. *)
Definition round (n d : Z) : Z :=
  let q := Z.abs n / d in
  let shift := Z.max 0 (Z.log2 q - 52) in
  Z.sgn n * (rne (Z.abs n) (d * 2 ^ shift) * 2 ^ shift).

(** The conversion [float64(x)] of an integer. *)
Definition of_int (x : Z) : Z := round (x * scale) 1.

(** [a / b] for a non-zero [b]. *)
Definition div (a b : Z) : Z :=
  if 0 <? b then round (a * scale) b else round (- a * scale) (- b).

(** [math.Floor]. *)
Definition Floor (a : Z) : Z := a / scale * scale.

(** The conversion [int64(a)]: truncation; out of range the result is
    the one of amd64, the smallest [int64]. *)
Definition to_int64 (a : Z) : Z :=
  let v := Z.quot a scale in
  if (int64_min <=? v) && (v <=? int64_max) then v else int64_min.

End Float64.

End Go.

Notation "'do' x <- m ; k" := (Go.bind m (fun x => k))
  (at level 10, x name, m at level 100, k at level 200).
Notation "'do' ' p <- m ; k" :=
  (Go.bind m (fun x => match x with p => k end))
  (at level 10, p pattern, m at level 100, k at level 200).
Notation "'run' m ; k" := (Go.bind m (fun _ => k))
  (at level 10, m at level 100, k at level 200).

(** A [float64] is carried as its IEEE-754 bit pattern and a [time.Time] as
    an instant in nanoseconds: the code in scope only copies them. *)
Definition float64 : Type := Z.
Definition Time : Type := Z.
Definition Duration : Type := Z.

(** ** Package [eval] *)

Module eval.

(** Modelled from the spec: the [eval.State] enumeration and its [String]
    method are declared outside src/; the spec names the categorical
    states Normal, Alerting, NoData and Error. *)
Inductive State : Type := Normal | Alerting | NoData | Error.

Definition String (s : State) : string :=
  match s with
  | Normal => "Normal"
  | Alerting => "Alerting"
  | NoData => "NoData"
  | Error => "Error"
  end.

Module NumberValueCapture.
Record t : Type := mk {
  Var : string;
  Labels : gmap string string;
  Value : option float64
}.
End NumberValueCapture.

Module Result.
Record t : Type := mk {
  Instance : gmap string string;
  State : State;
  Error : option Go.error;
  EvaluatedAt : Time;
  EvaluationDuration : Duration;
  EvaluationString : string;
  Values : option (gmap string NumberValueCapture.t)
}.
End Result.

Definition Results : Type := list Result.t.

End eval.

(** ** Package [apimodels] (the API representation) *)

Module apimodels.

Module ApiNumberValueCapture.
Record t : Type := mk {
  Var : string;
  Labels : gmap string string;
  Value : option float64
}.
End ApiNumberValueCapture.

Module ApiEvalError.
Record t : Type := mk {
  Type_ : string;
  Message : string;
  Metadata : gmap string string
}.
End ApiEvalError.

(** [V] is the type of a captured value: [eval.NumberValueCapture] in the
    first revision, [ApiNumberValueCapture] in the later one. *)
Module ApiEvalResult.
Record t (V : Type) : Type := mk {
  Instance : gmap string string;
  State : eval.State;
  StateName : string;
  Error : option ApiEvalError.t;
  EvaluatedAt : Time;
  EvaluationDuration : Duration;
  EvaluationString : string;
  Values : option (gmap string V)
}.
Arguments mk {V}.
Arguments Instance {V}.
Arguments State {V}.
Arguments StateName {V}.
Arguments Error {V}.
Arguments EvaluatedAt {V}.
Arguments EvaluationDuration {V}.
Arguments EvaluationString {V}.
Arguments Values {V}.
End ApiEvalResult.

(** [Q] is the type of a query of the rule ([ngmodels.AlertQuery]), which
    the code in scope only copies. *)
Module ApiAlertRule.
Record t (Q : Type) : Type := mk {
  ID : Z;
  OrgID : Z;
  Title : string;
  Condition : string;
  Data : list Q;
  Updated : Time;
  IntervalSeconds : Z;
  Version : Z;
  UID : string;
  NamespaceUID : string;
  DashboardUID : option string;
  PanelID : option Z;
  RuleGroup : string;
  NoDataState : string;
  ExecErrState : string;
  For : Duration;
  Annotations : gmap string string;
  Labels : gmap string string
}.
Arguments mk {Q}.
Arguments ID {Q}.
Arguments OrgID {Q}.
Arguments Title {Q}.
Arguments Condition {Q}.
Arguments Data {Q}.
Arguments Updated {Q}.
Arguments IntervalSeconds {Q}.
Arguments Version {Q}.
Arguments UID {Q}.
Arguments NamespaceUID {Q}.
Arguments DashboardUID {Q}.
Arguments PanelID {Q}.
Arguments RuleGroup {Q}.
Arguments NoDataState {Q}.
Arguments ExecErrState {Q}.
Arguments For {Q}.
Arguments Annotations {Q}.
Arguments Labels {Q}.
End ApiAlertRule.

Module AlertEvaluationRequest.
Record t (Q : Type) : Type := mk {
  AlertRule : ApiAlertRule.t Q;
  EvalTime : Time
}.
Arguments mk {Q}.
Arguments AlertRule {Q}.
Arguments EvalTime {Q}.
End AlertEvaluationRequest.

Module AlertProcessRequest.
Record t (Q V : Type) : Type := mk {
  AlertRule : ApiAlertRule.t Q;
  EvaluationResults : list (ApiEvalResult.t V)
}.
Arguments mk {Q V}.
Arguments AlertRule {Q V}.
Arguments EvaluationResults {Q V}.
End AlertProcessRequest.

End apimodels.

(** ** Package [ngmodels] *)

Module ngmodels.

Module AlertRule.
Record t (Q : Type) : Type := mk {
  ID : Z;
  OrgID : Z;
  Title : string;
  Condition : string;
  Data : list Q;
  Updated : Time;
  IntervalSeconds : Z;
  Version : Z;
  UID : string;
  NamespaceUID : string;
  DashboardUID : option string;
  PanelID : option Z;
  RuleGroup : string;
  NoDataState : string;
  ExecErrState : string;
  For : Duration;
  Annotations : gmap string string;
  Labels : gmap string string
}.
Arguments mk {Q}.
Arguments ID {Q}.
Arguments OrgID {Q}.
Arguments Title {Q}.
Arguments Condition {Q}.
Arguments Data {Q}.
Arguments Updated {Q}.
Arguments IntervalSeconds {Q}.
Arguments Version {Q}.
Arguments UID {Q}.
Arguments NamespaceUID {Q}.
Arguments DashboardUID {Q}.
Arguments PanelID {Q}.
Arguments RuleGroup {Q}.
Arguments NoDataState {Q}.
Arguments ExecErrState {Q}.
Arguments For {Q}.
Arguments Annotations {Q}.
Arguments Labels {Q}.
End AlertRule.

Module Condition.
Record t (Q : Type) : Type := mk {
  Condition : string;
  OrgID : Z;
  Data : list Q
}.
Arguments mk {Q}.
Arguments Condition {Q}.
Arguments OrgID {Q}.
Arguments Data {Q}.
End Condition.

(** [InstanceLabels] and [InstanceStateType] are named types over a label
    map and a string; the conversions to them change nothing. *)
Definition InstanceLabels (l : gmap string string) : gmap string string := l.
Definition InstanceStateType (s : string) : string := s.

Module SaveAlertInstanceCommand.
Record t : Type := mk {
  RuleOrgID : Z;
  RuleUID : string;
  Labels : gmap string string;
  State : string;
  LastEvalTime : Time;
  CurrentStateSince : Time;
  CurrentStateEnd : Time
}.
End SaveAlertInstanceCommand.

End ngmodels.

(** ** Package [state]: the state of one alert instance, with the fields the
    code in scope reads *)

Module state.

Module State.
Record t : Type := mk {
  OrgID : Z;
  AlertRuleUID : string;
  Labels : gmap string string;
  State : eval.State;
  LastEvaluationTime : Time;
  StartsAt : Time;
  EndsAt : Time
}.
End State.

End state.

(** ** Package [notifier] *)

Module notifier.

Definition ErrNoAlertmanagerForOrg : Go.error :=
  Go.Sentinel "Alertmanager does not exist for this organization".

End notifier.

Module http.
Definition StatusOK : Z := 200.
Definition StatusBadRequest : Z := 400.
Definition StatusInternalServerError : Z := 500.
End http.

(** ** Package [response] *)

Module response.

Inductive Response (A : Type) : Type :=
| Error (status : Z) (message : string) (err : Go.error)
| JSONStreaming (status : Z) (body : A).
Arguments Error {A} status message err.
Arguments JSONStreaming {A} status body.

End response.

(** ** Package [log]: what a logger call writes *)

Module log.

Inductive Level : Type := Debug | Info | Error.

Inductive Value : Type :=
| Str (s : string)
| Int (z : Z)
| Bool (b : bool)
| Err (e : Go.error)
| Labels (l : gmap string string).

Record Entry : Type := mk {
  level : Level;
  message : string;
  ctx : list (string * Value)
}.

End log.

(** ** Package [api]: [logzio_alerting.go] *)

Module api.

Import apimodels.

Definition EvaluationErrorRefIdKey : string := "REF_ID".
Definition QueryErrorType : string := "QUERY_ERROR".
Definition OtherErrorType : string := "OTHER".

(** The error part of [evaluationResultsToApi], the same in both
    revisions: [apiEvalResult.Error] for a non-nil [evalResult.Error]. *)
Definition apiEvalError (err : Go.error) : ApiEvalError.t :=
  let errorMetadata : gmap string string := ∅ in
  match Go.errors_As_QueryError err with
  | Some (RefID, Err) =>
      ApiEvalError.mk QueryErrorType (Go.Error Err)
        (<[EvaluationErrorRefIdKey := RefID]> errorMetadata)
  | None =>
      ApiEvalError.mk OtherErrorType (Go.Error err) errorMetadata
  end.

Definition evaluationResultsToApi (evalResult : eval.Result.t)
  : ApiEvalResult.t eval.NumberValueCapture.t :=
  let apiEvalResult :=
    ApiEvalResult.mk
      (eval.Result.Instance evalResult)
      (eval.Result.State evalResult)
      (eval.String (eval.Result.State evalResult))
      None
      (eval.Result.EvaluatedAt evalResult)
      (eval.Result.EvaluationDuration evalResult)
      (eval.Result.EvaluationString evalResult)
      (eval.Result.Values evalResult) in
  match eval.Result.Error evalResult with
  | Some err =>
      ApiEvalResult.mk
        (ApiEvalResult.Instance apiEvalResult)
        (ApiEvalResult.State apiEvalResult)
        (ApiEvalResult.StateName apiEvalResult)
        (Some (apiEvalError err))
        (ApiEvalResult.EvaluatedAt apiEvalResult)
        (ApiEvalResult.EvaluationDuration apiEvalResult)
        (ApiEvalResult.EvaluationString apiEvalResult)
        (ApiEvalResult.Values apiEvalResult)
  | None => apiEvalResult
  end.

(** The fields not assigned keep their zero value. *)
Definition apiToEvaluationResult
    (apiEvalResult : ApiEvalResult.t eval.NumberValueCapture.t) : eval.Result.t :=
  eval.Result.mk
    (ApiEvalResult.Instance apiEvalResult)
    (ApiEvalResult.State apiEvalResult)
    None
    (ApiEvalResult.EvaluatedAt apiEvalResult)
    (ApiEvalResult.EvaluationDuration apiEvalResult)
    ""
    (ApiEvalResult.Values apiEvalResult).

Definition apiRuleToDbAlertRule {Q} (api : ApiAlertRule.t Q) : ngmodels.AlertRule.t Q :=
  ngmodels.AlertRule.mk
    (ApiAlertRule.ID api)
    (ApiAlertRule.OrgID api)
    (ApiAlertRule.Title api)
    (ApiAlertRule.Condition api)
    (ApiAlertRule.Data api)
    (ApiAlertRule.Updated api)
    (ApiAlertRule.IntervalSeconds api)
    (ApiAlertRule.Version api)
    (ApiAlertRule.UID api)
    (ApiAlertRule.NamespaceUID api)
    (ApiAlertRule.DashboardUID api)
    (ApiAlertRule.PanelID api)
    (ApiAlertRule.RuleGroup api)
    (ApiAlertRule.NoDataState api)
    (ApiAlertRule.ExecErrState api)
    (ApiAlertRule.For api)
    (ApiAlertRule.Annotations api)
    (ApiAlertRule.Labels api).

(** *** Notions used to state properties of the conversions *)

(** The fields that a result keeps when it goes to the API representation
    and back. *)
Definition roundtrip_equal (a b : eval.Result.t) : Prop :=
  eval.Result.Instance a = eval.Result.Instance b /\
  eval.Result.State a = eval.Result.State b /\
  eval.Result.EvaluatedAt a = eval.Result.EvaluatedAt b /\
  eval.Result.EvaluationDuration a = eval.Result.EvaluationDuration b /\
  eval.Result.Values a = eval.Result.Values b.

(** [typed_query_error err ref]: [err] is a typed query error, or wraps one,
    and the outermost such error carries the reference id [ref]. *)
Inductive typed_query_error : Go.error -> string -> Prop :=
| typed_here (ref : string) (inner : Go.error) :
    typed_query_error (Go.QueryError ref inner) ref
| typed_wrapped (msg : string) (inner : Go.error) (ref : string) :
    typed_query_error inner ref ->
    typed_query_error (Go.Wrapped msg inner) ref.

(** *** The service *)

(** Types declared outside the sources in scope, which the service only
    passes on. *)
Class Types : Type := {
  World : Type;
  AlertQuery : Type;
  URL : Type;
  PostableAlerts : Type;
  PostableAlerts_len : PostableAlerts -> Z;
  ExpressionService : Type;
  AlertingProxy : Type
}.

Section service.
Context `{Types}.

(** [setting.Cfg], with the one setting read here. *)
Record Cfg : Type := mkCfg { AppURL : string }.

(** The collaborators, each a function of the world it acts on. *)
Record Clock : Type := mkClock {
  Now : World -> Time * World
}.

Record Evaluator : Type := mkEvaluator {
  ConditionEval :
    ngmodels.Condition.t AlertQuery -> Time -> ExpressionService ->
    World -> (eval.Results * option Go.error) * World
}.

Record Manager : Type := mkManager {
  ProcessEvalResults :
    ngmodels.AlertRule.t AlertQuery -> eval.Results ->
    World -> list state.State.t * World
}.

Record Alertmanager : Type := mkAlertmanager {
  PutAlerts : PostableAlerts -> World -> option Go.error * World
}.

Record MultiOrgAlertmanager : Type := mkMultiOrgAlertmanager {
  AlertmanagerFor : Z -> World -> (option Alertmanager * option Go.error) * World
}.

Record InstanceStore : Type := mkInstanceStore {
  SaveAlertInstance :
    ngmodels.SaveAlertInstanceCommand.t -> World -> option Go.error * World
}.

(** Functions of other packages that the service calls. *)
Record Imports : Type := mkImports {
  url_Parse : string -> option URL * option Go.error;
  FromAlertStateToPostableAlerts :
    list state.State.t -> Manager -> option URL -> World -> PostableAlerts * World;
  Labels_String : gmap string string -> string
}.

Record LogzioAlertingService : Type := mkService {
  AlertingProxy_ : AlertingProxy;
  Cfg_ : Cfg;
  AppUrl : option URL;
  Evaluator_ : Evaluator;
  Clock_ : Clock;
  ExpressionService_ : ExpressionService;
  StateManager : Manager;
  MultiOrgAlertmanager_ : MultiOrgAlertmanager;
  InstanceStore_ : InstanceStore
}.

(** What the service does to the outside, in order. *)
Inductive Event : Type :=
| Logged (entry : log.Entry)
| ClockRead
| ConditionEvalCalled (condition : ngmodels.Condition.t AlertQuery) (now : Time)
| ProcessEvalResultsCalled (rule : ngmodels.AlertRule.t AlertQuery)
    (results : eval.Results)
| SaveAlertInstanceCalled (cmd : ngmodels.SaveAlertInstanceCommand.t)
| FromAlertStateToPostableAlertsCalled (states : list state.State.t)
    (appURL : option URL)
| AlertmanagerForCalled (orgID : Z)
| PutAlertsCalled (alerts : PostableAlerts).

Record St : Type := mkSt {
  world : World;
  trace : list Event
}.

Definition emit (ev : Event) : Go.M St unit :=
  Go.modify (fun s => mkSt (world s) (trace s ++ [ev])).

(** A call to a collaborator: the event is recorded, then the world
    moves. *)
Definition call {A} (ev : Event) (f : World -> A * World) : Go.M St A :=
  fun s =>
    let '(a, w) := f (world s) in
    (Go.Returned a, mkSt w (trace s ++ [ev])).

Definition Log (level : log.Level) (message : string)
    (ctx : list (string * log.Value)) : Go.M St unit :=
  emit (Logged (log.mk level message ctx)).

Variable imports : Imports.

(** The logger is used before the service exists, so the constructor
    runs in the same monad. *)
Definition NewLogzioAlertingService
    (Proxy : AlertingProxy) (Cfg : Cfg) (Evaluator : Evaluator) (Clock : Clock)
    (ExpressionService : ExpressionService) (StateManager : Manager)
    (MultiOrgAlertmanager : MultiOrgAlertmanager) (InstanceStore : InstanceStore)
  : Go.M St LogzioAlertingService :=
  let '(appUrl, err) := url_Parse imports (AppURL Cfg) in
  do appUrl <-
    match err with
    | Some err =>
        run Log log.Error "Failed to parse application URL. Continue without it."
              [("error", log.Err err)];
        Go.ret None
    | None => Go.ret appUrl
    end;
  Go.ret (mkService Proxy Cfg appUrl Evaluator Clock ExpressionService
            StateManager MultiOrgAlertmanager InstanceStore).

Definition RouteEvaluateAlert (srv : LogzioAlertingService)
    (evalRequest : AlertEvaluationRequest.t AlertQuery)
  : Go.M St (response.Response (list (ApiEvalResult.t eval.NumberValueCapture.t))) :=
  let alertRuleToEvaluate :=
    apiRuleToDbAlertRule (AlertEvaluationRequest.AlertRule evalRequest) in
  let condition :=
    ngmodels.Condition.mk
      (ngmodels.AlertRule.Condition alertRuleToEvaluate)
      (ngmodels.AlertRule.OrgID alertRuleToEvaluate)
      (ngmodels.AlertRule.Data alertRuleToEvaluate) in
  do start <- call ClockRead (Now (Clock_ srv));
  do '(evalResults, err) <-
    call (ConditionEvalCalled condition (AlertEvaluationRequest.EvalTime evalRequest))
      (ConditionEval (Evaluator_ srv) condition
         (AlertEvaluationRequest.EvalTime evalRequest) (ExpressionService_ srv));
  do now <- call ClockRead (Now (Clock_ srv));
  let dur := now - start in
  match err with
  | Some err =>
      run Log log.Error "failed to evaluate alert rule"
            [("duration", log.Int dur); ("err", log.Err err);
             ("ruleId", log.Int (ngmodels.AlertRule.ID alertRuleToEvaluate))];
      Go.ret (response.Error http.StatusInternalServerError
                "Failed to evaluate conditions" err)
  | None =>
      let apiEvalResults := map evaluationResultsToApi evalResults in
      Go.ret (response.JSONStreaming http.StatusOK apiEvalResults)
  end.

Definition SaveAlertInstanceCommand_of (s : state.State.t)
  : ngmodels.SaveAlertInstanceCommand.t :=
  ngmodels.SaveAlertInstanceCommand.mk
    (state.State.OrgID s)
    (state.State.AlertRuleUID s)
    (ngmodels.InstanceLabels (state.State.Labels s))
    (ngmodels.InstanceStateType (eval.String (state.State.State s)))
    (state.State.LastEvaluationTime s)
    (state.State.StartsAt s)
    (state.State.EndsAt s).

(** The body of the loop of [saveAlertStates]. *)
Definition saveAlertState (srv : LogzioAlertingService) (s : state.State.t)
  : Go.M St unit :=
  let cmd := SaveAlertInstanceCommand_of s in
  do err <- call (SaveAlertInstanceCalled cmd)
              (SaveAlertInstance (InstanceStore_ srv) cmd);
  match err with
  | Some err =>
      Log log.Error "failed to save alert state"
        [("uid", log.Str (state.State.AlertRuleUID s));
         ("orgId", log.Int (state.State.OrgID s));
         ("labels", log.Str (Labels_String imports (state.State.Labels s)));
         ("state", log.Str (eval.String (state.State.State s)));
         ("msg", log.Str (Go.Error err))]
  | None => Go.ret tt
  end.

Fixpoint saveAlertStates_loop (srv : LogzioAlertingService)
    (states : list state.State.t) : Go.M St unit :=
  match states with
  | [] => Go.ret tt
  | s :: rest => run saveAlertState srv s; saveAlertStates_loop srv rest
  end.

Definition saveAlertStates (srv : LogzioAlertingService)
    (states : list state.State.t) : Go.M St unit :=
  run Log log.Debug "saving alert states"
        [("count", log.Int (Z.of_nat (length states)))];
  saveAlertStates_loop srv states.

Definition RouteProcessAlert (srv : LogzioAlertingService)
    (request : AlertProcessRequest.t AlertQuery eval.NumberValueCapture.t)
  : Go.M St (response.Response PostableAlerts) :=
  let alertRule := apiRuleToDbAlertRule (AlertProcessRequest.AlertRule request) in
  let evalResults :=
    map apiToEvaluationResult (AlertProcessRequest.EvaluationResults request) in
  do processedStates <-
    call (ProcessEvalResultsCalled alertRule evalResults)
      (ProcessEvalResults (StateManager srv) alertRule evalResults);
  run saveAlertStates srv processedStates;
  do alerts <-
    call (FromAlertStateToPostableAlertsCalled processedStates (AppUrl srv))
      (FromAlertStateToPostableAlerts imports processedStates (StateManager srv)
         (AppUrl srv));
  do '(n, err) <-
    call (AlertmanagerForCalled (ngmodels.AlertRule.OrgID alertRule))
      (AlertmanagerFor (MultiOrgAlertmanager_ srv) (ngmodels.AlertRule.OrgID alertRule));
  match err with
  | None =>
      run Log log.Info "Pushing alerts to alert manager" [];
      match n with
      | None => Go.panic "invalid memory address or nil pointer dereference"
      | Some n =>
          do err <- call (PutAlertsCalled alerts) (PutAlerts n alerts);
          match err with
          | Some err =>
              run Log log.Error "failed to put alerts in the local notifier"
                    [("count", log.Int (PostableAlerts_len alerts));
                     ("err", log.Err err);
                     ("ruleId", log.Int (ngmodels.AlertRule.ID alertRule))];
              Go.ret (response.Error http.StatusInternalServerError
                        "Failed to process alert" err)
          | None => Go.ret (response.JSONStreaming http.StatusOK alerts)
          end
      end
  | Some err =>
      if Go.errors_Is err notifier.ErrNoAlertmanagerForOrg then
        run Log log.Info "local notifier was not found"
              [("orgId", log.Int (ngmodels.AlertRule.OrgID alertRule))];
        Go.ret (response.Error http.StatusBadRequest
                  "Alert manager for organization not found" err)
      else
        run Log log.Error "local notifier is not available"
              [("err", log.Err err);
               ("orgId", log.Int (ngmodels.AlertRule.OrgID alertRule))];
        Go.ret (response.Error http.StatusInternalServerError
                  "Failed to process alert" err)
  end.

(** *** Readings of a trace *)

(** The commands sent to the instance store, in order. *)
Definition saved_commands (tr : list Event) : list ngmodels.SaveAlertInstanceCommand.t :=
  omap (fun ev => match ev with SaveAlertInstanceCalled cmd => Some cmd | _ => None end) tr.

(** The rule UIDs of the failed saves that were logged, in order. *)
Definition save_failures_logged (tr : list Event) : list (list (string * log.Value)) :=
  omap (fun ev =>
          match ev with
          | Logged (log.mk log.Error "failed to save alert state" ctx) => Some ctx
          | _ => None
          end) tr.

(** The organizations whose alertmanager was looked up. *)
Definition alertmanager_lookups (tr : list Event) : list Z :=
  omap (fun ev => match ev with AlertmanagerForCalled orgID => Some orgID | _ => None end) tr.

(** The batches of alerts pushed to an alertmanager. *)
Definition alerts_put (tr : list Event) : list PostableAlerts :=
  omap (fun ev => match ev with PutAlertsCalled alerts => Some alerts | _ => None end) tr.

(** The application URLs handed to the postable-alert conversion. *)
Definition appURLs_passed (tr : list Event) : list (option URL) :=
  omap (fun ev =>
          match ev with
          | FromAlertStateToPostableAlertsCalled _ appURL => Some appURL
          | _ => None
          end) tr.

(** The replies of the store to a batch of saves, and the world they leave:
    what the store answers to each command in turn. *)
Fixpoint store_replies (store : InstanceStore)
    (cmds : list ngmodels.SaveAlertInstanceCommand.t) (w : World)
  : list (option Go.error) * World :=
  match cmds with
  | [] => ([], w)
  | cmd :: rest =>
      let '(reply, w1) := SaveAlertInstance store cmd w in
      let '(replies, w2) := store_replies store rest w1 in
      (reply :: replies, w2)
  end.

(** The log context written for a state whose save failed with [err]. *)
Definition save_failure_ctx (s : state.State.t) (err : Go.error)
  : list (string * log.Value) :=
  [("uid", log.Str (state.State.AlertRuleUID s));
   ("orgId", log.Int (state.State.OrgID s));
   ("labels", log.Str (Labels_String imports (state.State.Labels s)));
   ("state", log.Str (eval.String (state.State.State s)));
   ("msg", log.Str (Go.Error err))].

(** The log contexts expected for a batch, given the replies. *)
Fixpoint expected_failures (states : list state.State.t)
    (replies : list (option Go.error)) : list (list (string * log.Value)) :=
  match states, replies with
  | s :: states, Some err :: replies =>
      save_failure_ctx s err :: expected_failures states replies
  | _ :: states, None :: replies => expected_failures states replies
  | _, _ => []
  end.

(** A command carries the fields of the state it is made from. *)
Definition command_matches (s : state.State.t)
    (cmd : ngmodels.SaveAlertInstanceCommand.t) : Prop :=
  ngmodels.SaveAlertInstanceCommand.RuleOrgID cmd = state.State.OrgID s /\
  ngmodels.SaveAlertInstanceCommand.RuleUID cmd = state.State.AlertRuleUID s /\
  ngmodels.SaveAlertInstanceCommand.Labels cmd = state.State.Labels s /\
  ngmodels.SaveAlertInstanceCommand.State cmd = eval.String (state.State.State s) /\
  ngmodels.SaveAlertInstanceCommand.LastEvalTime cmd = state.State.LastEvaluationTime s /\
  ngmodels.SaveAlertInstanceCommand.CurrentStateSince cmd = state.State.StartsAt s /\
  ngmodels.SaveAlertInstanceCommand.CurrentStateEnd cmd = state.State.EndsAt s.

(** The states that the state manager hands back for a request. *)
Definition processed_states (srv : LogzioAlertingService)
    (request : apimodels.AlertProcessRequest.t AlertQuery eval.NumberValueCapture.t)
    (w : World) : list state.State.t :=
  (ProcessEvalResults (StateManager srv)
     (apiRuleToDbAlertRule (apimodels.AlertProcessRequest.AlertRule request))
     (map apiToEvaluationResult
        (apimodels.AlertProcessRequest.EvaluationResults request)) w).1.

(** The organization has no alertmanager: whatever the world, the lookup
    fails with an error that is [ErrNoAlertmanagerForOrg]. *)
Definition no_alertmanager_for (moa : MultiOrgAlertmanager) (orgID : Z) : Prop :=
  forall w, exists n err w',
    AlertmanagerFor moa orgID w = (n, Some err, w') /\
    Go.errors_Is err notifier.ErrNoAlertmanagerForOrg = true.

End service.

End api.

(** ** Package [api], later revision: the captured values are converted
    entry by entry *)

Module api_later.

Import apimodels.

Definition apiToNumberValueCapture (api : ApiNumberValueCapture.t)
  : eval.NumberValueCapture.t :=
  eval.NumberValueCapture.mk
    (ApiNumberValueCapture.Var api)
    (ApiNumberValueCapture.Labels api)
    (ApiNumberValueCapture.Value api).

Definition valueNumberCaptureToApi (numberValueCapture : eval.NumberValueCapture.t)
  : ApiNumberValueCapture.t :=
  ApiNumberValueCapture.mk
    (eval.NumberValueCapture.Var numberValueCapture)
    (eval.NumberValueCapture.Labels numberValueCapture)
    (eval.NumberValueCapture.Value numberValueCapture).

(** A nil map stays nil; a non-nil map is rebuilt key by key, which is
    [fmap] whatever the iteration order. *)
Definition evaluationResultsToApi (evalResult : eval.Result.t)
  : ApiEvalResult.t ApiNumberValueCapture.t :=
  let apiEvalResult :=
    ApiEvalResult.mk
      (eval.Result.Instance evalResult)
      (eval.Result.State evalResult)
      (eval.String (eval.Result.State evalResult))
      None
      (eval.Result.EvaluatedAt evalResult)
      (eval.Result.EvaluationDuration evalResult)
      (eval.Result.EvaluationString evalResult)
      None in
  let apiEvalResult :=
    match eval.Result.Values evalResult with
    | Some values =>
        ApiEvalResult.mk
          (ApiEvalResult.Instance apiEvalResult)
          (ApiEvalResult.State apiEvalResult)
          (ApiEvalResult.StateName apiEvalResult)
          (ApiEvalResult.Error apiEvalResult)
          (ApiEvalResult.EvaluatedAt apiEvalResult)
          (ApiEvalResult.EvaluationDuration apiEvalResult)
          (ApiEvalResult.EvaluationString apiEvalResult)
          (Some (valueNumberCaptureToApi <$> values))
    | None => apiEvalResult
    end in
  match eval.Result.Error evalResult with
  | Some err =>
      ApiEvalResult.mk
        (ApiEvalResult.Instance apiEvalResult)
        (ApiEvalResult.State apiEvalResult)
        (ApiEvalResult.StateName apiEvalResult)
        (Some (api.apiEvalError err))
        (ApiEvalResult.EvaluatedAt apiEvalResult)
        (ApiEvalResult.EvaluationDuration apiEvalResult)
        (ApiEvalResult.EvaluationString apiEvalResult)
        (ApiEvalResult.Values apiEvalResult)
  | None => apiEvalResult
  end.

Definition apiToEvaluationResult
    (apiEvalResult : ApiEvalResult.t ApiNumberValueCapture.t) : eval.Result.t :=
  let evalResult :=
    eval.Result.mk
      (ApiEvalResult.Instance apiEvalResult)
      (ApiEvalResult.State apiEvalResult)
      None
      (ApiEvalResult.EvaluatedAt apiEvalResult)
      (ApiEvalResult.EvaluationDuration apiEvalResult)
      ""
      None in
  match ApiEvalResult.Values apiEvalResult with
  | Some values =>
      eval.Result.mk
        (eval.Result.Instance evalResult)
        (eval.Result.State evalResult)
        (eval.Result.Error evalResult)
        (eval.Result.EvaluatedAt evalResult)
        (eval.Result.EvaluationDuration evalResult)
        (eval.Result.EvaluationString evalResult)
        (Some (apiToNumberValueCapture <$> values))
  | None => evalResult
  end.

End api_later.

(** ** Packages [models] and [setting], as far as the engine uses them *)

Module models.

(** Types that the engine only passes on. *)
Class Types : Type := {
  Alert : Type;
  Alert_Id : Alert -> Z;
  DataSource : Type;
  LogzIoHeaders : Type;
  PluginRequestValidator : Type
}.

End models.

Module setting.

Record t : Type := mk {
  AlertingEvaluationTimeout : Duration;
  AlertingNotificationTimeout : Duration;
  AlertingMaxAttempts : Z
}.

End setting.

Module context.

Definition Canceled : Go.error := Go.Sentinel "context canceled".
Definition DeadlineExceeded : Go.error := Go.Sentinel "context deadline exceeded".

End context.

(** ** Package [alerting]: the [Job] type and
    [alert_evaluator_engine.logzio.go] *)

Module alerting.

Module Rule.
Record t `{models.Types} : Type := mk {
  ID : Z;
  DashboardID : Z;
  Name : string;
  Frequency : Z;
  State : string;
  LogzIoHeaders : option models.LogzIoHeaders;
  DataSourceUrl : string;
  CustomDataSources : list models.DataSource
}.

Definition with_State `{models.Types} (r : t) (st : string) : t :=
  mk _ (ID r) (DashboardID r) (Name r) (Frequency r) st (LogzIoHeaders r)
    (DataSourceUrl r) (CustomDataSources r).

Definition with_LogzIoHeaders `{models.Types} (r : t)
    (h : option models.LogzIoHeaders) : t :=
  mk _ (ID r) (DashboardID r) (Name r) (Frequency r) (State r) h
    (DataSourceUrl r) (CustomDataSources r).


End Rule.

(** The rule is held by pointer in the sources; here the context carries
    the rule it points to. *)
Module EvalContext.
Record t `{models.Types} : Type := mk {
  Firing : bool;
  NoDataFound : bool;
  Error : option Go.error;
  Rule : Rule.t;
  EvalTime : Time;
  RequestValidator : models.PluginRequestValidator;
  Ctx : Go.Context
}.

Definition with_Ctx `{models.Types} (c : t) (ctx : Go.Context) : t :=
  mk _ (Firing c) (NoDataFound c) (Error c) (Rule c) (EvalTime c)
    (RequestValidator c) ctx.

Definition with_Rule `{models.Types} (c : t) (r : Rule.t) : t :=
  mk _ (Firing c) (NoDataFound c) (Error c) r (EvalTime c)
    (RequestValidator c) (Ctx c).
End EvalContext.

Module Job.
Record t `{models.Types} : Type := mk {
  Offset : Z;
  OffsetWait : bool;
  Delay : bool;
  running : bool;
  Rule : option Rule.t;
  runningLock : bool;
  EvalTime : Time;
  Result : option EvalContext.t
}.

(** [&Job{}]: every field has its zero value. *)
Definition zero `{models.Types} : t :=
  mk _ 0 false false false None false 0 None.

Definition with_Offset `{models.Types} (j : t) (o : Z) : t :=
  mk _ o (OffsetWait j) (Delay j) (running j) (Rule j) (runningLock j)
    (EvalTime j) (Result j).

Definition with_running `{models.Types} (j : t) (b : bool) : t :=
  mk _ (Offset j) (OffsetWait j) (Delay j) b (Rule j) (runningLock j)
    (EvalTime j) (Result j).

Definition with_runningLock `{models.Types} (j : t) (held : bool) : t :=
  mk _ (Offset j) (OffsetWait j) (Delay j) (running j) (Rule j) held
    (EvalTime j) (Result j).

Definition with_Rule `{models.Types} (j : t) (r : option Rule.t) : t :=
  mk _ (Offset j) (OffsetWait j) (Delay j) (running j) r (runningLock j)
    (EvalTime j) (Result j).

Definition with_EvalTime `{models.Types} (j : t) (tm : Time) : t :=
  mk _ (Offset j) (OffsetWait j) (Delay j) (running j) (Rule j) (runningLock j)
    tm (Result j).

Definition with_Result `{models.Types} (j : t) (r : option EvalContext.t) : t :=
  mk _ (Offset j) (OffsetWait j) (Delay j) (running j) (Rule j) (runningLock j)
    (EvalTime j) r.
End Job.

Module EvaluateAlertCommand.
Record t `{models.Types} : Type := mk {
  Alert : option models.Alert;
  EvalTime : Time;
  LogzIoHeaders : option models.LogzIoHeaders;
  DataSourceUrl : string;
  CustomDataSources : list models.DataSource;
  Result : option EvalContext.t
}.

Definition with_Result `{models.Types} (c : t) (r : option EvalContext.t) : t :=
  mk _ (Alert c) (EvalTime c) (LogzIoHeaders c) (DataSourceUrl c)
    (CustomDataSources c) r.
End EvaluateAlertCommand.

Module EvaluateAlertByIdCommand.
Record t `{models.Types} : Type := mk {
  AlertId : Z;
  EvalTime : Time;
  LogzIoHeaders : option models.LogzIoHeaders;
  Result : option EvalContext.t
}.

Definition with_Result `{models.Types} (c : t) (r : option EvalContext.t) : t :=
  mk _ (AlertId c) (EvalTime c) (LogzIoHeaders c) r.
End EvaluateAlertByIdCommand.

Section engine.
Context `{models.Types}.
Context {World : Type}.

(** The handlers of the engine and the functions of the package defined
    in other files, each a function of the world it acts on. The
    evaluator and the result handler receive the context by pointer and
    may change it. *)
Record AlertEvaluatorEngine : Type := mkEngine {
  RequestValidator : models.PluginRequestValidator;
  evalHandler_Eval : EvalContext.t -> World -> EvalContext.t * World;
  ruleReader_fetchOne : Z -> World -> option Rule.t * World;
  resultHandler_handle :
    EvalContext.t -> World -> (EvalContext.t * option Go.error) * World;
  NewRuleFromDBAlert :
    option models.Alert -> bool -> World ->
    (option Rule.t * option Go.error) * World;
  GetNewState : EvalContext.t -> string;
  GetDurationMs : EvalContext.t -> Z
}.

(** Modelled from the spec: [NewEvalContext] is defined outside src/;
    the spec has it build an execution context carrying the rule, the
    evaluation instant and the cancellation deadline. Nothing is
    evaluated yet: no error, not firing. *)
Definition NewEvalContext (alertCtx : Go.Context) (rule : Rule.t) (evalTime : Time)
    (requestValidator : models.PluginRequestValidator) : EvalContext.t :=
  EvalContext.mk _ false false None rule evalTime requestValidator alertCtx.

Inductive Event : Type :=
| Logged (entry : log.Entry)
| Locked
| Unlocked
| RunningSet (b : bool)
| TimeoutStarted (id : nat) (timeout : Duration)
| CancelFuncSent (id : nat)
| SpanStarted (operation : string)
| SpanTagged (key : string) (value : log.Value)
| SpanErrorLogged (err : Go.error)
| SpanFinished
| EvalCalled (evalContext : EvalContext.t)
| HandleCalled (evalContext : EvalContext.t)
| FetchOneCalled (id : Z)
| NewRuleFromDBAlertCalled (alertId : option Z).

Record St : Type := mkSt {
  world : World;
  trace : list Event;
  contexts : nat
}.

Definition emit (ev : Event) : Go.M St unit :=
  Go.modify (fun s => mkSt (world s) (trace s ++ [ev]) (contexts s)).

Definition call {A} (ev : Event) (f : World -> A * World) : Go.M St A :=
  fun s =>
    let '(a, w) := f (world s) in
    (Go.Returned a, mkSt w (trace s ++ [ev]) (contexts s)).

Definition lift {A} (o : Go.outcome A) : Go.M St A := fun s => (o, s).

Definition Log (level : log.Level) (message : string)
    (ctx : list (string * log.Value)) : Go.M St unit :=
  emit (Logged (log.mk level message ctx)).

(** [context.WithTimeout]: a new context with its own timer; the cancel
    function is named by the id of the context it cancels. *)
Definition WithTimeout (parent : Go.Context) (timeout : Duration)
  : Go.M St (Go.Context * nat) :=
  fun s =>
    let id := contexts s in
    (Go.Returned (Go.WithTimeout parent timeout id, id),
     mkSt (world s) (trace s ++ [TimeoutStarted id timeout]) (S id)).

Definition GetRunning (j : Job.t) : Go.M St (bool * Job.t) :=
  do held <- lift (Go.Lock (Job.runningLock j));
  run emit Locked;
  let j := Job.with_runningLock j held in
  let b := Job.running j in
  do held <- lift (Go.Unlock (Job.runningLock j));
  run emit Unlocked;
  Go.ret (b, Job.with_runningLock j held).

Definition SetRunning (j : Job.t) (b : bool) : Go.M St Job.t :=
  do held <- lift (Go.Lock (Job.runningLock j));
  run emit Locked;
  let j := Job.with_runningLock j held in
  let j := Job.with_running j b in
  run emit (RunningSet b);
  do held <- lift (Go.Unlock (Job.runningLock j));
  run emit Unlocked;
  Go.ret (Job.with_runningLock j held).

Variable cfg : setting.t.
Variable e : AlertEvaluatorEngine.

Definition processJob (attemptID : Z) (attemptChan : Go.chan Z)
    (cancelChan : Go.chan nat) (job : Job.t)
  : Go.M St (Go.chan Z * Go.chan nat * Job.t) :=
  do '(alertCtx, cancelFn) <-
    WithTimeout Go.Background (setting.AlertingEvaluationTimeout cfg);
  do cancelChan <- lift (Go.send cancelChan cancelFn);
  run emit (CancelFuncSent cancelFn);
  run emit (SpanStarted "alert execution");
  let alertCtx := Go.WithSpan alertCtx "alert execution" in
  match Job.Rule job with
  | None => Go.panic "invalid memory address or nil pointer dereference"
  | Some rule =>
      let evalContext :=
        NewEvalContext alertCtx rule (Job.EvalTime job) (RequestValidator e) in
      let evalContext := EvalContext.with_Ctx evalContext alertCtx in
      do evalContext <-
        call (EvalCalled evalContext) (evalHandler_Eval e evalContext);
      run emit (SpanTagged "alertId"
                  (log.Int (Rule.ID (EvalContext.Rule evalContext))));
      run emit (SpanTagged "dashboardId"
                  (log.Int (Rule.DashboardID (EvalContext.Rule evalContext))));
      run emit (SpanTagged "firing" (log.Bool (EvalContext.Firing evalContext)));
      run emit (SpanTagged "nodatapoints"
                  (log.Bool (EvalContext.NoDataFound evalContext)));
      run emit (SpanTagged "attemptID" (log.Int attemptID));
      run match EvalContext.Error evalContext with
          | Some err => emit (SpanErrorLogged err)
          | None => Go.ret tt
          end;
      do '(resultHandleCtx, resultHandleCancelFn) <-
        WithTimeout Go.Background (setting.AlertingNotificationTimeout cfg);
      do cancelChan <- lift (Go.send cancelChan resultHandleCancelFn);
      run emit (CancelFuncSent resultHandleCancelFn);
      let evalContext := EvalContext.with_Ctx evalContext resultHandleCtx in
      let evalContext :=
        EvalContext.with_Rule evalContext
          (Rule.with_State (EvalContext.Rule evalContext)
             (GetNewState e evalContext)) in
      do '(evalContext, err) <-
        call (HandleCalled evalContext) (resultHandler_handle e evalContext);
      run match err with
          | Some err =>
              if Go.errors_Is err context.Canceled then
                Log log.Debug "Result handler returned context.Canceled" []
              else if Go.errors_Is err context.DeadlineExceeded then
                Log log.Debug "Result handler returned context.DeadlineExceeded" []
              else
                Log log.Error "Failed to handle result" [("err", log.Err err)]
          | None => Go.ret tt
          end;
      (* job.Rule and evalContext.Rule are one pointer: the job sees the rule
         as the context has it *)
      let job := Job.with_Rule job (Some (EvalContext.Rule evalContext)) in
      let job := Job.with_Result job (Some evalContext) in
      run emit SpanFinished;
      run Log log.Debug "Job Execution completed"
            [("timeMs", log.Int (GetDurationMs e evalContext));
             ("alertId", log.Int (Rule.ID (EvalContext.Rule evalContext)));
             ("name", log.Str (Rule.Name (EvalContext.Rule evalContext)));
             ("firing", log.Bool (EvalContext.Firing evalContext));
             ("attemptID", log.Int attemptID)];
      do attemptChan <- lift (Go.close attemptChan);
      Go.ret (attemptChan, cancelChan, job)
  end.

(** [int64(math.Floor(float64(offset) / 1000))] for
    [offset := rule.Frequency * 1000], then the guard against zero. *)
Definition jobOffset (rule : Rule.t) : Z :=
  let offset := Go.wrap64 (Rule.Frequency rule * 1000) in
  let Offset :=
    Go.Float64.to_int64
      (Go.Float64.Floor
         (Go.Float64.div (Go.Float64.of_int offset) (Go.Float64.of_int 1000))) in
  if Offset =? 0 then 1 else Offset.

(** The first part of [handleRule]: the job, as it is when the channels are
    made. *)
Definition handleRule_job (rule : Rule.t) (evalTime : Time) : Go.M St Job.t :=
  let job := Job.zero in
  do job <- SetRunning job false;
  let job := Job.with_Rule job (Some rule) in
  let job := Job.with_EvalTime job evalTime in
  let job := Job.with_Offset job (jobOffset rule) in
  Go.ret job.

Definition handleRule (rule : Rule.t) (evalTime : Time)
  : Go.M St (option EvalContext.t) :=
  do job <- handleRule_job rule evalTime;
  do cancelChan <-
    lift (Go.make_chan Go.PtrSize (Go.wrap64 (setting.AlertingMaxAttempts cfg * 2)));
  do attemptChan <- lift (Go.make_chan Go.PtrSize 1);
  do attemptChan <- lift (Go.send attemptChan 1);
  do '(_, _, job) <- processJob 1 attemptChan cancelChan job;
  Go.ret (Job.Result job).


Definition HandleEvaluateAlertByIdCommand (cmd : EvaluateAlertByIdCommand.t)
  : Go.M St (EvaluateAlertByIdCommand.t * option Go.error) :=
  do rule <-
    call (FetchOneCalled (EvaluateAlertByIdCommand.AlertId cmd))
      (ruleReader_fetchOne e (EvaluateAlertByIdCommand.AlertId cmd));
  match rule with
  | None =>
      run Log log.Error "Could not find alert rule"
            [("ruleId", log.Int (EvaluateAlertByIdCommand.AlertId cmd))];
      Go.ret (cmd, None)
  | Some rule =>
      let rule :=
        Rule.with_LogzIoHeaders rule (EvaluateAlertByIdCommand.LogzIoHeaders cmd) in
      do result <- handleRule rule (EvaluateAlertByIdCommand.EvalTime cmd);
      let cmd := EvaluateAlertByIdCommand.with_Result cmd result in
      Go.ret (cmd, None)
  end.

(** *** Readings of a trace *)

(** The contexts the evaluator was called with, in order. *)
Definition evaluated (tr : list Event) : list EvalContext.t :=
  omap (fun ev => match ev with EvalCalled ec => Some ec | _ => None end) tr.

(** The contexts the result handler was called with, in order. *)
Definition handled (tr : list Event) : list EvalContext.t :=
  omap (fun ev => match ev with HandleCalled ec => Some ec | _ => None end) tr.

(** The values written to the running flag, in order. *)
Definition running_sets (tr : list Event) : list bool :=
  omap (fun ev => match ev with RunningSet b => Some b | _ => None end) tr.

(** The running flag seen at each call of the evaluator and of the result
    handler, for a flag that starts as [flag]. *)
Fixpoint running_at_calls (flag : bool) (tr : list Event) : list bool :=
  match tr with
  | [] => []
  | RunningSet b :: rest => running_at_calls b rest
  | EvalCalled _ :: rest => flag :: running_at_calls flag rest
  | HandleCalled _ :: rest => flag :: running_at_calls flag rest
  | _ :: rest => running_at_calls flag rest
  end.

(** Events that touch neither the running flag nor its lock. *)
Definition leaves_running_alone (ev : Event) : Prop :=
  match ev with
  | Locked | Unlocked | RunningSet _ => False
  | _ => True
  end.

(** The context of the evaluation phase and the one of the notification
    phase, for the ids of their timers. *)
Definition evaluation_context (id : nat) : Go.Context :=
  Go.WithSpan (Go.WithTimeout Go.Background (setting.AlertingEvaluationTimeout cfg) id)
    "alert execution".

Definition notification_context (id : nat) : Go.Context :=
  Go.WithTimeout Go.Background (setting.AlertingNotificationTimeout cfg) id.

(** The calls recorded by an event are made under the context of their
    phase. *)
Definition under_phase_context (id : nat) (ev : Event) : Prop :=
  match ev with
  | EvalCalled ec => EvalContext.Ctx ec = evaluation_context id
  | HandleCalled ec => EvalContext.Ctx ec = notification_context (S id)
  | _ => True
  end.

(** Room for the two cancel functions of one attempt. *)
Definition has_room (cancelChan : Go.chan nat) : Prop :=
  Go.closed cancelChan = false /\
  Z.of_nat (length (Go.buf cancelChan)) + 2 <= Go.cap cancelChan.

(** The capacity [handleRule] asks for the channel of cancel functions. *)
Definition cancel_capacity : Z := Go.wrap64 (setting.AlertingMaxAttempts cfg * 2).

(** The configured attempts give a channel that can be made and that has
    room for the two cancel functions. *)
Definition attempts_fit : Prop :=
  2 <= cancel_capacity /\
  Go.PtrSize * cancel_capacity <= Go.maxAlloc - Go.hchanSize.

(** The events of a trace up to the first call of the evaluator. *)
Fixpoint before_evaluation (tr : list Event) : list Event :=
  match tr with
  | [] => []
  | EvalCalled _ :: _ => []
  | ev :: rest => ev :: before_evaluation rest
  end.

(** The events after the first call of the evaluator. *)
Fixpoint after_evaluation (tr : list Event) : list Event :=
  match tr with
  | [] => []
  | EvalCalled _ :: rest => rest
  | _ :: rest => after_evaluation rest
  end.

(** The events up to the first call of the result handler. *)
Fixpoint before_handling (tr : list Event) : list Event :=
  match tr with
  | [] => []
  | HandleCalled _ :: _ => []
  | ev :: rest => ev :: before_handling rest
  end.

End engine.

(** Two contexts are independent: neither is derived from the other and no
    timer can cancel both. *)
Definition independent (c d : Go.Context) : Prop :=
  c <> d /\
  ~ In c (Go.ancestors d) /\
  ~ In d (Go.ancestors c) /\
  forall timer, In timer (Go.timers c) -> ~ In timer (Go.timers d).

End alerting.

(** ** Concrete collaborators, to run the definitions on *)

Module fixtures.

Definition types : api.Types := {|
  api.World := unit;
  api.AlertQuery := unit;
  api.URL := string;
  api.PostableAlerts := list state.State.t;
  api.PostableAlerts_len := fun alerts => Z.of_nat (length alerts);
  api.ExpressionService := unit;
  api.AlertingProxy := unit
|}.

(** A URL that starts with a colon has no scheme and does not parse. *)
Definition imports : @api.Imports types :=
  @api.mkImports types
    (fun raw =>
       if String.prefix ":" raw
       then (None, Some (Go.Sentinel "missing protocol scheme"))
       else (Some raw, None))
    (fun states _ _ w => (states, w))
    (fun _ => "{}").

Definition clock : @api.Clock types := @api.mkClock types (fun w => (0, w)).

Definition evaluation_failure : Go.error := Go.Sentinel "failed to execute conditions".

Definition failing_evaluator : @api.Evaluator types :=
  @api.mkEvaluator types (fun _ _ _ w => ([], Some evaluation_failure, w)).

Definition firing : state.State.t :=
  state.State.mk 1 "uid-1" {[ "host" := "a" ]} eval.Alerting 10 5 0.

Definition manager : @api.Manager types :=
  @api.mkManager types (fun _ _ w => ([firing], w)).

Definition no_alertmanagers : @api.MultiOrgAlertmanager types :=
  @api.mkMultiOrgAlertmanager types
    (fun _ w => (None, Some notifier.ErrNoAlertmanagerForOrg, w)).

Definition store : @api.InstanceStore types :=
  @api.mkInstanceStore types (fun _ w => (None, w)).

Definition failing_store : @api.InstanceStore types :=
  @api.mkInstanceStore types (fun _ w => (Some (Go.Sentinel "database is locked"), w)).

Definition rule : apimodels.ApiAlertRule.t unit :=
  apimodels.ApiAlertRule.mk 7 1 "cpu" "A" [] 0 60 1 "uid-1" "ns" None None "group"
    "NoData" "Alerting" 0 ∅ ∅.

Definition service : @api.LogzioAlertingService types :=
  @api.mkService types tt (@api.mkCfg "http://localhost:3000/") (Some "http://localhost:3000/")
    failing_evaluator clock tt manager no_alertmanagers store.

Definition start : @api.St types := @api.mkSt types tt [].

(** The same service over a store that refuses every save. *)
Definition service_failing_store : @api.LogzioAlertingService types :=
  @api.mkService types tt (@api.mkCfg "http://localhost:3000/") (Some "http://localhost:3000/")
    failing_evaluator clock tt manager no_alertmanagers failing_store.

Definition resolved : state.State.t :=
  state.State.mk 1 "uid-1" {[ "host" := "b" ]} eval.Normal 10 5 10.

(** An engine whose evaluator fails and whose result handler succeeds. *)
Definition model_types : models.Types := {|
  models.Alert := Z;
  models.Alert_Id := fun id => id;
  models.DataSource := unit;
  models.LogzIoHeaders := unit;
  models.PluginRequestValidator := unit
|}.

Definition query_failure : Go.error := Go.QueryError "A" (Go.Sentinel "timeout").

Definition failing_eval (ec : @alerting.EvalContext.t model_types)
  : @alerting.EvalContext.t model_types :=
  @alerting.EvalContext.mk model_types false false (Some query_failure)
    (alerting.EvalContext.Rule ec) (alerting.EvalContext.EvalTime ec)
    (alerting.EvalContext.RequestValidator ec) (alerting.EvalContext.Ctx ec).

Definition engine : @alerting.AlertEvaluatorEngine model_types unit :=
  @alerting.mkEngine model_types unit tt
    (fun ec w => (failing_eval ec, w))
    (fun _ w => (None, w))
    (fun ec w => (ec, None, w))
    (fun _ _ w => (None, Some (Go.Sentinel "alert validation error"), w))
    (fun ec => match alerting.EvalContext.Error ec with
               | Some _ => "alerting"
               | None => "ok"
               end)
    (fun _ => 0).

Definition settings : setting.t := setting.mk 30 30 3.

Definition legacy_rule (frequency : Z) : @alerting.Rule.t model_types :=
  @alerting.Rule.mk model_types 7 1 "cpu" frequency "ok" None "" [].

Definition engine_start : @alerting.St model_types unit :=
  @alerting.mkSt model_types unit tt [] 0.

End fixtures.

(** ** Further readings of the traces of the service and of the engine *)

Module readings.

Section service.
Context `{api.Types}.

(** The rule and the results of each call of the state manager. *)
Definition processed (tr : list api.Event)
  : list (ngmodels.AlertRule.t api.AlertQuery * eval.Results) :=
  omap (fun ev =>
          match ev with
          | api.ProcessEvalResultsCalled rule results => Some (rule, results)
          | _ => None
          end) tr.

(** The condition and the instant of each call of the evaluator. *)
Definition evaluations (tr : list api.Event)
  : list (ngmodels.Condition.t api.AlertQuery * Time) :=
  omap (fun ev =>
          match ev with
          | api.ConditionEvalCalled condition now => Some (condition, now)
          | _ => None
          end) tr.

(** The entries written to the log. *)
Definition service_log (tr : list api.Event) : list log.Entry :=
  omap (fun ev => match ev with api.Logged entry => Some entry | _ => None end) tr.

End service.

(** The status of a response. *)
Definition status {A} (r : response.Response A) : Z :=
  match r with
  | response.Error st _ _ => st
  | response.JSONStreaming st _ => st
  end.

Section engine.
Context `{models.Types}.

Definition logged (tr : list alerting.Event) : list log.Entry :=
  omap (fun ev => match ev with alerting.Logged entry => Some entry | _ => None end) tr.

(** The timers started, as (id, timeout) pairs, and the cancel functions
    handed over, by the id of their timer. *)
Definition timers_started (tr : list alerting.Event) : list (nat * Duration) :=
  omap (fun ev =>
          match ev with
          | alerting.TimeoutStarted id timeout => Some (id, timeout)
          | _ => None
          end) tr.

Definition cancels_sent (tr : list alerting.Event) : list nat :=
  omap (fun ev => match ev with alerting.CancelFuncSent id => Some id | _ => None end) tr.

(** The errors recorded on the tracing span. *)
Definition span_errors (tr : list alerting.Event) : list Go.error :=
  omap (fun ev => match ev with alerting.SpanErrorLogged err => Some err | _ => None end) tr.

(** The rule builds and the rule lookups asked of the engine. *)
Definition builds (tr : list alerting.Event) : list (option Z) :=
  omap (fun ev =>
          match ev with alerting.NewRuleFromDBAlertCalled id => Some id | _ => None end) tr.

Definition lookups (tr : list alerting.Event) : list Z :=
  omap (fun ev => match ev with alerting.FetchOneCalled id => Some id | _ => None end) tr.

End engine.

End readings.

(** ** Package [api], later revision: the HTTP handlers and the migration
    endpoints *)

Module api_handlers.

(** The migrations of package [ualert] that the endpoints run, by the
    organization they are made for. *)
Inductive Migration : Type :=
| OrgAlertMigration (OrgId : Z)
| UpdateOrgDashboardUIDPanelIDMigration (OrgId : Z)
| RmOrgAlertMigration (OrgId : Z).

Record RunMigrationForOrg : Type := mkRunMigrationForOrg { OrgId : Z }.

Inductive Event : Type :=
| Logged (entry : log.Entry)
| MigrationRun (m : Migration).

(** The migrations run, in order. *)
Definition migrations_run (tr : list Event) : list Migration :=
  omap (fun ev => match ev with MigrationRun m => Some m | _ => None end) tr.

Section handlers.
Context `{api.Types}.

(** The request of a handler, and [web.Bind] on it for each body type:
    the body as it is left, and the error. *)
Context {ReqContext : Type}.

Record Web : Type := mkWeb {
  Bind_evaluation :
    ReqContext -> apimodels.AlertEvaluationRequest.t api.AlertQuery * option Go.error;
  Bind_process :
    ReqContext ->
    apimodels.AlertProcessRequest.t api.AlertQuery eval.NumberValueCapture.t
    * option Go.error
}.

(** [LogzioAlertingApi] holds the service. *)
Record LogzioAlertingApi : Type := mkApi { service : api.LogzioAlertingService }.

Definition NewLogzioAlertingApi (service : api.LogzioAlertingService)
  : LogzioAlertingApi := mkApi service.

(** The migrator of the later revision of the service. *)
Record Migrator : Type := mkMigrator {
  RunMigration : Migration -> api.World -> option Go.error * api.World
}.

Record St : Type := mkSt {
  world : api.World;
  trace : list Event
}.

Definition Log (level : log.Level) (message : string)
    (ctx : list (string * log.Value)) : Go.M St unit :=
  Go.modify (fun s => mkSt (world s) (trace s ++ [Logged (log.mk level message ctx)])).

Definition run_migration (migrator : Migrator) (m : Migration)
  : Go.M St (option Go.error) :=
  fun s =>
    let '(err, w) := RunMigration migrator m (world s) in
    (Go.Returned err, mkSt w (trace s ++ [MigrationRun m])).

Variable web : Web.
Variable imports : api.Imports.

Definition RouteEvaluateAlert (api : LogzioAlertingApi) (ctx : ReqContext)
  : Go.M api.St
      (response.Response (list (apimodels.ApiEvalResult.t eval.NumberValueCapture.t))) :=
  let '(body, err) := Bind_evaluation web ctx in
  match err with
  | Some err => Go.ret (response.Error http.StatusBadRequest "bad request data" err)
  | None => api.RouteEvaluateAlert (service api) body
  end.

Definition RouteProcessAlert (api : LogzioAlertingApi) (ctx : ReqContext)
  : Go.M api.St (response.Response api.PostableAlerts) :=
  let '(body, err) := Bind_process web ctx in
  match err with
  | Some err => Go.ret (response.Error http.StatusBadRequest "bad request data" err)
  | None => api.RouteProcessAlert imports (service api) body
  end.

Definition RouteMigrateOrg (migrator : Migrator) (request : RunMigrationForOrg)
  : Go.M St (response.Response string) :=
  let alertMigration := OrgAlertMigration (OrgId request) in
  do err <- run_migration migrator alertMigration;
  match err with
  | Some err =>
      run Log log.Error "Failed to run alert migration"
            [("orgId", log.Int (OrgId request)); ("err", log.Err err)];
      Go.ret (response.Error http.StatusInternalServerError
                "Failed to run alert migration" err)
  | None =>
      do err <- run_migration migrator
                  (UpdateOrgDashboardUIDPanelIDMigration (OrgId request));
      match err with
      | Some err =>
          run Log log.Error "Failed to run update dashboard uuid and panel ID migration"
                [("orgId", log.Int (OrgId request)); ("err", log.Err err)];
          Go.ret (response.Error http.StatusInternalServerError
                    "Failed to run update dashboard uuid and panel ID migration" err)
      | None => Go.ret (response.JSONStreaming http.StatusOK "Success")
      end
  end.

Definition RouteClearOrgMigration (migrator : Migrator) (requestBody : RunMigrationForOrg)
  : Go.M St (response.Response string) :=
  let migration := RmOrgAlertMigration (OrgId requestBody) in
  do err <- run_migration migrator migration;
  match err with
  | Some err =>
      run Log log.Error "Failed to run clear alert migration"
            [("orgId", log.Int (OrgId requestBody)); ("err", log.Err err)];
      Go.ret (response.Error http.StatusInternalServerError
                "Failed to run clear alert migration" err)
  | None => Go.ret (response.JSONStreaming http.StatusOK "Success")
  end.

End handlers.

End api_handlers.

(** ** Package [middleware]: the options of the security headers *)

Module middleware.

(** [setting.Cfg], with the settings read here. *)
Record Cfg : Type := mkCfg {
  ContentTypeProtectionHeader : bool;
  XSSProtectionHeader : bool;
  AllowEmbedding : bool;
  Protocol : string;
  StrictTransportSecurity : bool;
  StrictTransportSecurityMaxAge : Z;
  StrictTransportSecurityPreload : bool;
  StrictTransportSecuritySubDomains : bool;
  CSPTemplate : string
}.

(** [secure.Options], with the fields set here; the others keep their zero
    value. *)
Record Options : Type := mkOptions {
  ContentTypeNosniff : bool;
  BrowserXssFilter : bool;
  FrameDeny : bool;
  ForceSTSHeader : bool;
  STSSeconds : Z;
  STSPreload : bool;
  STSIncludeSubdomains : bool;
  ContentSecurityPolicy : string
}.

Section options.

(** The scheme constants of package [setting]. *)
Variables HTTPSScheme HTTP2Scheme : string.

Definition createSecureOptions (cfg : Cfg) : Options :=
  let secureOptions :=
    mkOptions
      (ContentTypeProtectionHeader cfg)
      (XSSProtectionHeader cfg)
      (negb (AllowEmbedding cfg))
      ((bool_decide (Protocol cfg = HTTPSScheme)
        || bool_decide (Protocol cfg = HTTP2Scheme))
       && StrictTransportSecurity cfg)
      0 false false "" in
  let secureOptions :=
    if ForceSTSHeader secureOptions then
      mkOptions
        (ContentTypeNosniff secureOptions)
        (BrowserXssFilter secureOptions)
        (FrameDeny secureOptions)
        (ForceSTSHeader secureOptions)
        (* int64(...) of an int changes nothing *)
        (StrictTransportSecurityMaxAge cfg)
        (StrictTransportSecurityPreload cfg)
        (StrictTransportSecuritySubDomains cfg)
        (ContentSecurityPolicy secureOptions)
    else secureOptions in
  if bool_decide (CSPTemplate cfg = "") then secureOptions
  else
    mkOptions
      (ContentTypeNosniff secureOptions)
      (BrowserXssFilter secureOptions)
      (FrameDeny secureOptions)
      (ForceSTSHeader secureOptions)
      (STSSeconds secureOptions)
      (STSPreload secureOptions)
      (STSIncludeSubdomains secureOptions)
      (CSPTemplate cfg).

End options.

End middleware.

(** ** Package [alerting]: the rule reader *)

Module rule_reader.

(** What the reader does to the outside, in order. The gauge of active
    alerts takes a [float64]. *)
Inductive Event : Type :=
| Logged (entry : log.Entry)
| Dispatched_GetAllAlertsQuery
| Dispatched_GetAlertByIdQuery (Id : Z)
| RuleBuilt (alertId : option Z)
| GaugeSet (value : float64).

Definition gauge_sets (tr : list Event) : list float64 :=
  omap (fun ev => match ev with GaugeSet v => Some v | _ => None end) tr.

Definition rules_built (tr : list Event) : list (option Z) :=
  omap (fun ev => match ev with RuleBuilt id => Some id | _ => None end) tr.


Section reader.
Context `{models.Types} {World : Type}.

(** The bus and the rule builder, each a function of the world it acts on.
    A query leaves its result (a slice of pointers, or a pointer, that may
    be nil) and returns an error; the builder returns a pointer and an
    error. *)
Record Deps : Type := mkDeps {
  Dispatch_GetAllAlertsQuery :
    World -> (list (option models.Alert) * option Go.error) * World;
  Dispatch_GetAlertByIdQuery :
    Z -> World -> (option models.Alert * option Go.error) * World;
  NewRuleFromDBAlert :
    option models.Alert -> bool -> World ->
    (option alerting.Rule.t * option Go.error) * World
}.

Record St : Type := mkSt {
  world : World;
  trace : list Event
}.

Definition emit (ev : Event) : Go.M St unit :=
  Go.modify (fun s => mkSt (world s) (trace s ++ [ev])).

Definition call {A} (ev : Event) (f : World -> A * World) : Go.M St A :=
  fun s =>
    let '(a, w) := f (world s) in
    (Go.Returned a, mkSt w (trace s ++ [ev])).

Definition Log (level : log.Level) (message : string)
    (ctx : list (string * log.Value)) : Go.M St unit :=
  emit (Logged (log.mk level message ctx)).

(** [ruleDef.Id] of a pointer that may be nil. *)
Definition Id_of (ruleDef : option models.Alert) : Go.M St Z :=
  match ruleDef with
  | Some alert => Go.ret (models.Alert_Id alert)
  | None => Go.panic "invalid memory address or nil pointer dereference"
  end.

Variable deps : Deps.



Definition fetchOne (Id : Z) : Go.M St (option alerting.Rule.t) :=
  do '(Result, err) <-
    call (Dispatched_GetAlertByIdQuery Id) (Dispatch_GetAlertByIdQuery deps Id);
  match err with
  | Some err =>
      run Log log.Error "Could not load alerts" [("error", log.Err err)];
      Go.ret None
  | None =>
      do '(model, err) <-
        call (RuleBuilt (models.Alert_Id <$> Result))
          (NewRuleFromDBAlert deps Result true);
      match err with
      | Some err =>
          do id <- Id_of Result;
          run Log log.Error "Could not build alert model for rule"
                [("ruleId", log.Int id); ("error", log.Err err)];
          Go.ret None
      | None =>
          run emit (GaugeSet (Go.Float64.of_int 1));
          Go.ret model
      end
  end.


End reader.

End rule_reader.

(** ** More concrete collaborators *)

Module fixtures_more.

(** An alertmanager that accepts every batch, and one that refuses. *)
Definition accepting : @api.Alertmanager fixtures.types :=
  @api.mkAlertmanager fixtures.types (fun _ w => (None, w)).

Definition refusing : @api.Alertmanager fixtures.types :=
  @api.mkAlertmanager fixtures.types
    (fun _ w => (Some (Go.Sentinel "alert validation failed"), w)).

Definition alertmanagers (n : @api.Alertmanager fixtures.types)
  : @api.MultiOrgAlertmanager fixtures.types :=
  @api.mkMultiOrgAlertmanager fixtures.types (fun _ w => (Some n, None, w)).

Definition not_ready : @api.MultiOrgAlertmanager fixtures.types :=
  @api.mkMultiOrgAlertmanager fixtures.types
    (fun _ w => (None, Some (Go.Sentinel "Alertmanager is not ready yet"), w)).

Definition normal_result : eval.Result.t :=
  eval.Result.mk {[ "host" := "a" ]} eval.Normal None 100 5 "[ var='A' value=1 ]" None.

Definition evaluator : @api.Evaluator fixtures.types :=
  @api.mkEvaluator fixtures.types (fun _ _ _ w => ([normal_result], None, w)).

Definition service_with (moa : @api.MultiOrgAlertmanager fixtures.types)
  : @api.LogzioAlertingService fixtures.types :=
  @api.mkService fixtures.types tt (@api.mkCfg "http://localhost:3000/")
    (Some "http://localhost:3000/") evaluator fixtures.clock tt fixtures.manager moa
    fixtures.store.

Definition process_request
  : apimodels.AlertProcessRequest.t unit eval.NumberValueCapture.t :=
  apimodels.AlertProcessRequest.mk fixtures.rule [].

Definition evaluation_request : apimodels.AlertEvaluationRequest.t unit :=
  apimodels.AlertEvaluationRequest.mk fixtures.rule 100.

(** A state manager that answers one state for each evaluation result: the
    state of the result, for the instance of the result, under the rule. *)
Definition state_of (rule : ngmodels.AlertRule.t unit) (r : eval.Result.t)
  : state.State.t :=
  state.State.mk (ngmodels.AlertRule.OrgID rule) (ngmodels.AlertRule.UID rule)
    (eval.Result.Instance r) (eval.Result.State r) (eval.Result.EvaluatedAt r)
    (eval.Result.EvaluatedAt r) 0.

Definition manager_per_result : @api.Manager fixtures.types :=
  @api.mkManager fixtures.types
    (fun rule results w => (map (state_of rule) results, w)).

(** A service over that manager, in an organization without alertmanager. *)
Definition service_per_result : @api.LogzioAlertingService fixtures.types :=
  @api.mkService fixtures.types tt (@api.mkCfg "http://localhost:3000/")
    (Some "http://localhost:3000/") evaluator fixtures.clock tt manager_per_result
    fixtures.no_alertmanagers fixtures.store.

(** A request to process one firing result. *)
Definition firing_result : apimodels.ApiEvalResult.t eval.NumberValueCapture.t :=
  apimodels.ApiEvalResult.mk {[ "host" := "a" ]} eval.Alerting "Alerting" None
    100 5 "[ var='A' value=1 ]" None.

Definition firing_request
  : apimodels.AlertProcessRequest.t unit eval.NumberValueCapture.t :=
  apimodels.AlertProcessRequest.mk fixtures.rule [firing_result].

(** A request body that binds only when it is not empty. *)
Definition web : @api_handlers.Web fixtures.types string :=
  @api_handlers.mkWeb fixtures.types string
    (fun raw =>
       (evaluation_request,
        if String.eqb raw "" then Some (Go.Sentinel "unexpected end of JSON input")
        else None))
    (fun raw =>
       (process_request,
        if String.eqb raw "" then Some (Go.Sentinel "unexpected end of JSON input")
        else None)).

(** A migrator on which the migration of the dashboard ids fails. *)
Definition migrator : @api_handlers.Migrator fixtures.types :=
  @api_handlers.mkMigrator fixtures.types
    (fun m w =>
       match m with
       | api_handlers.UpdateOrgDashboardUIDPanelIDMigration _ =>
           (Some (Go.Sentinel "no such table"), w)
       | _ => (None, w)
       end).

(** An engine whose evaluator succeeds and whose two lookups find a rule. *)
Definition quiet_engine : @alerting.AlertEvaluatorEngine fixtures.model_types unit :=
  @alerting.mkEngine fixtures.model_types unit tt
    (fun ec w => (ec, w))
    (fun _ w => (Some (fixtures.legacy_rule 60), w))
    (fun ec w => (ec, Some context.DeadlineExceeded, w))
    (fun _ _ w => (Some (fixtures.legacy_rule 60), None, w))
    (fun _ => "ok")
    (fun _ => 0).

(** A bus with three alerts, of which the builder refuses the second. *)
Definition reader_deps : @rule_reader.Deps fixtures.model_types unit :=
  @rule_reader.mkDeps fixtures.model_types unit
    (fun w => ([Some 1; Some 2; Some 3], None, w))
    (fun id w => (Some id, None, w))
    (fun alert _ w =>
       match alert with
       | Some 2 => (None, Some (Go.Sentinel "alert validation error"), w)
       | Some id => (Some (fixtures.legacy_rule id), None, w)
       | None => (None, Some (Go.Sentinel "alert validation error"), w)
       end).

End fixtures_more.

(** * Properties *)

(** ** Conversions between evaluation results and their API form *)

Section conversions.

Import apimodels.

Lemma number_value_capture_roundtrip (v : eval.NumberValueCapture.t) :
  api_later.apiToNumberValueCapture (api_later.valueNumberCaptureToApi v) = v.
Proof. by destruct v. Qed.

Lemma values_roundtrip (values : gmap string eval.NumberValueCapture.t) :
  api_later.apiToNumberValueCapture <$> (api_later.valueNumberCaptureToApi <$> values)
  = values.
Proof.
  apply map_eq; intros k.
  rewrite !lookup_fmap.
  destruct (values !! k) as [v|]; simpl; [|done].
  by rewrite number_value_capture_roundtrip.
Qed.

Lemma roundtrip_first_revision (r : eval.Result.t) :
  api.roundtrip_equal (api.apiToEvaluationResult (api.evaluationResultsToApi r)) r.
Proof.
  unfold api.roundtrip_equal, api.apiToEvaluationResult, api.evaluationResultsToApi.
  destruct r as [inst st [err|] at_ dur str vals]; simpl; repeat split.
Qed.

Lemma roundtrip_later_revision (r : eval.Result.t) :
  api.roundtrip_equal
    (api_later.apiToEvaluationResult (api_later.evaluationResultsToApi r)) r.
Proof.
  unfold api.roundtrip_equal, api_later.apiToEvaluationResult,
    api_later.evaluationResultsToApi.
  destruct r as [inst st [err|] at_ dur str [vals|]]; simpl; repeat split;
    by rewrite values_roundtrip.
Qed.

(** C3. An evaluation result converted to its API representation by
    [evaluationResultsToApi] and back by [apiToEvaluationResult] equals the
    original on the fields Instance, State, EvaluatedAt, EvaluationDuration
    and Values, in both revisions of the conversions. *)
Theorem evaluation_result_roundtrip (r : eval.Result.t) :
  api.roundtrip_equal (api.apiToEvaluationResult (api.evaluationResultsToApi r)) r /\
  api.roundtrip_equal
    (api_later.apiToEvaluationResult (api_later.evaluationResultsToApi r)) r.
Proof.
  split; [apply roundtrip_first_revision | apply roundtrip_later_revision].
Qed.

(** [errors.As] finds a query error exactly when the error is a typed query
    error, and then yields the reference id of the outermost one. *)
Lemma errors_As_typed (err : Go.error) (ref : string) :
  api.typed_query_error err ref <->
  exists inner, Go.errors_As_QueryError err = Some (ref, inner).
Proof.
  split.
  - induction 1 as [ref inner|msg inner ref _ IH]; simpl; eauto.
  - intros [inner0 Has]. induction err as [name|r inner IH|msg inner IH]; simpl in Has.
    + discriminate.
    + injection Has as -> _. constructor.
    + constructor. by apply IH.
Qed.

Lemma errors_As_untyped (err : Go.error) :
  (forall ref, ~ api.typed_query_error err ref) <->
  Go.errors_As_QueryError err = None.
Proof.
  split.
  - intros Hno. destruct (Go.errors_As_QueryError err) as [[ref inner]|] eqn:Has; [|done].
    exfalso. apply (Hno ref), errors_As_typed. eauto.
  - intros Hnone ref [inner Has]%errors_As_typed. congruence.
Qed.

Lemma later_revision_same_error (r : eval.Result.t) :
  ApiEvalResult.Error (api_later.evaluationResultsToApi r)
  = ApiEvalResult.Error (api.evaluationResultsToApi r).
Proof.
  unfold api_later.evaluationResultsToApi, api.evaluationResultsToApi.
  by destruct r as [inst st [err|] at_ dur str [vals|]].
Qed.

(** C6. For a result whose error is not nil, the API representation carries
    an error of type QUERY_ERROR with metadata REF_ID equal to the reference
    id of the query exactly when the error is a typed query error, and an
    error of type OTHER with no REF_ID otherwise. *)
Theorem evaluation_error_classified (r : eval.Result.t) (err : Go.error) :
  eval.Result.Error r = Some err ->
  exists apiErr,
    ApiEvalResult.Error (api.evaluationResultsToApi r) = Some apiErr /\
    ApiEvalResult.Error (api_later.evaluationResultsToApi r) = Some apiErr /\
    (forall ref, api.typed_query_error err ref ->
       ApiEvalError.Type_ apiErr = "QUERY_ERROR" /\
       ApiEvalError.Metadata apiErr !! "REF_ID" = Some ref) /\
    ((forall ref, ~ api.typed_query_error err ref) ->
       ApiEvalError.Type_ apiErr = "OTHER" /\
       ApiEvalError.Metadata apiErr !! "REF_ID" = None) /\
    (ApiEvalError.Type_ apiErr = "QUERY_ERROR" <->
       exists ref, api.typed_query_error err ref).
Proof.
  intros Herr. exists (api.apiEvalError err).
  split; [|split].
  - unfold api.evaluationResultsToApi. by rewrite Herr.
  - rewrite later_revision_same_error. unfold api.evaluationResultsToApi.
    by rewrite Herr.
  - unfold api.apiEvalError. split; [|split].
    + intros ref [inner Has]%errors_As_typed. rewrite Has. simpl.
      split; [done|]. apply lookup_insert_eq.
    + intros Hno%errors_As_untyped. rewrite Hno. simpl. split; [done|].
      apply lookup_empty.
    + destruct (Go.errors_As_QueryError err) as [[ref inner]|] eqn:Has; simpl.
      * split; [|done]. intros _. exists ref. apply errors_As_typed. eauto.
      * split; [discriminate|]. intros [ref [inner Has']%errors_As_typed].
        congruence.
Qed.

End conversions.

Lemma evaluation_error_classified_witness :
  let err := Go.Wrapped "evaluation failed" (Go.QueryError "A" (Go.Sentinel "timeout")) in
  let r := eval.Result.mk ∅ eval.Error (Some err) 0 0 "" None in
  exists apiErr,
    apimodels.ApiEvalResult.Error (api.evaluationResultsToApi r) = Some apiErr /\
    apimodels.ApiEvalResult.Error (api_later.evaluationResultsToApi r) = Some apiErr /\
    (forall ref, api.typed_query_error err ref ->
       apimodels.ApiEvalError.Type_ apiErr = "QUERY_ERROR" /\
       apimodels.ApiEvalError.Metadata apiErr !! "REF_ID" = Some ref) /\
    ((forall ref, ~ api.typed_query_error err ref) ->
       apimodels.ApiEvalError.Type_ apiErr = "OTHER" /\
       apimodels.ApiEvalError.Metadata apiErr !! "REF_ID" = None) /\
    (apimodels.ApiEvalError.Type_ apiErr = "QUERY_ERROR" <->
       exists ref, api.typed_query_error err ref).
Proof.
  intros err r. apply (evaluation_error_classified r err). reflexivity.
Defined.

(** ** The process endpoint and the instance store *)

Section trace_readings.

Context `{api.Types}.

Lemma saved_commands_app (tr1 tr2 : list api.Event) :
  api.saved_commands (tr1 ++ tr2) = api.saved_commands tr1 ++ api.saved_commands tr2.
Proof. apply omap_app. Qed.

Lemma save_failures_logged_app (tr1 tr2 : list api.Event) :
  api.save_failures_logged (tr1 ++ tr2)
  = api.save_failures_logged tr1 ++ api.save_failures_logged tr2.
Proof. apply omap_app. Qed.

Lemma alertmanager_lookups_app (tr1 tr2 : list api.Event) :
  api.alertmanager_lookups (tr1 ++ tr2)
  = api.alertmanager_lookups tr1 ++ api.alertmanager_lookups tr2.
Proof. apply omap_app. Qed.

Lemma alerts_put_app (tr1 tr2 : list api.Event) :
  api.alerts_put (tr1 ++ tr2) = api.alerts_put tr1 ++ api.alerts_put tr2.
Proof. apply omap_app. Qed.

Lemma appURLs_passed_app (tr1 tr2 : list api.Event) :
  api.appURLs_passed (tr1 ++ tr2) = api.appURLs_passed tr1 ++ api.appURLs_passed tr2.
Proof. apply omap_app. Qed.

End trace_readings.

Ltac readings :=
  rewrite ?saved_commands_app, ?save_failures_logged_app, ?alertmanager_lookups_app,
    ?alerts_put_app, ?appURLs_passed_app; simpl; rewrite ?app_nil_r.

Section persistence.

Context `{api.Types}.
Variable imports : api.Imports.

(** What one pass of the loop of [saveAlertStates] does: it always returns,
    whatever the store answers. *)
Lemma saveAlertState_run (srv : api.LogzioAlertingService) (st : state.State.t)
    (s : api.St) :
  let cmd := api.SaveAlertInstanceCommand_of st in
  let reply := api.SaveAlertInstance (api.InstanceStore_ srv) cmd (api.world s) in
  exists s',
    api.saveAlertState imports srv st s = (Go.Returned tt, s') /\
    api.world s' = reply.2 /\
    api.saved_commands (api.trace s') = api.saved_commands (api.trace s) ++ [cmd] /\
    api.save_failures_logged (api.trace s')
    = api.save_failures_logged (api.trace s)
      ++ api.expected_failures imports [st] [reply.1] /\
    api.alertmanager_lookups (api.trace s') = api.alertmanager_lookups (api.trace s) /\
    api.alerts_put (api.trace s') = api.alerts_put (api.trace s) /\
    api.appURLs_passed (api.trace s') = api.appURLs_passed (api.trace s).
Proof.
  intros cmd reply. subst reply.
  unfold api.saveAlertState, Go.bind, api.call. fold cmd.
  destruct (api.SaveAlertInstance (api.InstanceStore_ srv) cmd (api.world s))
    as [[err|] w1]; simpl; eexists; (split; [reflexivity|]); simpl;
    readings; done.
Qed.

Lemma saveAlertStates_loop_run (srv : api.LogzioAlertingService)
    (states : list state.State.t) :
  forall s : api.St,
  let cmds := map api.SaveAlertInstanceCommand_of states in
  let replies := api.store_replies (api.InstanceStore_ srv) cmds (api.world s) in
  exists s',
    api.saveAlertStates_loop imports srv states s = (Go.Returned tt, s') /\
    api.world s' = replies.2 /\
    api.saved_commands (api.trace s') = api.saved_commands (api.trace s) ++ cmds /\
    api.save_failures_logged (api.trace s')
    = api.save_failures_logged (api.trace s)
      ++ api.expected_failures imports states replies.1 /\
    api.alertmanager_lookups (api.trace s') = api.alertmanager_lookups (api.trace s) /\
    api.alerts_put (api.trace s') = api.alerts_put (api.trace s) /\
    api.appURLs_passed (api.trace s') = api.appURLs_passed (api.trace s).
Proof.
  induction states as [|st rest IH]; intros s; simpl.
  - exists s. rewrite !app_nil_r. done.
  - destruct (saveAlertState_run srv st s)
      as (s1 & Hrun & Hw & Hsaved & Hlogged & Hlook & Hput & Hurl).
    destruct (IH s1) as (s2 & Hrun2 & Hw2 & Hsaved2 & Hlogged2 & Hlook2 & Hput2 & Hurl2).
    exists s2. unfold Go.bind. rewrite Hrun, Hrun2.
    rewrite Hw in Hw2, Hlogged2.
    destruct (api.SaveAlertInstance (api.InstanceStore_ srv)
                (api.SaveAlertInstanceCommand_of st) (api.world s)) as [reply w1].
    simpl in *.
    destruct (api.store_replies (api.InstanceStore_ srv)
                (map api.SaveAlertInstanceCommand_of rest) w1) as [replies w2].
    simpl in *.
    rewrite Hsaved2, Hsaved, Hlogged2, Hlogged, Hlook2, Hlook, Hput2, Hput, Hurl2, Hurl.
    rewrite <- !app_assoc. simpl.
    repeat split; try done.
    destruct reply; simpl; rewrite ?app_nil_r; done.
Qed.

Lemma saveAlertStates_run (srv : api.LogzioAlertingService)
    (states : list state.State.t) (s : api.St) :
  let cmds := map api.SaveAlertInstanceCommand_of states in
  let replies := api.store_replies (api.InstanceStore_ srv) cmds (api.world s) in
  exists s',
    api.saveAlertStates imports srv states s = (Go.Returned tt, s') /\
    api.world s' = replies.2 /\
    api.saved_commands (api.trace s') = api.saved_commands (api.trace s) ++ cmds /\
    api.save_failures_logged (api.trace s')
    = api.save_failures_logged (api.trace s)
      ++ api.expected_failures imports states replies.1 /\
    api.alertmanager_lookups (api.trace s') = api.alertmanager_lookups (api.trace s) /\
    api.alerts_put (api.trace s') = api.alerts_put (api.trace s) /\
    api.appURLs_passed (api.trace s') = api.appURLs_passed (api.trace s).
Proof.
  intros cmds replies. subst cmds replies.
  unfold api.saveAlertStates, api.Log, api.emit, Go.bind, Go.modify.
  destruct (saveAlertStates_loop_run srv states
              (api.mkSt (api.world s)
                 (api.trace s ++
                  [api.Logged
                     (log.mk log.Debug "saving alert states"
                        [("count", log.Int (Z.of_nat (length states)))])])))
    as (s' & Hrun & Hw & Hsaved & Hlogged & Hlook & Hput & Hurl).
  exists s'. simpl in *. rewrite Hrun.
  revert Hsaved Hlogged Hlook Hput Hurl. readings. done.
Qed.

(** The events of a batch of saves: the saves, one per state and in order,
    with neither a lookup of an alertmanager nor a push among them. *)
Lemma saveAlertStates_loop_events (srv : api.LogzioAlertingService)
    (states : list state.State.t) :
  forall s : api.St,
  exists s' new,
    api.saveAlertStates_loop imports srv states s = (Go.Returned tt, s') /\
    api.trace s' = api.trace s ++ new /\
    api.saved_commands new = map api.SaveAlertInstanceCommand_of states /\
    api.alertmanager_lookups new = [] /\
    api.alerts_put new = [].
Proof.
  induction states as [|st rest IH]; intros s; simpl.
  - exists s, []. by rewrite app_nil_r.
  - unfold api.saveAlertState, Go.bind, api.call, api.Log, api.emit, Go.modify, Go.ret.
    destruct (api.SaveAlertInstance (api.InstanceStore_ srv)
                (api.SaveAlertInstanceCommand_of st) (api.world s)) as [[err|] w1];
      simpl;
      match goal with
      | |- context [api.saveAlertStates_loop imports srv rest ?s1] =>
          destruct (IH s1) as (s2 & new & Hrun & Htrace & Hsaved & Hlook & Hput)
      end;
      rewrite Hrun; exists s2; eexists; (split; [reflexivity|]);
      rewrite Htrace; simpl; rewrite <- ?app_assoc; simpl;
      (split; [reflexivity|]);
      simpl; rewrite Hsaved, Hlook, Hput; done.
Qed.

Lemma saveAlertStates_events (srv : api.LogzioAlertingService)
    (states : list state.State.t) (s : api.St) :
  exists s' new,
    api.saveAlertStates imports srv states s = (Go.Returned tt, s') /\
    api.trace s' = api.trace s ++ new /\
    api.saved_commands new = map api.SaveAlertInstanceCommand_of states /\
    api.alertmanager_lookups new = [] /\
    api.alerts_put new = [].
Proof.
  unfold api.saveAlertStates, api.Log, api.emit, Go.bind, Go.modify.
  match goal with
  | |- context [api.saveAlertStates_loop imports srv states ?s1] =>
      destruct (saveAlertStates_loop_events srv states s1)
        as (s2 & new & Hrun & Htrace & Hsaved & Hlook & Hput)
  end.
  rewrite Hrun. exists s2. eexists. split; [reflexivity|].
  rewrite Htrace. simpl. rewrite <- app_assoc. simpl.
  split; [reflexivity|].
  simpl. by rewrite Hsaved, Hlook, Hput.
Qed.

(** C7. A failed [SaveAlertInstance] does not stop the batch:
    [saveAlertStates] returns after sending one command per state, in
    order, whatever the store replies, and logs one failure for each state
    whose save failed, with the reply of the store. *)
Theorem save_failure_does_not_abort_batch (srv : api.LogzioAlertingService)
    (states : list state.State.t) (s : api.St) :
  let cmds := map api.SaveAlertInstanceCommand_of states in
  let replies := (api.store_replies (api.InstanceStore_ srv) cmds (api.world s)).1 in
  exists s',
    api.saveAlertStates imports srv states s = (Go.Returned tt, s') /\
    api.saved_commands (api.trace s') = api.saved_commands (api.trace s) ++ cmds /\
    length cmds = length states /\
    api.save_failures_logged (api.trace s')
    = api.save_failures_logged (api.trace s)
      ++ api.expected_failures imports states replies.
Proof.
  intros cmds replies.
  destruct (saveAlertStates_run srv states s)
    as (s' & Hrun & _ & Hsaved & Hlogged & _).
  exists s'. repeat split; try done. apply length_map.
Qed.

Lemma command_matches_of (st : state.State.t) :
  api.command_matches st (api.SaveAlertInstanceCommand_of st).
Proof. repeat split. Qed.

(** C8. The command sent to the instance store for a processed state
    carries the organization id, rule UID, label set, state (as its string
    form), last evaluation time, start ([CurrentStateSince = StartsAt]) and
    end ([CurrentStateEnd = EndsAt]) of that state: the commands sent by
    [saveAlertStates] match the states one for one. *)
Theorem save_command_carries_state (srv : api.LogzioAlertingService)
    (states : list state.State.t) (s : api.St) :
  exists s' cmds,
    api.saveAlertStates imports srv states s = (Go.Returned tt, s') /\
    api.saved_commands (api.trace s') = api.saved_commands (api.trace s) ++ cmds /\
    Forall2 api.command_matches states cmds.
Proof.
  destruct (saveAlertStates_run srv states s) as (s' & Hrun & _ & Hsaved & _).
  exists s', (map api.SaveAlertInstanceCommand_of states).
  repeat split; try done.
  clear. induction states as [|st rest IH]; simpl; constructor;
    [apply command_matches_of | exact IH].
Qed.

End persistence.

(** ** The process endpoint and the alertmanager of the organization *)

Section dispatch.

Context `{api.Types}.
Variable imports : api.Imports.

(** The conversion to postable alerts is called once, with the URL held by
    the service, however the request ends. *)
Lemma RouteProcessAlert_appURL (srv : api.LogzioAlertingService)
    (request : apimodels.AlertProcessRequest.t api.AlertQuery eval.NumberValueCapture.t)
    (s : api.St) :
  api.appURLs_passed (api.trace (api.RouteProcessAlert imports srv request s).2)
  = api.appURLs_passed (api.trace s) ++ [api.AppUrl srv].
Proof.
  unfold api.RouteProcessAlert, Go.bind, api.call.
  destruct (api.ProcessEvalResults _ _ _ _) as [processed w1].
  match goal with
  | |- context [api.saveAlertStates imports srv processed ?s1] =>
      destruct (saveAlertStates_run imports srv processed s1)
        as (s2 & Hrun & _ & _ & _ & _ & _ & Hurl); rewrite Hrun
  end.
  simpl in Hurl.
  destruct (api.FromAlertStateToPostableAlerts _ _ _ _ _) as [alerts w3].
  destruct (api.AlertmanagerFor _ _ _) as [[n [err|]] w4]; simpl.
  - destruct (Go.errors_Is err notifier.ErrNoAlertmanagerForOrg); simpl;
      readings; rewrite Hurl; readings; done.
  - destruct n as [n|]; simpl.
    + destruct (api.PutAlerts n alerts w4) as [[err|] w5]; simpl;
        readings; rewrite Hurl; readings; done.
    + readings; rewrite Hurl; readings; done.
Qed.

(** C2, as amended. A process request for an organization without an
    alertmanager gets the no-route error: status 400, carrying an error that
    is [ErrNoAlertmanagerForOrg], after a single lookup and without any
    [PutAlerts]. The processed states are saved all the same, and before the
    lookup: the events of the request are those before the lookup of the
    alertmanager, among which the instance store receives one command per
    processed state, in order, then the lookup, then events without any
    save. *)
Theorem no_route_returned_after_saving (srv : api.LogzioAlertingService)
    (request : apimodels.AlertProcessRequest.t api.AlertQuery eval.NumberValueCapture.t)
    (s : api.St) :
  let orgID := apimodels.ApiAlertRule.OrgID (apimodels.AlertProcessRequest.AlertRule request) in
  api.no_alertmanager_for (api.MultiOrgAlertmanager_ srv) orgID ->
  exists err s' before after,
    api.RouteProcessAlert imports srv request s
    = (Go.Returned
         (response.Error http.StatusBadRequest
            "Alert manager for organization not found" err), s') /\
    Go.errors_Is err notifier.ErrNoAlertmanagerForOrg = true /\
    api.trace s' = api.trace s ++ before ++ [api.AlertmanagerForCalled orgID] ++ after /\
    api.saved_commands before
    = map api.SaveAlertInstanceCommand_of
        (api.processed_states srv request (api.world s)) /\
    api.alertmanager_lookups before = [] /\
    api.saved_commands after = [] /\
    api.alertmanager_lookups after = [] /\
    api.alerts_put (before ++ after) = [] /\
    api.alertmanager_lookups (api.trace s')
    = api.alertmanager_lookups (api.trace s) ++ [orgID] /\
    api.alerts_put (api.trace s') = api.alerts_put (api.trace s) /\
    api.saved_commands (api.trace s')
    = api.saved_commands (api.trace s)
      ++ map api.SaveAlertInstanceCommand_of
           (api.processed_states srv request (api.world s)).
Proof.
  intros orgID Hno.
  unfold api.processed_states, api.RouteProcessAlert, Go.bind, api.call.
  destruct (api.ProcessEvalResults _ _ _ _) as [processed w1].
  match goal with
  | |- context [api.saveAlertStates imports srv processed ?s1] =>
      destruct (saveAlertStates_events imports srv processed s1)
        as (s2 & new & Hrun & Htrace & Hsaved & Hlook & Hput); rewrite Hrun
  end.
  simpl in Htrace.
  destruct (api.FromAlertStateToPostableAlerts _ _ _ _ _) as [alerts w3].
  destruct (Hno w3) as (n & err & w4 & Hfor & His).
  simpl. fold orgID. rewrite Hfor, His. simpl. rewrite Htrace.
  exists err. eexists.
  eexists ([_] ++ new ++ [_]). eexists [_].
  split; [reflexivity|]. simpl. rewrite <- !app_assoc. simpl.
  split; [exact His|]. split; [reflexivity|].
  split_and!; do 3 (readings; rewrite ?Hsaved, ?Hlook, ?Hput); done.
Qed.

(** The constructor when the application URL does not parse. *)
Lemma NewLogzioAlertingService_unparseable
    (Proxy : api.AlertingProxy) (Cfg : api.Cfg) (Evaluator : api.Evaluator)
    (Clock : api.Clock) (ExpressionService : api.ExpressionService)
    (StateManager : api.Manager) (MultiOrgAlertmanager : api.MultiOrgAlertmanager)
    (InstanceStore : api.InstanceStore) (s : api.St)
    (u : option api.URL) (err : Go.error) :
  api.url_Parse imports (api.AppURL Cfg) = (u, Some err) ->
  api.NewLogzioAlertingService imports Proxy Cfg Evaluator Clock ExpressionService
    StateManager MultiOrgAlertmanager InstanceStore s
  = (Go.Returned
       (api.mkService Proxy Cfg None Evaluator Clock ExpressionService StateManager
          MultiOrgAlertmanager InstanceStore),
     api.mkSt (api.world s)
       (api.trace s ++
        [api.Logged
           (log.mk log.Error "Failed to parse application URL. Continue without it."
              [("error", log.Err err)])])).
Proof.
  intros Hparse. unfold api.NewLogzioAlertingService. rewrite Hparse. reflexivity.
Qed.

(** C10. When the configured application URL does not parse,
    [NewLogzioAlertingService] still returns a service, built from the
    collaborators it was given, with a nil [AppUrl]; every later
    [RouteProcessAlert] hands that nil URL to the postable-alert conversion
    as it is. *)
Theorem service_built_without_app_url
    (Proxy : api.AlertingProxy) (Cfg : api.Cfg) (Evaluator : api.Evaluator)
    (Clock : api.Clock) (ExpressionService : api.ExpressionService)
    (StateManager : api.Manager) (MultiOrgAlertmanager : api.MultiOrgAlertmanager)
    (InstanceStore : api.InstanceStore) (s : api.St)
    (u : option api.URL) (err : Go.error) :
  api.url_Parse imports (api.AppURL Cfg) = (u, Some err) ->
  exists srv s',
    api.NewLogzioAlertingService imports Proxy Cfg Evaluator Clock ExpressionService
      StateManager MultiOrgAlertmanager InstanceStore s = (Go.Returned srv, s') /\
    api.AppUrl srv = None /\
    srv = api.mkService Proxy Cfg None Evaluator Clock ExpressionService StateManager
            MultiOrgAlertmanager InstanceStore /\
    forall request s1,
      api.appURLs_passed (api.trace (api.RouteProcessAlert imports srv request s1).2)
      = api.appURLs_passed (api.trace s1) ++ [None].
Proof.
  intros Hparse. eexists. eexists.
  split; [by apply NewLogzioAlertingService_unparseable with (u := u) (err := err)|].
  repeat split. intros request s1. apply RouteProcessAlert_appURL.
Qed.


(** Without an error from the evaluator the results are converted one by
    one, their own errors included. *)
Lemma RouteEvaluateAlert_success (srv : api.LogzioAlertingService)
    (evalRequest : apimodels.AlertEvaluationRequest.t api.AlertQuery) (s : api.St) :
  let rule := api.apiRuleToDbAlertRule (apimodels.AlertEvaluationRequest.AlertRule evalRequest) in
  let condition :=
    ngmodels.Condition.mk (ngmodels.AlertRule.Condition rule)
      (ngmodels.AlertRule.OrgID rule) (ngmodels.AlertRule.Data rule) in
  forall results w,
    api.ConditionEval (api.Evaluator_ srv) condition
      (apimodels.AlertEvaluationRequest.EvalTime evalRequest) (api.ExpressionService_ srv)
      (api.Now (api.Clock_ srv) (api.world s)).2 = (results, None, w) ->
    exists s',
      api.RouteEvaluateAlert srv evalRequest s
      = (Go.Returned
           (response.JSONStreaming http.StatusOK (map api.evaluationResultsToApi results)),
         s').
Proof.
  intros rule condition results w Heval.
  unfold api.RouteEvaluateAlert, Go.bind, api.call. fold rule. fold condition.
  destruct (api.Now (api.Clock_ srv) (api.world s)) as [start w1]. simpl in *.
  rewrite Heval. simpl. destruct (api.Now (api.Clock_ srv) w) as [now w2]. simpl.
  eexists. reflexivity.
Qed.

End dispatch.

(** The amended C2 at the fixtures: no alertmanager for organization 1, a
    state manager that answers one state per result, and a request with one
    firing result. *)
Lemma no_route_returned_after_saving_witness :
  exists err s' before after,
    api.RouteProcessAlert fixtures.imports fixtures_more.service_per_result
      fixtures_more.firing_request fixtures.start
    = (Go.Returned
         (response.Error http.StatusBadRequest
            "Alert manager for organization not found" err), s') /\
    Go.errors_Is err notifier.ErrNoAlertmanagerForOrg = true /\
    api.trace s'
    = api.trace fixtures.start ++ before ++ [api.AlertmanagerForCalled 1] ++ after /\
    api.saved_commands before
    = map api.SaveAlertInstanceCommand_of
        (api.processed_states fixtures_more.service_per_result
           fixtures_more.firing_request (api.world fixtures.start)) /\
    api.alertmanager_lookups before = [] /\
    api.saved_commands after = [] /\
    api.alertmanager_lookups after = [] /\
    api.alerts_put (before ++ after) = [] /\
    api.alertmanager_lookups (api.trace s')
    = api.alertmanager_lookups (api.trace fixtures.start) ++ [1] /\
    api.alerts_put (api.trace s') = api.alerts_put (api.trace fixtures.start) /\
    api.saved_commands (api.trace s')
    = api.saved_commands (api.trace fixtures.start)
      ++ map api.SaveAlertInstanceCommand_of
           (api.processed_states fixtures_more.service_per_result
              fixtures_more.firing_request (api.world fixtures.start)).
Proof.
  apply (no_route_returned_after_saving fixtures.imports
           fixtures_more.service_per_result fixtures_more.firing_request
           fixtures.start).
  intros w. exists None, notifier.ErrNoAlertmanagerForOrg, w.
  split; reflexivity.
Defined.

(** C2 as stated fails: organization 1 has no alertmanager and the state
    manager answers one state for the one result of the request; the request
    gets the no-route response, and the instance store has received the
    command for that state. *)
Lemma no_route_leaves_saved_state :
  api.no_alertmanager_for fixtures.no_alertmanagers 1 /\
  api.processed_states fixtures_more.service_per_result fixtures_more.firing_request tt
  = [state.State.mk 1 "uid-1" {[ "host" := "a" ]} eval.Alerting 100 100 0] /\
  exists err s',
    api.RouteProcessAlert fixtures.imports fixtures_more.service_per_result
      fixtures_more.firing_request fixtures.start
    = (Go.Returned
         (response.Error http.StatusBadRequest
            "Alert manager for organization not found" err), s') /\
    api.saved_commands (api.trace s')
    = [ngmodels.SaveAlertInstanceCommand.mk 1 "uid-1" {[ "host" := "a" ]} "Alerting"
         100 100 0] /\
    api.saved_commands (api.trace s') <> api.saved_commands (api.trace fixtures.start).
Proof.
  split_and!.
  - intros w. exists None, notifier.ErrNoAlertmanagerForOrg, w. split; reflexivity.
  - reflexivity.
  - eexists. eexists. split; [reflexivity|]. split; [reflexivity|]. discriminate.
Qed.

(** C10 at the fixtures: an application URL without a scheme. *)
Lemma service_built_without_app_url_witness :
  exists (srv : @api.LogzioAlertingService fixtures.types) s',
    api.NewLogzioAlertingService fixtures.imports tt (@api.mkCfg ":3000")
      fixtures.failing_evaluator fixtures.clock tt fixtures.manager
      fixtures.no_alertmanagers fixtures.store fixtures.start = (Go.Returned srv, s') /\
    api.AppUrl srv = None /\
    srv = @api.mkService fixtures.types tt (@api.mkCfg ":3000") None
            fixtures.failing_evaluator fixtures.clock tt fixtures.manager
            fixtures.no_alertmanagers fixtures.store /\
    forall request s1,
      api.appURLs_passed
        (api.trace (api.RouteProcessAlert fixtures.imports srv request s1).2)
      = api.appURLs_passed (api.trace s1) ++ [None].
Proof.
  apply (@service_built_without_app_url fixtures.types fixtures.imports tt
           (@api.mkCfg ":3000") fixtures.failing_evaluator fixtures.clock tt
           fixtures.manager fixtures.no_alertmanagers fixtures.store fixtures.start
           None (Go.Sentinel "missing protocol scheme")).
  reflexivity.
Defined.

(** ** The offset of a job *)

Section offset.

Import Go.Float64.

Lemma wrap64_in_range (x : Z) :
  Go.int64_min <= x <= Go.int64_max -> Go.wrap64 x = x.
Proof.
  unfold Go.wrap64, Go.int64_min, Go.int64_max. intros Hx.
  rewrite Z.mod_small; lia.
Qed.

Lemma scale_pos : 0 < scale.
Proof. unfold scale. apply Z.pow_pos_nonneg; lia. Qed.

Lemma rne_nonneg (n d : Z) : 0 <= n -> 0 < d -> 0 <= rne n d.
Proof.
  intros Hn Hd. unfold rne.
  assert (0 <= n / d) by (apply Z.div_pos; lia).
  repeat case_match; lia.
Qed.

(** Rounding to an integer does not pass an integer bound. *)
Lemma rne_le (n d J : Z) : 0 < d -> n <= J * d -> rne n d <= J.
Proof.
  intros Hd Hn. unfold rne.
  pose proof (Z.div_mod n d ltac:(lia)) as Hdm.
  pose proof (Z.mod_pos_bound n d Hd) as Hr.
  assert (n / d <= J) by nia.
  destruct (2 * (n mod d) <? d) eqn:Hlo; [lia|].
  apply Z.ltb_ge in Hlo.
  assert (n / d < J) by nia.
  repeat case_match; lia.
Qed.

Lemma round_nonneg (n d : Z) : 0 <= n -> 0 < d -> 0 <= round n d.
Proof.
  intros Hn Hd. unfold round.
  set (shift := Z.max 0 (Z.log2 (Z.abs n / d) - 52)).
  assert (0 < 2 ^ shift) by (apply Z.pow_pos_nonneg; lia).
  assert (0 <= rne (Z.abs n) (d * 2 ^ shift)) by (apply rne_nonneg; lia).
  assert (0 <= Z.sgn n) by lia.
  nia.
Qed.

(** Rounding to a binary64 number does not pass a power of two. *)
Lemma round_le_pow2 (n d j : Z) :
  0 <= n -> 0 < d -> 0 <= j -> n <= 2 ^ j * d -> round n d <= 2 ^ j.
Proof.
  intros Hn Hd Hj Hle. unfold round. rewrite (Z.abs_eq n) by lia.
  set (q := n / d).
  set (shift := Z.max 0 (Z.log2 q - 52)).
  assert (Hq : q <= 2 ^ j).
  { unfold q. apply Z.div_le_upper_bound; lia. }
  assert (Hlog : Z.log2 q <= j).
  { rewrite <- (Z.log2_pow2 j) by lia. by apply Z.log2_le_mono. }
  assert (Hshift : 0 <= shift <= j) by lia.
  assert (Hpow : 2 ^ j = 2 ^ (j - shift) * 2 ^ shift).
  { rewrite <- Z.pow_add_r by lia. f_equal. lia. }
  assert (0 < 2 ^ shift) by (apply Z.pow_pos_nonneg; lia).
  assert (0 < 2 ^ (j - shift)) by (apply Z.pow_pos_nonneg; lia).
  assert (Hr : rne n (d * 2 ^ shift) <= 2 ^ (j - shift)).
  { apply rne_le; [nia|]. rewrite Hpow in Hle. nia. }
  assert (0 <= rne n (d * 2 ^ shift)) by (apply rne_nonneg; nia).
  rewrite Hpow.
  destruct (Z.sgn_spec n) as [[? ->]|[[? ->]|[? ->]]]; nia.
Qed.

Lemma of_int_1000 : of_int 1000 = 1000 * scale.
Proof. vm_compute. reflexivity. Qed.

Lemma of_int_bounds (x : Z) :
  0 <= x <= Go.int64_max -> 0 <= of_int x <= 2 ^ 63 * scale.
Proof.
  intros Hx. unfold of_int. pose proof scale_pos.
  split; [apply round_nonneg; nia|].
  unfold scale at 2. rewrite <- Z.pow_add_r by lia.
  apply round_le_pow2; [nia | lia | lia |].
  rewrite Z.pow_add_r by lia. fold scale.
  unfold Go.int64_max in Hx. nia.
Qed.

Lemma div_1000_bounds (a : Z) :
  0 <= a <= 2 ^ 63 * scale -> 0 <= div a (1000 * scale) <= 2 ^ 54 * scale.
Proof.
  intros Ha. pose proof scale_pos. unfold div.
  replace (0 <? 1000 * scale) with true by (symmetry; apply Z.ltb_lt; lia).
  split; [apply round_nonneg; nia|].
  unfold scale at 3. rewrite <- Z.pow_add_r by lia.
  apply round_le_pow2; [nia | lia | lia |].
  rewrite Z.pow_add_r by lia. fold scale.
  assert (2 ^ 63 <= 2 ^ 54 * 1000) by (vm_compute; discriminate).
  nia.
Qed.

Lemma to_int64_Floor_bounds (a : Z) :
  0 <= a <= 2 ^ 54 * scale -> 0 <= to_int64 (Floor a) <= 2 ^ 54.
Proof.
  intros Ha. pose proof scale_pos. unfold to_int64, Floor.
  rewrite Z.quot_mul by lia.
  assert (0 <= a / scale) by (apply Z.div_pos; lia).
  assert (a / scale <= 2 ^ 54) by (apply Z.div_le_upper_bound; lia).
  unfold Go.int64_min, Go.int64_max.
  assert (2 ^ 54 <= 2 ^ 63 - 1) by (vm_compute; discriminate).
  replace (- 2 ^ 63 <=? a / scale) with true by (symmetry; apply Z.leb_le; lia).
  replace (a / scale <=? 2 ^ 63 - 1) with true by (symmetry; apply Z.leb_le; lia).
  simpl. lia.
Qed.

End offset.

(** ** The legacy engine: one evaluation of one rule *)

Section engine_runs.

Context `{models.Types} {World : Type}.
Variable cfg : setting.t.
Variable e : @alerting.AlertEvaluatorEngine _ World.

Lemma evaluated_app (tr1 tr2 : list (@alerting.Event _)) :
  alerting.evaluated (tr1 ++ tr2) = alerting.evaluated tr1 ++ alerting.evaluated tr2.
Proof. apply omap_app. Qed.

Lemma handled_app (tr1 tr2 : list (@alerting.Event _)) :
  alerting.handled (tr1 ++ tr2) = alerting.handled tr1 ++ alerting.handled tr2.
Proof. apply omap_app. Qed.

Lemma running_sets_app (tr1 tr2 : list (@alerting.Event _)) :
  alerting.running_sets (tr1 ++ tr2)
  = alerting.running_sets tr1 ++ alerting.running_sets tr2.
Proof. apply omap_app. Qed.

Lemma send_with_room {A} (c : Go.chan A) (x : A) :
  Go.closed c = false ->
  Z.of_nat (length (Go.buf c)) < Go.cap c ->
  Go.send c x = Go.Returned (Go.mkChan (Go.cap c) (Go.buf c ++ [x]) false).
Proof.
  intros Hopen Hroom. unfold Go.send. rewrite Hopen.
  by replace (Z.of_nat (length (Go.buf c)) <? Go.cap c) with true
    by (symmetry; apply Z.ltb_lt; lia).
Qed.

Lemma send_returned {A} (c c' : Go.chan A) (x : A) :
  Go.send c x = Go.Returned c' ->
  Go.closed c = false /\
  Z.of_nat (length (Go.buf c)) < Go.cap c /\
  c' = Go.mkChan (Go.cap c) (Go.buf c ++ [x]) false.
Proof.
  unfold Go.send. destruct (Go.closed c); [discriminate|].
  destruct (Z.ltb_spec (Z.of_nat (length (Go.buf c))) (Go.cap c)); [|discriminate].
  by intros [= <-].
Qed.

Lemma make_chan_fits {A} (elemsize n : Z) :
  0 <= n ->
  elemsize * n <= Go.maxAlloc - Go.hchanSize ->
  @Go.make_chan A elemsize n = Go.Returned (Go.mkChan n [] false).
Proof.
  intros Hn Hfit. unfold Go.make_chan.
  replace (n <? 0) with false by (symmetry; apply Z.ltb_ge; lia).
  by replace (Go.maxAlloc - Go.hchanSize <? elemsize * n) with false
    by (symmetry; apply Z.ltb_ge; lia).
Qed.

Lemma make_chan_returned {A} (elemsize n : Z) (c : Go.chan A) :
  Go.make_chan elemsize n = Go.Returned c ->
  0 <= n /\ elemsize * n <= Go.maxAlloc - Go.hchanSize /\ c = Go.mkChan n [] false.
Proof.
  unfold Go.make_chan.
  destruct (Z.ltb_spec n 0); [discriminate|].
  destruct (Z.ltb_spec (Go.maxAlloc - Go.hchanSize) (elemsize * n)); [discriminate|].
  simpl. by intros [= <-].
Qed.

Lemma make_chan_out_of_range {A} (elemsize n : Z) :
  n < 0 \/ Go.maxAlloc - Go.hchanSize < elemsize * n ->
  @Go.make_chan A elemsize n = Go.Panicked "makechan: size out of range".
Proof.
  intros Hout. unfold Go.make_chan.
  destruct (Z.ltb_spec n 0); [done|].
  destruct (Z.ltb_spec (Go.maxAlloc - Go.hchanSize) (elemsize * n)); [done | lia].
Qed.

Lemma make_chan_one {A} :
  @Go.make_chan A Go.PtrSize 1 = Go.Returned (Go.mkChan 1 [] false).
Proof. apply make_chan_fits; [lia | vm_compute; discriminate]. Qed.

(** The job that [handleRule] builds. *)
Lemma handleRule_job_run (rule : alerting.Rule.t) (evalTime : Time)
    (s : @alerting.St _ World) :
  alerting.handleRule_job rule evalTime s
  = (Go.Returned
       (alerting.Job.mk _ (alerting.jobOffset rule) false false false (Some rule) false
          evalTime None),
     alerting.mkSt (alerting.world s)
       (alerting.trace s
        ++ [alerting.Locked; alerting.RunningSet false; alerting.Unlocked])
       (alerting.contexts s)).
Proof.
  unfold alerting.handleRule_job, alerting.SetRunning, Go.bind, alerting.lift,
    alerting.emit, Go.modify, Go.ret. simpl.
  by rewrite <- !app_assoc.
Qed.

Ltac close_events :=
  simpl; rewrite <- ?app_assoc; simpl;
  eexists; split; [reflexivity|];
  split; repeat constructor.

(** Whatever way [processJob] ends, it leaves the running flag and its lock
    alone, and calls the evaluator and the result handler under the context
    of their phase. *)
Lemma processJob_events (attemptID : Z) (attemptChan : Go.chan Z)
    (cancelChan : Go.chan nat) (job : alerting.Job.t) (s : @alerting.St _ World) :
  exists new,
    alerting.trace (alerting.processJob cfg e attemptID attemptChan cancelChan job s).2
    = alerting.trace s ++ new /\
    Forall alerting.leaves_running_alone new /\
    Forall (alerting.under_phase_context cfg (alerting.contexts s)) new.
Proof.
  unfold alerting.processJob, Go.bind, alerting.WithTimeout, alerting.lift,
    alerting.emit, alerting.call, alerting.Log, alerting.emit, Go.modify, Go.panic,
    Go.ret.
  simpl.
  destruct (Go.send cancelChan (alerting.contexts s)) as [cc1| |msg1]; [|close_events..].
  simpl. destruct (alerting.Job.Rule job) as [rule|]; [|close_events].
  destruct (alerting.evalHandler_Eval e _ _) as [ec1 w1]. simpl.
  destruct (alerting.EvalContext.Error ec1) as [err|]; simpl;
    (destruct (Go.send cc1 (S (alerting.contexts s))) as [cc2| |msg2];
     [|close_events..]);
    simpl;
    destruct (alerting.resultHandler_handle e _ _) as [[ec2 [herr|]] w2]; simpl;
    repeat (match goal with
            | |- context [if ?b then _ else _] => destruct b
            end; simpl);
    destruct (Go.close attemptChan) as [ac| |msg3]; close_events.
Qed.

(** With room for the two cancel functions, [processJob] returns: the
    evaluator runs once, then the result handler once, on the context the
    evaluator left, and the job gets the context the handler left. *)
Lemma processJob_run (attemptID : Z) (attemptChan : Go.chan Z)
    (cancelChan : Go.chan nat) (job : alerting.Job.t) (rule : alerting.Rule.t)
    (s : @alerting.St _ World) :
  alerting.Job.Rule job = Some rule ->
  alerting.has_room cancelChan ->
  Go.closed attemptChan = false ->
  exists ec0 ec1 w1 ech ec2 herr w2 chans job' s' new,
    alerting.processJob cfg e attemptID attemptChan cancelChan job s
    = (Go.Returned (chans, job'), s') /\
    alerting.trace s' = alerting.trace s ++ new /\
    alerting.evaluated new = [ec0] /\
    alerting.handled new = [ech] /\
    alerting.running_sets new = [] /\
    (forall flag, alerting.running_at_calls flag new = [flag; flag]) /\
    alerting.EvalContext.Ctx ec0 = alerting.evaluation_context cfg (alerting.contexts s) /\
    alerting.EvalContext.Rule ec0 = rule /\
    alerting.evalHandler_Eval e ec0 (alerting.world s) = (ec1, w1) /\
    alerting.EvalContext.Ctx ech
    = alerting.notification_context cfg (S (alerting.contexts s)) /\
    alerting.EvalContext.Error ech = alerting.EvalContext.Error ec1 /\
    alerting.resultHandler_handle e ech w1 = (ec2, herr, w2) /\
    alerting.Job.Result job' = Some ec2 /\
    alerting.Job.Offset job' = alerting.Job.Offset job /\
    alerting.world s' = w2.
Proof.
  intros Hrule [Hopen Hroom] Hattempt.
  unfold alerting.processJob, Go.bind, alerting.WithTimeout, alerting.lift,
    alerting.emit, alerting.call, alerting.Log, alerting.emit, Go.modify, Go.panic,
    Go.ret.
  simpl. rewrite send_with_room by (done || lia). simpl. rewrite Hrule.
  destruct (alerting.evalHandler_Eval e _ _) as [ec1 w1] eqn:Heval. simpl.
  assert (Hsend : forall x,
             Go.send (Go.mkChan (Go.cap cancelChan)
                        (Go.buf cancelChan ++ [alerting.contexts s]) false) x
             = Go.Returned (Go.mkChan (Go.cap cancelChan)
                              ((Go.buf cancelChan ++ [alerting.contexts s]) ++ [x])
                              false)).
  { intros x. rewrite send_with_room; simpl; [done | done |].
    rewrite length_app. simpl. lia. }
  assert (Hclose : Go.close attemptChan
                   = Go.Returned (Go.mkChan (Go.cap attemptChan) (Go.buf attemptChan) true)).
  { unfold Go.close. by rewrite Hattempt. }
  destruct (alerting.EvalContext.Error ec1) as [err|] eqn:Herr; simpl;
    rewrite Hsend; simpl;
    destruct (alerting.resultHandler_handle e _ _) as [[ec2 herr] w2] eqn:Hhandle;
    simpl;
    destruct herr as [herr|]; simpl;
    repeat (match goal with
            | |- context [if ?b then _ else _] => destruct b
            end; simpl);
    rewrite Hclose; simpl; rewrite <- ?app_assoc; simpl;
    do 11 eexists;
    (split; [reflexivity|]); (split; [reflexivity|]);
    simpl in *; split_and!; intros; first [eassumption | reflexivity | done].
Qed.

(** Whatever way [processJob] ends, the one timer started before the
    evaluator is called is the timer of the evaluation, and the result
    handler is not called before the evaluator. *)
Lemma processJob_order (attemptID : Z) (attemptChan : Go.chan Z)
    (cancelChan : Go.chan nat) (job : alerting.Job.t) (s : @alerting.St _ World) :
  exists new,
    alerting.trace (alerting.processJob cfg e attemptID attemptChan cancelChan job s).2
    = alerting.trace s ++ new /\
    readings.timers_started (alerting.before_evaluation new)
    = [(alerting.contexts s, setting.AlertingEvaluationTimeout cfg)] /\
    alerting.handled (alerting.before_evaluation new) = [].
Proof.
  unfold alerting.processJob, Go.bind, alerting.WithTimeout, alerting.lift,
    alerting.emit, alerting.call, alerting.Log, alerting.emit, Go.modify, Go.panic,
    Go.ret.
  simpl.
  destruct (Go.send cancelChan (alerting.contexts s)) as [cc1| |msg1];
    [|close_events..].
  simpl. destruct (alerting.Job.Rule job) as [rule|]; [|close_events].
  destruct (alerting.evalHandler_Eval e _ _) as [ec1 w1]. simpl.
  destruct (alerting.EvalContext.Error ec1) as [err|]; simpl;
    (destruct (Go.send cc1 (S (alerting.contexts s))) as [cc2| |msg2];
     [|close_events..]);
    simpl;
    destruct (alerting.resultHandler_handle e _ _) as [[ec2 [herr|]] w2]; simpl;
    repeat (match goal with
            | |- context [if ?b then _ else _] => destruct b
            end; simpl);
    destruct (Go.close attemptChan) as [ac| |msg3]; close_events.
Qed.

(** With room for the two cancel functions, the timer of the notification
    is started after the evaluator was called and before the result handler
    is; no other timer is started. *)
Lemma processJob_run_order (attemptID : Z) (attemptChan : Go.chan Z)
    (cancelChan : Go.chan nat) (job : alerting.Job.t) (rule : alerting.Rule.t)
    (s : @alerting.St _ World) :
  alerting.Job.Rule job = Some rule ->
  alerting.has_room cancelChan ->
  Go.closed attemptChan = false ->
  exists new,
    alerting.trace (alerting.processJob cfg e attemptID attemptChan cancelChan job s).2
    = alerting.trace s ++ new /\
    readings.timers_started new
    = [(alerting.contexts s, setting.AlertingEvaluationTimeout cfg);
       (S (alerting.contexts s), setting.AlertingNotificationTimeout cfg)] /\
    readings.timers_started (alerting.before_evaluation new)
    = [(alerting.contexts s, setting.AlertingEvaluationTimeout cfg)] /\
    readings.timers_started (alerting.before_handling (alerting.after_evaluation new))
    = [(S (alerting.contexts s), setting.AlertingNotificationTimeout cfg)] /\
    alerting.handled (alerting.before_handling new) = [] /\
    length (alerting.handled (alerting.after_evaluation new)) = 1%nat.
Proof.
  intros Hrule [Hopen Hroom] Hattempt.
  unfold alerting.processJob, Go.bind, alerting.WithTimeout, alerting.lift,
    alerting.emit, alerting.call, alerting.Log, alerting.emit, Go.modify, Go.panic,
    Go.ret.
  simpl. rewrite send_with_room by (done || lia). simpl. rewrite Hrule.
  destruct (alerting.evalHandler_Eval e _ _) as [ec1 w1] eqn:Heval. simpl.
  assert (Hsend : forall x,
             Go.send (Go.mkChan (Go.cap cancelChan)
                        (Go.buf cancelChan ++ [alerting.contexts s]) false) x
             = Go.Returned (Go.mkChan (Go.cap cancelChan)
                              ((Go.buf cancelChan ++ [alerting.contexts s]) ++ [x])
                              false)).
  { intros x. rewrite send_with_room; simpl; [done | done |].
    rewrite length_app. simpl. lia. }
  assert (Hclose : Go.close attemptChan
                   = Go.Returned (Go.mkChan (Go.cap attemptChan) (Go.buf attemptChan) true)).
  { unfold Go.close. by rewrite Hattempt. }
  destruct (alerting.EvalContext.Error ec1) as [err|] eqn:Herr; simpl;
    rewrite Hsend; simpl;
    destruct (alerting.resultHandler_handle e _ _) as [[ec2 herr] w2] eqn:Hhandle;
    simpl;
    destruct herr as [herr|]; simpl;
    repeat (match goal with
            | |- context [if ?b then _ else _] => destruct b
            end; simpl);
    rewrite Hclose; simpl; rewrite <- ?app_assoc; simpl;
    eexists; (split; [reflexivity|]); simpl; split_and!; reflexivity.
Qed.

(** [processJob] returns only with room for the two cancel functions, on
    an open attempt channel and for a job that has its rule. *)
Lemma processJob_returned (attemptID : Z) (attemptChan : Go.chan Z)
    (cancelChan : Go.chan nat) (job : alerting.Job.t) (s s' : @alerting.St _ World) r :
  alerting.processJob cfg e attemptID attemptChan cancelChan job s = (Go.Returned r, s') ->
  alerting.has_room cancelChan /\
  Go.closed attemptChan = false /\
  is_Some (alerting.Job.Rule job).
Proof.
  unfold alerting.processJob, Go.bind, alerting.WithTimeout, alerting.lift,
    alerting.emit, alerting.call, alerting.Log, alerting.emit, Go.modify, Go.panic,
    Go.ret.
  simpl.
  destruct (Go.send cancelChan (alerting.contexts s)) as [cc1| |msg1] eqn:Hsend1;
    [|discriminate..].
  apply send_returned in Hsend1 as (Hopen & Hlt1 & ->).
  simpl. destruct (alerting.Job.Rule job) as [rule|]; [|discriminate].
  destruct (alerting.evalHandler_Eval e _ _) as [ec1 w1]. simpl.
  destruct (alerting.EvalContext.Error ec1) as [err|]; simpl;
    (destruct (Go.send _ (S (alerting.contexts s))) as [cc2| |msg2] eqn:Hsend2;
     [|discriminate..]);
    apply send_returned in Hsend2 as (_ & Hlt2 & _);
    simpl in Hlt2; rewrite length_app in Hlt2; simpl in Hlt2;
    simpl;
    destruct (alerting.resultHandler_handle e _ _) as [[ec2 [herr|]] w2]; simpl;
    repeat (match goal with
            | |- context [if ?b then _ else _] => destruct b
            end; simpl);
    (destruct (Go.close attemptChan) as [ac| |msg3] eqn:Hclose; [|discriminate..]);
    intros _; unfold Go.close in Hclose;
    (destruct (Go.closed attemptChan); [discriminate|]);
    (split_and!; [split; [done | lia] | done | done]).
Qed.

(** [handleRule] whatever way it ends: the flag is written once, with
    false, under the lock, before anything else happens. *)
Lemma handleRule_events (rule : alerting.Rule.t) (evalTime : Time)
    (s : @alerting.St _ World) :
  exists new,
    alerting.trace (alerting.handleRule cfg e rule evalTime s).2
    = alerting.trace s
      ++ [alerting.Locked; alerting.RunningSet false; alerting.Unlocked] ++ new /\
    Forall alerting.leaves_running_alone new /\
    Forall (alerting.under_phase_context cfg (alerting.contexts s)) new.
Proof.
  unfold alerting.handleRule, Go.bind. rewrite handleRule_job_run.
  unfold alerting.lift.
  destruct (Go.make_chan Go.PtrSize (Go.wrap64 _)) as [cancelChan| |msg];
    rewrite ?make_chan_one; simpl;
    [|exists []; simpl; split_and!; [done | constructor | constructor]..].
  match goal with
  | |- context [alerting.processJob cfg e ?a ?ac ?cc ?j ?s1] =>
      destruct (processJob_events a ac cc j s1) as (new & Htrace & Hquiet & Hctx);
      destruct (alerting.processJob cfg e a ac cc j s1) as [[[[ac' cc'] job']| |msg] s2]
  end;
    simpl in *; exists new; rewrite Htrace, <- app_assoc; done.
Qed.


(** [handleRule] returns only when the configured attempts give a channel
    with room for the two cancel functions. *)
Lemma handleRule_returned (rule : alerting.Rule.t) (evalTime : Time)
    (s s' : @alerting.St _ World) r :
  alerting.handleRule cfg e rule evalTime s = (Go.Returned r, s') ->
  alerting.attempts_fit cfg.
Proof.
  unfold alerting.handleRule, Go.bind. rewrite handleRule_job_run.
  unfold alerting.lift.
  destruct (Go.make_chan Go.PtrSize (Go.wrap64 _)) as [cancelChan| |msg] eqn:Hmake;
    [|discriminate..].
  apply make_chan_returned in Hmake as (Hn & Hfit & ->).
  rewrite make_chan_one. simpl.
  match goal with
  | |- context [alerting.processJob cfg e ?a ?ac ?cc ?j ?s1] =>
      destruct (alerting.processJob cfg e a ac cc j s1)
        as [[[[ac' cc'] job']| |msg] s2] eqn:Hrun; [|discriminate..]
  end.
  intros _. apply processJob_returned in Hrun as ([_ Hroom] & _).
  simpl in Hroom. split; [exact Hroom | exact Hfit].
Qed.

(** Events that leave the running flag alone write nothing to it, and the
    calls among them see the flag as it was. *)
Lemma quiet_running_sets (new : list (@alerting.Event _)) :
  Forall alerting.leaves_running_alone new -> alerting.running_sets new = [].
Proof.
  induction 1 as [|ev new Hev _ IH]; [done|].
  destruct ev; simpl in *; done.
Qed.

Lemma quiet_never_sets (new : list (@alerting.Event _)) (b : bool) :
  Forall alerting.leaves_running_alone new -> ~ In (alerting.RunningSet b) new.
Proof.
  induction 1 as [|ev new Hev _ IH]; [by intros []|].
  intros [->|Hin]; [exact Hev | exact (IH Hin)].
Qed.

Lemma quiet_running_at_calls (new : list (@alerting.Event _)) (flag : bool) :
  Forall alerting.leaves_running_alone new ->
  Forall (eq flag) (alerting.running_at_calls flag new).
Proof.
  induction 1 as [|ev new Hev _ IH]; [constructor|].
  destruct ev; simpl in *; try done; by constructor.
Qed.



Lemma phase_contexts_independent (id : nat) :
  alerting.independent (alerting.evaluation_context cfg id)
    (alerting.notification_context cfg (S id)).
Proof.
  unfold alerting.independent, alerting.evaluation_context,
    alerting.notification_context. simpl.
  split_and!.
  - discriminate.
  - intros [Heq|[]]. discriminate.
  - intros [Heq|[Heq|[]]]; [|discriminate]. injection Heq as _ Hid. lia.
  - intros timer [<-|[]] [Heq|[]]. injection Heq as Hid _. lia.
Qed.

End engine_runs.

Section engine_claims.

Context `{models.Types} {World : Type}.
Variable cfg : setting.t.
Variable e : @alerting.AlertEvaluatorEngine _ World.

Lemma jobOffset_nonzero (rule : alerting.Rule.t) : alerting.jobOffset rule <> 0.
Proof.
  unfold alerting.jobOffset.
  destruct (Z.eqb_spec
              (Go.Float64.to_int64
                 (Go.Float64.Floor
                    (Go.Float64.div
                       (Go.Float64.of_int (Go.wrap64 (alerting.Rule.Frequency rule * 1000)))
                       (Go.Float64.of_int 1000)))) 0); lia.
Qed.

Lemma jobOffset_positive (rule : alerting.Rule.t) :
  0 <= alerting.Rule.Frequency rule * 1000 <= Go.int64_max ->
  1 <= alerting.jobOffset rule.
Proof.
  intros Hfreq. unfold alerting.jobOffset.
  rewrite wrap64_in_range by (unfold Go.int64_min, Go.int64_max in *; lia).
  rewrite of_int_1000.
  pose proof (to_int64_Floor_bounds _
                (div_1000_bounds _ (of_int_bounds _ Hfreq))) as Hbounds.
  destruct (Z.eqb_spec
              (Go.Float64.to_int64
                 (Go.Float64.Floor
                    (Go.Float64.div
                       (Go.Float64.of_int (alerting.Rule.Frequency rule * 1000))
                       (1000 * Go.Float64.scale)))) 0); lia.
Qed.

(** C9, as amended. The Job that [handleRule] builds never has a zero
    Offset: when the offset computed from the frequency,
    [int64(math.Floor(float64(rule.Frequency * 1000) / 1000))], is zero the
    Offset is 1, and otherwise it is the computed offset; a frequency of zero
    gives the Offset 1. So a division by the Offset cannot divide by zero.
    The Offset is at least 1 for a rule whose frequency is not negative (and
    whose frequency in milliseconds fits an int64). *)
Theorem job_offset_never_zero (rule : alerting.Rule.t) (evalTime : Time)
    (s : @alerting.St _ World) :
  let computed :=
    Go.Float64.to_int64
      (Go.Float64.Floor
         (Go.Float64.div
            (Go.Float64.of_int (Go.wrap64 (alerting.Rule.Frequency rule * 1000)))
            (Go.Float64.of_int 1000))) in
  exists job s',
    alerting.handleRule_job rule evalTime s = (Go.Returned job, s') /\
    alerting.Job.Offset job <> 0 /\
    (computed = 0 -> alerting.Job.Offset job = 1) /\
    (computed <> 0 -> alerting.Job.Offset job = computed) /\
    (alerting.Rule.Frequency rule = 0 -> alerting.Job.Offset job = 1) /\
    (0 <= alerting.Rule.Frequency rule * 1000 <= Go.int64_max ->
     1 <= alerting.Job.Offset job).
Proof.
  intros computed.
  eexists. eexists. split; [apply handleRule_job_run|].
  change (alerting.Job.Offset _) with (alerting.jobOffset rule).
  pose proof (jobOffset_nonzero rule) as Hnonzero.
  pose proof (jobOffset_positive rule) as Hpositive.
  assert (Hguard : alerting.jobOffset rule = if computed =? 0 then 1 else computed)
    by reflexivity.
  assert (Hzero : alerting.Rule.Frequency rule = 0 -> computed = 0).
  { intros Hfrequency. unfold computed. rewrite Hfrequency. vm_compute. reflexivity. }
  clearbody computed.
  destruct (Z.eqb_spec computed 0) as [Hcomputed|Hcomputed].
  - split_and!; [exact Hnonzero | intros _; exact Hguard | intros Hno; by destruct Hno
                 | intros _; exact Hguard | exact Hpositive].
  - split_and!; [exact Hnonzero | intros Hno; by destruct Hcomputed | intros _; exact Hguard
                 | intros Hfrequency; by destruct Hcomputed; apply Hzero
                 | exact Hpositive].
Qed.

(** C4, as amended. [handleRule] writes the running flag of its new Job
    once, with false, under the lock of the Job, before anything else, and
    never sets it to true: however the run ends (returning, blocking or
    panicking) no later event touches the flag or the lock, so that false is
    the only value written, and every call of the evaluator and of the
    result handler is made with the flag false, whatever it was before. *)
Theorem running_flag_stays_false (rule : alerting.Rule.t) (evalTime : Time)
    (s : @alerting.St _ World) :
  exists new,
    alerting.trace (alerting.handleRule cfg e rule evalTime s).2
    = alerting.trace s
      ++ [alerting.Locked; alerting.RunningSet false; alerting.Unlocked] ++ new /\
    Forall alerting.leaves_running_alone new /\
    alerting.running_sets
      ([alerting.Locked; alerting.RunningSet false; alerting.Unlocked] ++ new)
    = [false] /\
    ~ In (alerting.RunningSet true)
        ([alerting.Locked; alerting.RunningSet false; alerting.Unlocked] ++ new) /\
    forall flag,
      Forall (eq false)
        (alerting.running_at_calls flag
           ([alerting.Locked; alerting.RunningSet false; alerting.Unlocked] ++ new)).
Proof.
  destruct (handleRule_events cfg e rule evalTime s) as (new & Htrace & Hquiet & _).
  exists new. split_and!; try done.
  - simpl. by rewrite quiet_running_sets.
  - intros [Heq|[Heq|[Heq|Hin]]]; try discriminate.
    by apply (quiet_never_sets new true).
  - intros flag. simpl. by apply quiet_running_at_calls.
Qed.

(** C5. In every execution of [processJob] the result handler is called
    under a second timeout context, made from the background context with
    the notification timeout; it is independent of the context of the
    evaluation phase: neither is derived from the other and each has a
    timer of its own. The timer of the notification is started only after
    the evaluator was called: however the run ends, the one timer started
    before the call of the evaluator is the timer of the evaluation, and
    the result handler is not called before the evaluator. With room for
    the cancel functions both phases run, each once, under these contexts,
    and the timer of the notification is started between the call of the
    evaluator and the call of the result handler. *)
Theorem notification_context_independent (attemptID : Z) (attemptChan : Go.chan Z)
    (cancelChan : Go.chan nat) (job : alerting.Job.t) (s : @alerting.St _ World) :
  let evaluation := alerting.evaluation_context cfg (alerting.contexts s) in
  let notification := alerting.notification_context cfg (S (alerting.contexts s)) in
  let evaluation_timer :=
    (alerting.contexts s, setting.AlertingEvaluationTimeout cfg) in
  let notification_timer :=
    (S (alerting.contexts s), setting.AlertingNotificationTimeout cfg) in
  alerting.independent evaluation notification /\
  Go.parent notification = Some Go.Background /\
  Go.timers notification = [notification_timer] /\
  Go.timers evaluation = [evaluation_timer] /\
  (exists new,
     alerting.trace (alerting.processJob cfg e attemptID attemptChan cancelChan job s).2
     = alerting.trace s ++ new /\
     Forall (alerting.under_phase_context cfg (alerting.contexts s)) new /\
     readings.timers_started (alerting.before_evaluation new) = [evaluation_timer] /\
     alerting.handled (alerting.before_evaluation new) = []) /\
  (forall rule,
     alerting.Job.Rule job = Some rule ->
     alerting.has_room cancelChan ->
     Go.closed attemptChan = false ->
     exists ec0 ech r s' new,
       alerting.processJob cfg e attemptID attemptChan cancelChan job s
       = (Go.Returned r, s') /\
       alerting.trace s' = alerting.trace s ++ new /\
       alerting.evaluated new = [ec0] /\
       alerting.handled new = [ech] /\
       alerting.EvalContext.Ctx ec0 = evaluation /\
       alerting.EvalContext.Ctx ech = notification /\
       readings.timers_started new = [evaluation_timer; notification_timer] /\
       readings.timers_started (alerting.before_evaluation new) = [evaluation_timer] /\
       readings.timers_started
         (alerting.before_handling (alerting.after_evaluation new))
       = [notification_timer]).
Proof.
  intros evaluation notification evaluation_timer notification_timer. split_and!.
  - apply phase_contexts_independent.
  - reflexivity.
  - reflexivity.
  - reflexivity.
  - destruct (processJob_events cfg e attemptID attemptChan cancelChan job s)
      as (new & Htrace & _ & Hctx).
    destruct (processJob_order cfg e attemptID attemptChan cancelChan job s)
      as (new' & Htrace' & Htimers & Hhandled).
    rewrite Htrace in Htrace'. apply app_inv_head in Htrace'. subst new'.
    by exists new.
  - intros rule Hrule Hroom Hopen.
    destruct (processJob_run cfg e attemptID attemptChan cancelChan job rule s
                Hrule Hroom Hopen)
      as (ec0 & ec1 & w1 & ech & ec2 & herr & w2 & chans & job' & s' & new
          & Hrun & Htrace & Hev & Hha & _ & _ & Hc0 & _ & _ & Hch & _).
    destruct (processJob_run_order cfg e attemptID attemptChan cancelChan job rule s
                Hrule Hroom Hopen)
      as (new' & Htrace' & Hall & Hbefore & Hbetween & _).
    rewrite Hrun in Htrace'. simpl in Htrace'. rewrite Htrace in Htrace'.
    apply app_inv_head in Htrace'. subst new'.
    by exists ec0, ech, (chans, job'), s', new.
Qed.

End engine_claims.

(** ** Evaluation failures on the two paths *)

Section evaluation_failures.

Context `{models.Types} {World : Type}.
Context `{api.Types}.


End evaluation_failures.

(** ** The claims at the fixtures *)



(** C4 as stated fails: in a run of [handleRule] the running flag is false
    when the evaluator is invoked and when the result handler runs, and no
    event sets it to true. *)
Lemma running_flag_never_set_true :
  let tr :=
    alerting.trace
      (alerting.handleRule fixtures.settings fixtures.engine (fixtures.legacy_rule 60)
         100 fixtures.engine_start).2 in
  alerting.running_at_calls true tr = [false; false] /\
  alerting.running_sets tr = [false] /\
  ~ In (alerting.RunningSet true) tr.
Proof.
  vm_compute. split; [reflexivity|]. split; [reflexivity|].
  intros Hin. repeat (destruct Hin as [Heq|Hin]; [discriminate|]). exact Hin.
Qed.

(** C5 at the fixtures: a job with its rule and an empty cancel channel of
    capacity six. *)
Lemma notification_context_independent_witness :
  let job :=
    @alerting.Job.mk fixtures.model_types 60 false false false
      (Some (fixtures.legacy_rule 60)) false 100 None in
  exists ec0 ech r s' new,
    alerting.processJob fixtures.settings fixtures.engine 1 (Go.mkChan 1 [1] false)
      (Go.mkChan 6 [] false) job fixtures.engine_start = (Go.Returned r, s') /\
    alerting.trace s' = alerting.trace fixtures.engine_start ++ new /\
    alerting.evaluated new = [ec0] /\
    alerting.handled new = [ech] /\
    alerting.EvalContext.Ctx ec0 = alerting.evaluation_context fixtures.settings 0 /\
    alerting.EvalContext.Ctx ech = alerting.notification_context fixtures.settings 1 /\
    readings.timers_started new = [(0%nat, 30); (1%nat, 30)] /\
    readings.timers_started (alerting.before_evaluation new) = [(0%nat, 30)] /\
    readings.timers_started (alerting.before_handling (alerting.after_evaluation new))
    = [(1%nat, 30)].
Proof.
  intros job.
  destruct (@notification_context_independent fixtures.model_types unit
              fixtures.settings fixtures.engine 1 (Go.mkChan 1 [1] false)
              (Go.mkChan 6 [] false) job fixtures.engine_start)
    as (_ & _ & _ & _ & _ & Hrun).
  apply (Hrun (fixtures.legacy_rule 60)).
  - reflexivity.
  - split; [reflexivity | vm_compute; discriminate].
  - reflexivity.
Defined.

(** The amended C9 at the fixtures: a frequency of zero, for which the
    computed offset is zero and the guard gives the Offset 1. *)
Lemma job_offset_never_zero_witness :
  Go.Float64.to_int64
    (Go.Float64.Floor
       (Go.Float64.div (Go.Float64.of_int (Go.wrap64 (0 * 1000)))
          (Go.Float64.of_int 1000))) = 0 /\
  exists job s',
    alerting.handleRule_job (fixtures.legacy_rule 0) 100 fixtures.engine_start
    = (Go.Returned job, s') /\
    alerting.Job.Offset job <> 0 /\
    alerting.Job.Offset job = 1 /\
    1 <= alerting.Job.Offset job.
Proof.
  split; [vm_compute; reflexivity|].
  destruct (@job_offset_never_zero fixtures.model_types unit (fixtures.legacy_rule 0)
              100 fixtures.engine_start)
    as (job & s' & Hrun & Hnz & Hzero & _ & _ & Hpos).
  exists job, s'. split; [exact Hrun|]. split; [exact Hnz|].
  split; [apply Hzero; vm_compute; reflexivity|].
  apply Hpos. vm_compute. split; discriminate.
Defined.

(** C9 as stated fails: for a rule with frequency -5 the Job gets the
    Offset -5, which is below 1. *)
Lemma negative_frequency_negative_offset :
  exists job s',
    alerting.handleRule_job (fixtures.legacy_rule (-5)) 100 fixtures.engine_start
    = (Go.Returned job, s') /\
    alerting.Job.Offset job = -5 /\
    ~ 1 <= alerting.Job.Offset job.
Proof.
  eexists. eexists. split; [vm_compute; reflexivity|].
  split; [reflexivity|]. simpl. lia.
Qed.

(** A store that refuses every save still receives the whole batch, and
    both failures are logged. *)
Example failing_store_receives_whole_batch :
  let s' :=
    (api.saveAlertStates fixtures.imports fixtures.service_failing_store
       [fixtures.firing; fixtures.resolved] fixtures.start).2 in
  api.saved_commands (api.trace s')
  = [api.SaveAlertInstanceCommand_of fixtures.firing;
     api.SaveAlertInstanceCommand_of fixtures.resolved] /\
  length (api.save_failures_logged (api.trace s')) = 2%nat.
Proof. split; reflexivity. Qed.

(** A frequency of 60 seconds gives the offset 60, a frequency of zero the
    offset 1. *)
Example offset_of_usual_frequencies :
  alerting.jobOffset (fixtures.legacy_rule 60) = 60 /\
  alerting.jobOffset (fixtures.legacy_rule 0) = 1.
Proof. split; vm_compute; reflexivity. Qed.

(** The conversion to [float64] rounds to nearest, ties to even: above
    [2^53] odd integers are not representable. *)
Example of_int_rounds_to_even :
  Go.Float64.of_int (2 ^ 53 + 1) = 2 ^ 53 * Go.Float64.scale /\
  Go.Float64.of_int (2 ^ 53 + 3) = (2 ^ 53 + 4) * Go.Float64.scale /\
  Go.Float64.of_int (2 ^ 63 - 1) = 2 ^ 63 * Go.Float64.scale.
Proof. split_and!; vm_compute; reflexivity. Qed.

(** With no attempt configured the cancel channel has no buffer and
    [handleRule] blocks on its first send, before the evaluator runs. *)
Example handleRule_blocks_without_attempts :
  let '(outcome, s') :=
    alerting.handleRule (setting.mk 30 30 0) fixtures.engine (fixtures.legacy_rule 60)
      100 fixtures.engine_start in
  outcome = Go.Blocked /\ alerting.evaluated (alerting.trace s') = [].
Proof. vm_compute. split; reflexivity. Qed.

(** * Further properties of the code *)

(** ** The process endpoint, whatever way the dispatch ends *)

Section process_endpoint.

Context `{api.Types}.
Variable imports : api.Imports.

Lemma processed_app (tr1 tr2 : list api.Event) :
  readings.processed (tr1 ++ tr2) = readings.processed tr1 ++ readings.processed tr2.
Proof. apply omap_app. Qed.

Lemma evaluations_app (tr1 tr2 : list api.Event) :
  readings.evaluations (tr1 ++ tr2)
  = readings.evaluations tr1 ++ readings.evaluations tr2.
Proof. apply omap_app. Qed.

(** [saveAlertStates] only saves and logs. *)
Lemma saveAlertStates_loop_quiet (srv : api.LogzioAlertingService)
    (states : list state.State.t) :
  forall s : api.St,
  exists new,
    api.trace (api.saveAlertStates_loop imports srv states s).2 = api.trace s ++ new /\
    Forall (fun ev =>
              match ev with
              | api.Logged _ | api.SaveAlertInstanceCalled _ => True
              | _ => False
              end) new.
Proof.
  induction states as [|st rest IH]; intros s; simpl.
  - exists []. by rewrite app_nil_r.
  - unfold Go.bind, api.saveAlertState, api.call, Go.bind.
    destruct (api.SaveAlertInstance _ _ _) as [[err|] w1]; simpl.
    + match goal with
      | |- context [api.saveAlertStates_loop imports srv rest ?s1] =>
          destruct (IH s1) as (new & Htrace & Hnew);
          destruct (api.saveAlertStates_loop imports srv rest s1) as [[[]| |msg] s2]
      end; simpl in *; rewrite Htrace, <- !app_assoc; simpl;
        eexists; (split; [reflexivity|]); repeat constructor; done.
    + match goal with
      | |- context [api.saveAlertStates_loop imports srv rest ?s1] =>
          destruct (IH s1) as (new & Htrace & Hnew);
          destruct (api.saveAlertStates_loop imports srv rest s1) as [[[]| |msg] s2]
      end; simpl in *; rewrite Htrace, <- !app_assoc; simpl;
        eexists; (split; [reflexivity|]); repeat constructor; done.
Qed.

Lemma saveAlertStates_processed (srv : api.LogzioAlertingService)
    (states : list state.State.t) (s s' : api.St) :
  api.saveAlertStates imports srv states s = (Go.Returned tt, s') ->
  readings.processed (api.trace s') = readings.processed (api.trace s).
Proof.
  unfold api.saveAlertStates, api.Log, api.emit, Go.bind, Go.modify. simpl.
  match goal with
  | |- context [api.saveAlertStates_loop imports srv states ?s1] =>
      destruct (saveAlertStates_loop_quiet srv states s1) as (new & Htrace & Hnew)
  end.
  intros Hrun. rewrite Hrun in Htrace. simpl in Htrace. rewrite Htrace.
  rewrite !processed_app. simpl. rewrite app_nil_r.
  rewrite <- (app_nil_r (readings.processed (api.trace s))) at 2. f_equal.
  clear -Hnew. induction Hnew as [|ev new Hev _ IH]; [done|].
  destruct ev; try done; simpl; exact IH.
Qed.

(** The state manager is called once, with the rule of the request and the
    converted results. *)
Lemma RouteProcessAlert_processed (srv : api.LogzioAlertingService)
    (request : apimodels.AlertProcessRequest.t api.AlertQuery eval.NumberValueCapture.t)
    (s : api.St) :
  readings.processed (api.trace (api.RouteProcessAlert imports srv request s).2)
  = readings.processed (api.trace s)
    ++ [(api.apiRuleToDbAlertRule (apimodels.AlertProcessRequest.AlertRule request),
         map api.apiToEvaluationResult
           (apimodels.AlertProcessRequest.EvaluationResults request))].
Proof.
  unfold api.RouteProcessAlert, Go.bind, api.call.
  destruct (api.ProcessEvalResults _ _ _ _) as [states w1].
  match goal with
  | |- context [api.saveAlertStates imports srv states ?s1] =>
      destruct (saveAlertStates_run imports srv states s1) as (s2 & Hrun & _);
      pose proof (saveAlertStates_processed srv states s1 s2 Hrun) as Hproc;
      rewrite Hrun
  end.
  simpl in Hproc. rewrite processed_app in Hproc. simpl in Hproc.
  destruct (api.FromAlertStateToPostableAlerts _ _ _ _ _) as [alerts w3].
  destruct (api.AlertmanagerFor _ _ _) as [[n [err|]] w4]; simpl.
  - destruct (Go.errors_Is err notifier.ErrNoAlertmanagerForOrg); simpl;
      rewrite ?processed_app; simpl; rewrite ?app_nil_r; exact Hproc.
  - destruct n as [n|]; simpl.
    + destruct (api.PutAlerts n alerts w4) as [[err|] w5]; simpl;
        rewrite ?processed_app; simpl; rewrite ?app_nil_r; exact Hproc.
    + rewrite ?processed_app; simpl; rewrite ?app_nil_r; exact Hproc.
Qed.

(** X1. Whatever way the dispatch ends, [RouteProcessAlert] calls the state
    manager once, with the rule of the request and the converted results,
    saves every processed state, and looks the alertmanager of the
    organization up once. *)
Theorem process_saves_whatever_the_dispatch (srv : api.LogzioAlertingService)
    (request : apimodels.AlertProcessRequest.t api.AlertQuery eval.NumberValueCapture.t)
    (s : api.St) :
  let s' := (api.RouteProcessAlert imports srv request s).2 in
  let rule := api.apiRuleToDbAlertRule (apimodels.AlertProcessRequest.AlertRule request) in
  readings.processed (api.trace s')
  = readings.processed (api.trace s)
    ++ [(rule,
         map api.apiToEvaluationResult
           (apimodels.AlertProcessRequest.EvaluationResults request))] /\
  api.saved_commands (api.trace s')
  = api.saved_commands (api.trace s)
    ++ map api.SaveAlertInstanceCommand_of
         (api.processed_states srv request (api.world s)) /\
  api.alertmanager_lookups (api.trace s')
  = api.alertmanager_lookups (api.trace s) ++ [ngmodels.AlertRule.OrgID rule] /\
  (length (api.alerts_put (api.trace s'))
   <= S (length (api.alerts_put (api.trace s))))%nat.
Proof.
  intros s' rule. subst s'. split; [apply RouteProcessAlert_processed|].
  unfold api.processed_states, api.RouteProcessAlert, Go.bind, api.call. fold rule.
  destruct (api.ProcessEvalResults _ _ _ _) as [states w1].
  match goal with
  | |- context [api.saveAlertStates imports srv states ?s1] =>
      destruct (saveAlertStates_run imports srv states s1)
        as (s2 & Hrun & _ & Hsaved & _ & Hlook & Hput & _);
      rewrite Hrun
  end.
  simpl in Hsaved, Hlook, Hput.
  destruct (api.FromAlertStateToPostableAlerts _ _ _ _ _) as [alerts w3].
  destruct (api.AlertmanagerFor _ _ _) as [[n [err|]] w4]; simpl.
  - destruct (Go.errors_Is err notifier.ErrNoAlertmanagerForOrg); simpl;
      readings; rewrite Hsaved, Hlook, Hput; readings; split_and!; try done; lia.
  - destruct n as [n|]; simpl.
    + destruct (api.PutAlerts n alerts w4) as [[err|] w5]; simpl;
        readings; rewrite Hsaved, Hlook, Hput; readings;
        rewrite ?length_app; simpl; split_and!; try done; lia.
    + readings; rewrite Hsaved, Hlook, Hput; readings; split_and!; try done; lia.
Qed.

(** X2. With an alertmanager that accepts the batch, [RouteProcessAlert]
    answers 200 with the very alerts it pushed, pushed once. *)
Theorem process_returns_pushed_alerts (srv : api.LogzioAlertingService)
    (request : apimodels.AlertProcessRequest.t api.AlertQuery eval.NumberValueCapture.t)
    (s : api.St) (n : api.Alertmanager) :
  (forall w, exists w',
      api.AlertmanagerFor (api.MultiOrgAlertmanager_ srv)
        (apimodels.ApiAlertRule.OrgID (apimodels.AlertProcessRequest.AlertRule request)) w
      = (Some n, None, w')) ->
  (forall alerts w, exists w', api.PutAlerts n alerts w = (None, w')) ->
  exists alerts s',
    api.RouteProcessAlert imports srv request s
    = (Go.Returned (response.JSONStreaming http.StatusOK alerts), s') /\
    api.alerts_put (api.trace s') = api.alerts_put (api.trace s) ++ [alerts].
Proof.
  intros Hfor Hput.
  unfold api.RouteProcessAlert, Go.bind, api.call.
  destruct (api.ProcessEvalResults _ _ _ _) as [states w1].
  match goal with
  | |- context [api.saveAlertStates imports srv states ?s1] =>
      destruct (saveAlertStates_run imports srv states s1)
        as (s2 & Hrun & _ & _ & _ & _ & Hputs & _); rewrite Hrun
  end.
  simpl in Hputs.
  destruct (api.FromAlertStateToPostableAlerts _ _ _ _ _) as [alerts w3].
  destruct (Hfor w3) as (w4 & Hlookup). simpl. rewrite Hlookup. simpl.
  destruct (Hput alerts w4) as (w5 & Hpushed). rewrite Hpushed. simpl.
  exists alerts. eexists. split; [reflexivity|]. simpl.
  readings. rewrite Hputs. readings. done.
Qed.

(** X3. When the alertmanager refuses the batch, [RouteProcessAlert] answers
    500 with the error of the alertmanager, after one push that is not
    repeated; the processed states stay saved. *)
Theorem process_reports_refused_batch (srv : api.LogzioAlertingService)
    (request : apimodels.AlertProcessRequest.t api.AlertQuery eval.NumberValueCapture.t)
    (s : api.St) (n : api.Alertmanager) (err : Go.error) :
  (forall w, exists w',
      api.AlertmanagerFor (api.MultiOrgAlertmanager_ srv)
        (apimodels.ApiAlertRule.OrgID (apimodels.AlertProcessRequest.AlertRule request)) w
      = (Some n, None, w')) ->
  (forall alerts w, exists w', api.PutAlerts n alerts w = (Some err, w')) ->
  exists s',
    api.RouteProcessAlert imports srv request s
    = (Go.Returned
         (response.Error http.StatusInternalServerError "Failed to process alert" err),
       s') /\
    length (api.alerts_put (api.trace s')) = S (length (api.alerts_put (api.trace s))) /\
    api.saved_commands (api.trace s')
    = api.saved_commands (api.trace s)
      ++ map api.SaveAlertInstanceCommand_of
           (api.processed_states srv request (api.world s)).
Proof.
  intros Hfor Hput.
  unfold api.processed_states, api.RouteProcessAlert, Go.bind, api.call.
  destruct (api.ProcessEvalResults _ _ _ _) as [states w1].
  match goal with
  | |- context [api.saveAlertStates imports srv states ?s1] =>
      destruct (saveAlertStates_run imports srv states s1)
        as (s2 & Hrun & _ & Hsaved & _ & _ & Hputs & _); rewrite Hrun
  end.
  simpl in Hputs, Hsaved.
  destruct (api.FromAlertStateToPostableAlerts _ _ _ _ _) as [alerts w3].
  destruct (Hfor w3) as (w4 & Hlookup). simpl. rewrite Hlookup. simpl.
  destruct (Hput alerts w4) as (w5 & Hpushed). rewrite Hpushed. simpl.
  eexists. split; [reflexivity|]. simpl.
  readings. rewrite Hputs, Hsaved. readings. rewrite length_app. simpl.
  split; [lia | done].
Qed.

(** X4. When the lookup of the alertmanager fails with an error other than
    [ErrNoAlertmanagerForOrg], [RouteProcessAlert] answers 500 with that
    error and pushes nothing. *)
Theorem process_reports_unavailable_alertmanager (srv : api.LogzioAlertingService)
    (request : apimodels.AlertProcessRequest.t api.AlertQuery eval.NumberValueCapture.t)
    (s : api.St) (err : Go.error) :
  Go.errors_Is err notifier.ErrNoAlertmanagerForOrg = false ->
  (forall w, exists n w',
      api.AlertmanagerFor (api.MultiOrgAlertmanager_ srv)
        (apimodels.ApiAlertRule.OrgID (apimodels.AlertProcessRequest.AlertRule request)) w
      = (n, Some err, w')) ->
  exists s',
    api.RouteProcessAlert imports srv request s
    = (Go.Returned
         (response.Error http.StatusInternalServerError "Failed to process alert" err),
       s') /\
    api.alerts_put (api.trace s') = api.alerts_put (api.trace s).
Proof.
  intros Hother Hfor.
  unfold api.RouteProcessAlert, Go.bind, api.call.
  destruct (api.ProcessEvalResults _ _ _ _) as [states w1].
  match goal with
  | |- context [api.saveAlertStates imports srv states ?s1] =>
      destruct (saveAlertStates_run imports srv states s1)
        as (s2 & Hrun & _ & _ & _ & _ & Hputs & _); rewrite Hrun
  end.
  simpl in Hputs.
  destruct (api.FromAlertStateToPostableAlerts _ _ _ _ _) as [alerts w3].
  destruct (Hfor w3) as (n & w4 & Hlookup). simpl. rewrite Hlookup. simpl.
  rewrite Hother. simpl.
  eexists. split; [reflexivity|]. simpl.
  readings. rewrite Hputs. readings. done.
Qed.

(** X5. The results of a process request reach the state manager without
    their error and their evaluation string, one for one: whatever error
    the API form of a result holds is dropped by [apiToEvaluationResult]. *)
Theorem process_drops_result_errors (srv : api.LogzioAlertingService)
    (request : apimodels.AlertProcessRequest.t api.AlertQuery eval.NumberValueCapture.t)
    (s : api.St) :
  exists rule results,
    readings.processed (api.trace (api.RouteProcessAlert imports srv request s).2)
    = readings.processed (api.trace s) ++ [(rule, results)] /\
    length results
    = length (apimodels.AlertProcessRequest.EvaluationResults request) /\
    Forall (fun r =>
              eval.Result.Error r = None /\ eval.Result.EvaluationString r = "")
      results.
Proof.
  eexists. eexists. split; [apply RouteProcessAlert_processed|].
  split; [apply length_map|].
  apply Forall_forall. intros r Hin.
  apply list_elem_of_In, in_map_iff in Hin. destruct Hin as (a & <- & _).
  done.
Qed.

End process_endpoint.

(** ** The evaluate endpoint *)

Section evaluate_endpoint.

Context `{api.Types}.

(** X6. When the evaluator returns no error, [RouteEvaluateAlert] answers
    200 with one API result per evaluation result, in the same order, each
    the conversion of its result. *)
Theorem evaluate_converts_each_result (srv : api.LogzioAlertingService)
    (evalRequest : apimodels.AlertEvaluationRequest.t api.AlertQuery) (s : api.St)
    (results : list eval.Result.t) (w : api.World) :
  let rule := api.apiRuleToDbAlertRule (apimodels.AlertEvaluationRequest.AlertRule evalRequest) in
  api.ConditionEval (api.Evaluator_ srv)
    (ngmodels.Condition.mk (ngmodels.AlertRule.Condition rule)
       (ngmodels.AlertRule.OrgID rule) (ngmodels.AlertRule.Data rule))
    (apimodels.AlertEvaluationRequest.EvalTime evalRequest) (api.ExpressionService_ srv)
    (api.Now (api.Clock_ srv) (api.world s)).2 = (results, None, w) ->
  exists body s',
    api.RouteEvaluateAlert srv evalRequest s
    = (Go.Returned (response.JSONStreaming http.StatusOK body), s') /\
    length body = length results /\
    forall i r, results !! i = Some r -> body !! i = Some (api.evaluationResultsToApi r).
Proof.
  intros rule Heval.
  unfold api.RouteEvaluateAlert, Go.bind, api.call. fold rule.
  destruct (api.Now (api.Clock_ srv) (api.world s)) as [start w1]. simpl in *.
  rewrite Heval. simpl. destruct (api.Now (api.Clock_ srv) w) as [now w2]. simpl.
  eexists. eexists. split; [reflexivity|].
  split; [apply length_map|].
  intros i r Hi. change (map api.evaluationResultsToApi results)
    with (api.evaluationResultsToApi <$> results).
  rewrite list_lookup_fmap. by rewrite Hi.
Qed.

(** X7. However it ends, [RouteEvaluateAlert] calls the evaluator once, at
    the instant of the request and on the condition, organization and
    queries of its rule, and neither saves a state nor calls the state
    manager or an alertmanager. *)
Theorem evaluate_only_evaluates (srv : api.LogzioAlertingService)
    (evalRequest : apimodels.AlertEvaluationRequest.t api.AlertQuery) (s : api.St) :
  let s' := (api.RouteEvaluateAlert srv evalRequest s).2 in
  let rule := apimodels.AlertEvaluationRequest.AlertRule evalRequest in
  readings.evaluations (api.trace s')
  = readings.evaluations (api.trace s)
    ++ [(ngmodels.Condition.mk (apimodels.ApiAlertRule.Condition rule)
           (apimodels.ApiAlertRule.OrgID rule) (apimodels.ApiAlertRule.Data rule),
         apimodels.AlertEvaluationRequest.EvalTime evalRequest)] /\
  api.saved_commands (api.trace s') = api.saved_commands (api.trace s) /\
  readings.processed (api.trace s') = readings.processed (api.trace s) /\
  api.alertmanager_lookups (api.trace s') = api.alertmanager_lookups (api.trace s) /\
  api.alerts_put (api.trace s') = api.alerts_put (api.trace s).
Proof.
  intros s' rule. subst s'.
  unfold api.RouteEvaluateAlert, Go.bind, api.call, api.Log, api.emit, Go.modify.
  destruct (api.Now (api.Clock_ srv) (api.world s)) as [start w1]. simpl.
  destruct (api.ConditionEval _ _ _ _ _) as [[results err] w2]. simpl.
  destruct (api.Now (api.Clock_ srv) w2) as [now w3]. simpl.
  destruct err as [err|]; simpl;
    rewrite ?evaluations_app, ?processed_app; readings; done.
Qed.

End evaluate_endpoint.

(** ** More on the conversions *)

Section more_conversions.

Import apimodels.

(** X8. An API result without error, with an empty evaluation string and
    with the name of its state, converted to an evaluation result and back,
    is the result itself. *)
Theorem api_result_roundtrip (a : ApiEvalResult.t eval.NumberValueCapture.t) :
  ApiEvalResult.Error a = None ->
  ApiEvalResult.EvaluationString a = "" ->
  ApiEvalResult.StateName a = eval.String (ApiEvalResult.State a) ->
  api.evaluationResultsToApi (api.apiToEvaluationResult a) = a.
Proof.
  destruct a as [inst st name err at_ dur str vals]. simpl.
  intros -> -> ->. reflexivity.
Qed.

(** X9. In the later revision the captured values of a result go to the API
    form key by key: a nil map stays nil, and otherwise the API map has the
    same keys, each holding the conversion of its capture. *)
Theorem values_converted_key_by_key (r : eval.Result.t) :
  match eval.Result.Values r with
  | None => ApiEvalResult.Values (api_later.evaluationResultsToApi r) = None
  | Some values =>
      exists converted,
        ApiEvalResult.Values (api_later.evaluationResultsToApi r) = Some converted /\
        dom converted = dom values /\
        forall k,
          converted !! k = api_later.valueNumberCaptureToApi <$> values !! k
  end.
Proof.
  unfold api_later.evaluationResultsToApi.
  destruct r as [inst st [err|] at_ dur str [vals|]]; simpl; try done;
    eexists; (split; [reflexivity|]); split;
    first [apply dom_fmap_L | intros k; apply lookup_fmap].
Qed.

(** In both revisions the API form names the state it carries, keeps
    the evaluation string, and has an error exactly when the result has
    one. *)
Lemma api_form_consistent (r : eval.Result.t) :
  let a := api.evaluationResultsToApi r in
  let b := api_later.evaluationResultsToApi r in
  ApiEvalResult.StateName a = eval.String (ApiEvalResult.State a) /\
  ApiEvalResult.StateName b = eval.String (ApiEvalResult.State b) /\
  ApiEvalResult.EvaluationString a = eval.Result.EvaluationString r /\
  ApiEvalResult.EvaluationString b = eval.Result.EvaluationString r /\
  (ApiEvalResult.Error a = None <-> eval.Result.Error r = None) /\
  (ApiEvalResult.Error b = None <-> eval.Result.Error r = None).
Proof.
  unfold api.evaluationResultsToApi, api_later.evaluationResultsToApi.
  destruct r as [inst st [err|] at_ dur str [vals|]]; simpl; split_and!; done.
Qed.

End more_conversions.

(** ** The HTTP handlers and the migration endpoints *)

Section http_handlers.

Context `{api.Types} {ReqContext : Type}.
Variable web : @api_handlers.Web _ ReqContext.
Variable imports : api.Imports.

(** A request whose body does not bind is answered 400 by both
    handlers, with the error of the binding, and the service is not
    entered: nothing is evaluated, processed or saved. *)
Lemma unbound_body_is_bad_request (api : api_handlers.LogzioAlertingApi)
    (ctx : ReqContext) (s : api.St) :
  (forall body err,
     api_handlers.Bind_evaluation web ctx = (body, Some err) ->
     api_handlers.RouteEvaluateAlert web api ctx s
     = (Go.Returned (response.Error http.StatusBadRequest "bad request data" err), s)) /\
  (forall body err,
     api_handlers.Bind_process web ctx = (body, Some err) ->
     api_handlers.RouteProcessAlert web imports api ctx s
     = (Go.Returned (response.Error http.StatusBadRequest "bad request data" err), s)).
Proof.
  split; intros body err Hbind.
  - unfold api_handlers.RouteEvaluateAlert. by rewrite Hbind.
  - unfold api_handlers.RouteProcessAlert. by rewrite Hbind.
Qed.

Lemma migrations_run_app (tr1 tr2 : list api_handlers.Event) :
  api_handlers.migrations_run (tr1 ++ tr2)
  = api_handlers.migrations_run tr1 ++ api_handlers.migrations_run tr2.
Proof. apply omap_app. Qed.

(** X10. [RouteMigrateOrg] runs the alert migration of the organization and
    then, only if it succeeded, the migration of the dashboard ids; it
    answers 200 when both succeed and otherwise 500 with the error of the
    migration that failed. *)
Theorem migrate_org_stops_at_first_failure (migrator : api_handlers.Migrator)
    (request : api_handlers.RunMigrationForOrg) (s : api_handlers.St) :
  let org := api_handlers.OrgId request in
  let first :=
    api_handlers.RunMigration migrator (api_handlers.OrgAlertMigration org)
      (api_handlers.world s) in
  let second :=
    api_handlers.RunMigration migrator
      (api_handlers.UpdateOrgDashboardUIDPanelIDMigration org) first.2 in
  let '(outcome, s') := api_handlers.RouteMigrateOrg migrator request s in
  match first.1, second.1 with
  | Some err, _ =>
      outcome = Go.Returned
                  (response.Error http.StatusInternalServerError
                     "Failed to run alert migration" err) /\
      api_handlers.migrations_run (api_handlers.trace s')
      = api_handlers.migrations_run (api_handlers.trace s)
        ++ [api_handlers.OrgAlertMigration org] /\
      api_handlers.world s' = first.2
  | None, Some err =>
      outcome = Go.Returned
                  (response.Error http.StatusInternalServerError
                     "Failed to run update dashboard uuid and panel ID migration" err) /\
      api_handlers.migrations_run (api_handlers.trace s')
      = api_handlers.migrations_run (api_handlers.trace s)
        ++ [api_handlers.OrgAlertMigration org;
            api_handlers.UpdateOrgDashboardUIDPanelIDMigration org] /\
      api_handlers.world s' = second.2
  | None, None =>
      outcome = Go.Returned (response.JSONStreaming http.StatusOK "Success") /\
      api_handlers.migrations_run (api_handlers.trace s')
      = api_handlers.migrations_run (api_handlers.trace s)
        ++ [api_handlers.OrgAlertMigration org;
            api_handlers.UpdateOrgDashboardUIDPanelIDMigration org] /\
      api_handlers.world s' = second.2
  end.
Proof.
  intros org first second. subst first second.
  unfold api_handlers.RouteMigrateOrg, Go.bind, api_handlers.run_migration,
    api_handlers.Log, Go.modify. fold org.
  destruct (api_handlers.RunMigration migrator (api_handlers.OrgAlertMigration org) _)
    as [[err1|] w1]; simpl.
  - rewrite !migrations_run_app. simpl. by rewrite app_nil_r.
  - destruct (api_handlers.RunMigration migrator
                (api_handlers.UpdateOrgDashboardUIDPanelIDMigration org) w1)
      as [[err2|] w2]; simpl;
      rewrite !migrations_run_app; simpl; rewrite <- ?app_assoc, ?app_nil_r; done.
Qed.

(** [RouteClearOrgMigration] runs the one migration that removes the
    alert migration of the organization, and answers 200 when it succeeds
    and 500 with its error when it fails. *)
Lemma clear_org_runs_one_migration (migrator : api_handlers.Migrator)
    (requestBody : api_handlers.RunMigrationForOrg) (s : api_handlers.St) :
  let org := api_handlers.OrgId requestBody in
  let reply :=
    api_handlers.RunMigration migrator (api_handlers.RmOrgAlertMigration org)
      (api_handlers.world s) in
  let '(outcome, s') := api_handlers.RouteClearOrgMigration migrator requestBody s in
  api_handlers.migrations_run (api_handlers.trace s')
  = api_handlers.migrations_run (api_handlers.trace s)
    ++ [api_handlers.RmOrgAlertMigration org] /\
  api_handlers.world s' = reply.2 /\
  outcome
  = Go.Returned
      match reply.1 with
      | Some err =>
          response.Error http.StatusInternalServerError
            "Failed to run clear alert migration" err
      | None => response.JSONStreaming http.StatusOK "Success"
      end.
Proof.
  intros org reply. subst reply.
  unfold api_handlers.RouteClearOrgMigration, Go.bind, api_handlers.run_migration,
    api_handlers.Log, Go.modify. fold org.
  destruct (api_handlers.RunMigration migrator (api_handlers.RmOrgAlertMigration org) _)
    as [[err|] w1]; simpl;
    rewrite !migrations_run_app; simpl; rewrite ?app_nil_r; done.
Qed.

End http_handlers.

(** ** The options of the security headers *)

Section secure_options.

Variables HTTPSScheme HTTP2Scheme : string.

(** X11. [createSecureOptions] forces the strict transport security header
    exactly when the protocol is HTTPS or HTTP/2 and the setting is on; the
    maximal age, the preload flag and the subdomain flag of the
    configuration are taken only then, and are zero otherwise. *)
Theorem sts_options_only_when_forced (cfg : middleware.Cfg) :
  let o := middleware.createSecureOptions HTTPSScheme HTTP2Scheme cfg in
  (middleware.ForceSTSHeader o = true <->
   (middleware.Protocol cfg = HTTPSScheme \/ middleware.Protocol cfg = HTTP2Scheme) /\
   middleware.StrictTransportSecurity cfg = true) /\
  (middleware.ForceSTSHeader o = true ->
   middleware.STSSeconds o = middleware.StrictTransportSecurityMaxAge cfg /\
   middleware.STSPreload o = middleware.StrictTransportSecurityPreload cfg /\
   middleware.STSIncludeSubdomains o = middleware.StrictTransportSecuritySubDomains cfg) /\
  (middleware.ForceSTSHeader o = false ->
   middleware.STSSeconds o = 0 /\
   middleware.STSPreload o = false /\
   middleware.STSIncludeSubdomains o = false).
Proof.
  intros o. subst o. unfold middleware.createSecureOptions.
  destruct cfg as [nosniff xss embed proto sts age preload subs csp]. simpl.
  destruct (bool_decide (csp = "")); simpl;
    destruct (decide (proto = HTTPSScheme)) as [Hs|Hs];
    destruct (decide (proto = HTTP2Scheme)) as [H2|H2];
    rewrite ?(bool_decide_eq_true_2 _ Hs), ?(bool_decide_eq_false_2 _ Hs),
      ?(bool_decide_eq_true_2 _ H2), ?(bool_decide_eq_false_2 _ H2);
    destruct sts; simpl; split_and!; try done; try tauto; intuition congruence.
Qed.

(** The options always frame-deny exactly when embedding is not
    allowed, and always carry the configured template as content security
    policy, an empty template included. *)
Lemma frame_and_csp_follow_configuration (cfg : middleware.Cfg) :
  let o := middleware.createSecureOptions HTTPSScheme HTTP2Scheme cfg in
  middleware.FrameDeny o = negb (middleware.AllowEmbedding cfg) /\
  middleware.ContentSecurityPolicy o = middleware.CSPTemplate cfg /\
  middleware.ContentTypeNosniff o = middleware.ContentTypeProtectionHeader cfg /\
  middleware.BrowserXssFilter o = middleware.XSSProtectionHeader cfg.
Proof.
  intros o. subst o. unfold middleware.createSecureOptions.
  destruct cfg as [nosniff xss embed proto sts age preload subs csp]. simpl.
  destruct (decide (csp = "")) as [->|Hcsp].
  - rewrite bool_decide_eq_true_2 by done.
    destruct ((_ || _) && sts); done.
  - rewrite bool_decide_eq_false_2 by done.
    destruct ((_ || _) && sts); done.
Qed.

End secure_options.

(** ** More on the legacy engine *)

Section float_exact.

Import Go.Float64.

Lemma rne_exact (n d : Z) : 0 < d -> n mod d = 0 -> rne n d = n / d.
Proof.
  intros Hd Hmod. unfold rne. rewrite Hmod.
  by replace (2 * 0 <? d) with true by (symmetry; apply Z.ltb_lt; lia).
Qed.

(** A number with at most 53 significant bits is not rounded. *)
Lemma round_exact (m d : Z) :
  0 < m < 2 ^ 53 -> 0 < d -> round (m * scale * d) d = m * scale.
Proof.
  intros Hm Hd. pose proof scale_pos as Hscale. unfold round.
  rewrite (Z.abs_eq (m * scale * d)) by nia.
  rewrite Z.div_mul by lia.
  assert (Hlog : Z.log2 (m * scale) = 1074 + Z.log2 m).
  { unfold scale. apply Z.log2_mul_pow2; lia. }
  rewrite Hlog.
  pose proof (Z.log2_nonneg m) as Hl0.
  assert (Hl : Z.log2 m < 53) by (apply Z.log2_lt_pow2; lia).
  set (l := Z.log2 m) in *.
  replace (Z.max 0 (1074 + l - 52)) with (l + 1022) by lia.
  assert (Hsplit : scale = 2 ^ (52 - l) * 2 ^ (l + 1022)).
  { unfold scale. rewrite <- Z.pow_add_r by lia. f_equal. lia. }
  assert (Hshift : 0 < 2 ^ (l + 1022)) by (apply Z.pow_pos_nonneg; lia).
  replace (m * scale * d) with (m * 2 ^ (52 - l) * (d * 2 ^ (l + 1022)))
    by (rewrite Hsplit; ring).
  rewrite rne_exact; [|nia|apply Z.mod_mul; nia].
  rewrite Z.div_mul by nia.
  assert (Hpos : 0 < m * 2 ^ (52 - l) * (d * 2 ^ (l + 1022))).
  { assert (0 < 2 ^ (52 - l)) by (apply Z.pow_pos_nonneg; lia). nia. }
  rewrite (Z.sgn_pos _ Hpos). rewrite Hsplit. ring.
Qed.

Lemma round_opp (n d : Z) : round (- n) d = - round n d.
Proof. unfold round. rewrite Z.abs_opp, Z.sgn_opp. ring. Qed.

Lemma of_int_exact (x : Z) : - 2 ^ 53 < x < 2 ^ 53 -> of_int x = x * scale.
Proof.
  intros Hx. unfold of_int.
  destruct (Z.lt_trichotomy x 0) as [Hneg|[->|Hpos]].
  - replace (x * scale) with (- (- x * scale * 1)) by ring.
    rewrite round_opp, round_exact by lia. ring.
  - reflexivity.
  - replace (x * scale) with (x * scale * 1) by ring.
    rewrite round_exact by lia. ring.
Qed.

Lemma div_1000_exact (f : Z) :
  - 2 ^ 53 < f < 2 ^ 53 -> div (f * 1000 * scale) (1000 * scale) = f * scale.
Proof.
  intros Hf. pose proof scale_pos as Hscale. unfold div.
  replace (0 <? 1000 * scale) with true by (symmetry; apply Z.ltb_lt; lia).
  destruct (Z.lt_trichotomy f 0) as [Hneg|[->|Hpos]].
  - replace (f * 1000 * scale * scale) with (- (- f * scale * (1000 * scale))) by ring.
    rewrite round_opp, round_exact by lia. ring.
  - reflexivity.
  - replace (f * 1000 * scale * scale) with (f * scale * (1000 * scale)) by ring.
    by rewrite round_exact by lia.
Qed.

End float_exact.

Section more_engine.

Context `{models.Types} {World : Type}.
Variable cfg : setting.t.
Variable e : @alerting.AlertEvaluatorEngine _ World.

(** X12. For a rule whose frequency is not zero and whose frequency in
    milliseconds has at most 53 significant bits, the Offset of the Job is
    the frequency itself: the detour through [float64] loses nothing. *)
Theorem offset_is_frequency (rule : alerting.Rule.t) (evalTime : Time)
    (s : @alerting.St _ World) :
  alerting.Rule.Frequency rule <> 0 ->
  - 2 ^ 53 < alerting.Rule.Frequency rule * 1000 < 2 ^ 53 ->
  exists job s',
    alerting.handleRule_job rule evalTime s = (Go.Returned job, s') /\
    alerting.Job.Offset job = alerting.Rule.Frequency rule.
Proof.
  intros Hnz Hrange. eexists. eexists. split; [apply handleRule_job_run|]. simpl.
  unfold alerting.jobOffset.
  set (f := alerting.Rule.Frequency rule) in *.
  pose proof scale_pos as Hscale.
  assert (Hint : Go.int64_min <= f * 1000 <= Go.int64_max).
  { unfold Go.int64_min, Go.int64_max.
    assert (2 ^ 53 < 2 ^ 63 - 1) by (vm_compute; reflexivity). lia. }
  rewrite wrap64_in_range by exact Hint.
  rewrite of_int_1000, of_int_exact by lia.
  rewrite div_1000_exact by lia.
  unfold Go.Float64.Floor, Go.Float64.to_int64.
  rewrite Z.div_mul, Z.quot_mul by lia.
  replace ((Go.int64_min <=? f) && (f <=? Go.int64_max)) with true.
  - destruct (Z.eqb_spec f 0); [contradiction|reflexivity].
  - symmetry. apply andb_true_iff.
    split; apply Z.leb_le; unfold Go.int64_min, Go.int64_max in *; lia.
Qed.

(** X13. [SetRunning] on a job whose lock is free returns with the flag
    written and the lock free again, the other fields untouched, and a
    [GetRunning] that follows returns the value written and leaves the job
    as it is. *)
Theorem get_running_after_set (j : alerting.Job.t) (b : bool)
    (s : @alerting.St _ World) :
  alerting.Job.runningLock j = false ->
  exists j' s1 s2,
    alerting.SetRunning j b s = (Go.Returned j', s1) /\
    alerting.GetRunning j' s1 = (Go.Returned (b, j'), s2) /\
    j' = alerting.Job.with_running j b /\
    alerting.world s2 = alerting.world s /\
    alerting.running_sets (alerting.trace s2)
    = alerting.running_sets (alerting.trace s) ++ [b].
Proof.
  intros Hfree. destruct j as [off wait delay running rule lock tm res].
  simpl in Hfree. subst lock.
  exists (alerting.Job.with_running
            (alerting.Job.mk _ off wait delay running rule false tm res) b).
  unfold alerting.SetRunning, alerting.GetRunning, Go.bind, alerting.lift,
    alerting.emit, Go.modify, Go.ret. simpl.
  eexists. eexists.
  split; [reflexivity|]. split; [reflexivity|]. split; [reflexivity|].
  split; [reflexivity|]. simpl.
  rewrite !running_sets_app. simpl. by rewrite !app_nil_r.
Qed.

(** X14. What [handleRule] does depends on the configured number of
    attempts, taken in the range where doubling it does not overflow. Below
    zero, and above [2^44 - 6] (from where on the buffer of twice as many
    cancel functions, of 8 bytes each, does not fit under the largest
    allocation of [2^48] bytes together with the 96 bytes of the channel
    header), it panics when it makes the cancel channel. At zero it blocks on
    the first send to that channel. In these cases neither the evaluator nor
    the result handler runs. So it returns only for a number of attempts
    from 1 to [2^44 - 6]. *)
Theorem attempts_decide_outcome (rule : alerting.Rule.t) (evalTime : Time)
    (s : @alerting.St _ World) :
  let attempts := setting.AlertingMaxAttempts cfg in
  let '(outcome, s') := alerting.handleRule cfg e rule evalTime s in
  - 2 ^ 62 <= attempts < 2 ^ 62 ->
  (attempts < 0 \/ 2 ^ 44 - 6 < attempts ->
   outcome = Go.Panicked "makechan: size out of range" /\
   alerting.evaluated (alerting.trace s') = alerting.evaluated (alerting.trace s) /\
   alerting.handled (alerting.trace s') = alerting.handled (alerting.trace s)) /\
  (attempts = 0 ->
   outcome = Go.Blocked /\
   alerting.evaluated (alerting.trace s') = alerting.evaluated (alerting.trace s) /\
   alerting.handled (alerting.trace s') = alerting.handled (alerting.trace s)) /\
  (forall r, outcome = Go.Returned r -> 1 <= attempts <= 2 ^ 44 - 6).
Proof.
  intros attempts.
  destruct (alerting.handleRule cfg e rule evalTime s) as [outcome s'] eqn:Hrun.
  intros Hrange. split_and!.
  - intros Hout. revert Hrun.
    unfold alerting.handleRule, Go.bind. rewrite handleRule_job_run.
    unfold alerting.lift.
    rewrite wrap64_in_range by (unfold Go.int64_min, Go.int64_max; fold attempts; lia).
    fold attempts.
    rewrite make_chan_out_of_range
      by (unfold Go.maxAlloc, Go.hchanSize, Go.PtrSize; lia).
    intros [= <- <-]. simpl.
    rewrite evaluated_app, handled_app. simpl. by rewrite !app_nil_r.
  - intros Hzero. revert Hrun.
    unfold alerting.handleRule, Go.bind. rewrite handleRule_job_run.
    unfold alerting.lift. fold attempts. rewrite Hzero.
    rewrite (make_chan_fits Go.PtrSize (Go.wrap64 (0 * 2)))
      by (vm_compute; discriminate).
    rewrite make_chan_one. simpl.
    unfold alerting.processJob, Go.bind, alerting.WithTimeout, alerting.lift. simpl.
    intros [= <- <-]. simpl.
    rewrite !evaluated_app, !handled_app. simpl. by rewrite !app_nil_r.
  - intros r ->.
    destruct (handleRule_returned cfg e rule evalTime s s' r Hrun) as [Hroom Hfit].
    unfold alerting.cancel_capacity in *. fold attempts in Hroom, Hfit.
    rewrite wrap64_in_range in Hroom, Hfit
      by (unfold Go.int64_min, Go.int64_max; lia).
    unfold Go.maxAlloc, Go.hchanSize, Go.PtrSize in Hfit. lia.
Qed.

(** What [processJob] leaves behind when it returns: the channels, the
    timers, the span and the log. *)
Lemma processJob_leaves (attemptID : Z) (attemptChan : Go.chan Z)
    (cancelChan : Go.chan nat) (job : alerting.Job.t) (rule : alerting.Rule.t)
    (s : @alerting.St _ World) :
  alerting.Job.Rule job = Some rule ->
  alerting.has_room cancelChan ->
  Go.closed attemptChan = false ->
  exists ec1 ech w1 ec2 herr w2 job' s' new lines completion,
    alerting.processJob cfg e attemptID attemptChan cancelChan job s
    = (Go.Returned
         (Go.mkChan (Go.cap attemptChan) (Go.buf attemptChan) true,
          Go.mkChan (Go.cap cancelChan)
            (Go.buf cancelChan ++ [alerting.contexts s; S (alerting.contexts s)]) false,
          job'), s') /\
    alerting.trace s' = alerting.trace s ++ new /\
    alerting.handled new = [ech] /\
    readings.timers_started new
    = [(alerting.contexts s, setting.AlertingEvaluationTimeout cfg);
       (S (alerting.contexts s), setting.AlertingNotificationTimeout cfg)] /\
    readings.cancels_sent new = [alerting.contexts s; S (alerting.contexts s)] /\
    alerting.contexts s' = S (S (alerting.contexts s)) /\
    alerting.EvalContext.Error ech = alerting.EvalContext.Error ec1 /\
    readings.span_errors new
    = match alerting.EvalContext.Error ec1 with Some err => [err] | None => [] end /\
    alerting.resultHandler_handle e ech w1 = (ec2, herr, w2) /\
    alerting.Job.Result job' = Some ec2 /\
    readings.logged new = lines ++ [completion] /\
    log.level completion = log.Debug /\
    lines
    = match herr with
      | None => []
      | Some err =>
          if Go.errors_Is err context.Canceled then
            [log.mk log.Debug "Result handler returned context.Canceled" []]
          else if Go.errors_Is err context.DeadlineExceeded then
            [log.mk log.Debug "Result handler returned context.DeadlineExceeded" []]
          else [log.mk log.Error "Failed to handle result" [("err", log.Err err)]]
      end.
Proof.
  intros Hrule [Hopen Hroom] Hattempt.
  unfold alerting.processJob, Go.bind, alerting.WithTimeout, alerting.lift,
    alerting.emit, alerting.call, alerting.Log, alerting.emit, Go.modify, Go.panic,
    Go.ret.
  simpl. rewrite send_with_room by (done || lia). simpl. rewrite Hrule.
  destruct (alerting.evalHandler_Eval e _ _) as [ec1 w1] eqn:Heval. simpl.
  assert (Hsend : forall x,
             Go.send (Go.mkChan (Go.cap cancelChan)
                        (Go.buf cancelChan ++ [alerting.contexts s]) false) x
             = Go.Returned (Go.mkChan (Go.cap cancelChan)
                              (Go.buf cancelChan ++ [alerting.contexts s; x])
                              false)).
  { intros x. rewrite send_with_room; simpl; [by rewrite <- app_assoc | done |].
    rewrite length_app. simpl. lia. }
  assert (Hclose : Go.close attemptChan
                   = Go.Returned (Go.mkChan (Go.cap attemptChan) (Go.buf attemptChan) true)).
  { unfold Go.close. by rewrite Hattempt. }
  destruct (alerting.EvalContext.Error ec1) as [err|] eqn:Herr; simpl;
    rewrite Hsend; simpl;
    destruct (alerting.resultHandler_handle e _ _) as [[ec2 herr] w2] eqn:Hhandle;
    simpl;
    destruct herr as [herr|]; simpl;
    repeat (match goal with
            | |- context [if ?b then _ else _] => destruct b eqn:?
            end; simpl);
    rewrite Hclose; simpl; rewrite <- ?app_assoc; simpl;
    exists ec1; do 10 eexists;
    (split; [reflexivity|]); (split; [reflexivity|]);
    simpl in *; split_and!; intros;
    first [ eassumption
          | exact (eq_refl ([_] ++ [_]))
          | exact (eq_refl ([] ++ [_]))
          | reflexivity
          | rewrite Herr; reflexivity
          | done
          | simpl;
            repeat match goal with
                   | Hb : Go.errors_Is _ _ = _ |- _ => rewrite Hb; clear Hb
                   end;
            reflexivity ].
Qed.

(** X16. When [processJob] returns it has started two timers, one per
    phase, and queued the cancel function of each, in that order, behind
    what the cancel channel held; it has closed the attempt channel. *)
Theorem cancel_functions_handed_over (attemptID : Z) (attemptChan : Go.chan Z)
    (cancelChan : Go.chan nat) (job : alerting.Job.t) (rule : alerting.Rule.t)
    (s : @alerting.St _ World) :
  alerting.Job.Rule job = Some rule ->
  alerting.has_room cancelChan ->
  Go.closed attemptChan = false ->
  exists attemptChan' cancelChan' job' s' new,
    alerting.processJob cfg e attemptID attemptChan cancelChan job s
    = (Go.Returned (attemptChan', cancelChan', job'), s') /\
    alerting.trace s' = alerting.trace s ++ new /\
    Go.closed attemptChan' = true /\
    Go.buf cancelChan'
    = Go.buf cancelChan ++ [alerting.contexts s; S (alerting.contexts s)] /\
    readings.cancels_sent new = map fst (readings.timers_started new) /\
    map snd (readings.timers_started new)
    = [setting.AlertingEvaluationTimeout cfg; setting.AlertingNotificationTimeout cfg].
Proof.
  intros Hrule Hroom Hattempt.
  destruct (processJob_leaves attemptID attemptChan cancelChan job rule s
              Hrule Hroom Hattempt)
    as (ec1 & ech & w1 & ec2 & herr & w2 & job' & s' & new & lines & completion
        & Hrun & Htrace & _ & Htimers & Hcancels & _).
  do 5 eexists. split; [exact Hrun|]. split; [exact Htrace|].
  rewrite Htimers, Hcancels. done.
Qed.

(** X17. An error of the result handler does not stop [processJob]: the
    job still gets the context the handler left. The error is written to
    the log at error level exactly when it is neither a cancellation nor a
    passed deadline. *)
Theorem handler_error_is_only_logged (attemptID : Z) (attemptChan : Go.chan Z)
    (cancelChan : Go.chan nat) (job : alerting.Job.t) (rule : alerting.Rule.t)
    (s : @alerting.St _ World) :
  alerting.Job.Rule job = Some rule ->
  alerting.has_room cancelChan ->
  Go.closed attemptChan = false ->
  exists ech w1 ec2 herr w2 chans job' s' new,
    alerting.processJob cfg e attemptID attemptChan cancelChan job s
    = (Go.Returned (chans, job'), s') /\
    alerting.trace s' = alerting.trace s ++ new /\
    alerting.handled new = [ech] /\
    alerting.resultHandler_handle e ech w1 = (ec2, herr, w2) /\
    alerting.Job.Result job' = Some ec2 /\
    forall err,
      In (log.mk log.Error "Failed to handle result" [("err", log.Err err)])
        (readings.logged new) <->
      herr = Some err /\
      Go.errors_Is err context.Canceled = false /\
      Go.errors_Is err context.DeadlineExceeded = false.
Proof.
  intros Hrule Hroom Hattempt.
  destruct (processJob_leaves attemptID attemptChan cancelChan job rule s
              Hrule Hroom Hattempt)
    as (ec1 & ech & w1 & ec2 & herr & w2 & job' & s' & new & lines & completion
        & Hrun & Htrace & Hhandled & _ & _ & _ & _ & _ & Hhandle & Hres
        & Hlog & Hlevel & Hlines).
  exists ech, w1, ec2, herr, w2. do 4 eexists.
  split; [exact Hrun|]. split; [exact Htrace|]. split; [exact Hhandled|].
  split; [exact Hhandle|]. split; [exact Hres|].
  intros err. rewrite Hlog, in_app_iff. simpl.
  assert (Hcompletion :
            completion = log.mk log.Error "Failed to handle result" [("err", log.Err err)]
            -> False).
  { intros ->. discriminate. }
  subst lines. destruct herr as [herr|].
  - destruct (Go.errors_Is herr context.Canceled) eqn:Hc;
      [|destruct (Go.errors_Is herr context.DeadlineExceeded) eqn:Hd]; simpl.
    + split; [intros [[Heq|[]]|[Heq|[]]]; [discriminate | tauto]|].
      intros ([= ->] & Hc' & _). congruence.
    + split; [intros [[Heq|[]]|[Heq|[]]]; [discriminate | tauto]|].
      intros ([= ->] & _ & Hd'). congruence.
    + split.
      * intros [[Heq|[]]|[Heq|[]]]; [|tauto]. injection Heq as ->. done.
      * intros ([= ->] & _). left. by left.
  - simpl. split; [intros [[]|[Heq|[]]]; tauto|]. intros (Heq & _). discriminate.
Qed.

End more_engine.

(** ** The command handlers *)

Section command_handlers.

Context `{models.Types} {World : Type}.
Variable cfg : setting.t.
Variable e : @alerting.AlertEvaluatorEngine _ World.


Lemma lookups_app (tr1 tr2 : list (@alerting.Event _)) :
  readings.lookups (tr1 ++ tr2) = readings.lookups tr1 ++ readings.lookups tr2.
Proof. apply omap_app. Qed.

(** The context that [processJob] hands to the evaluator: the new context
    of the rule and the instant of the job; no rule is built or looked up
    on the way. *)
Lemma processJob_evaluates (attemptID : Z) (attemptChan : Go.chan Z)
    (cancelChan : Go.chan nat) (job : alerting.Job.t) (rule : alerting.Rule.t)
    (s : @alerting.St _ World) :
  alerting.Job.Rule job = Some rule ->
  alerting.has_room cancelChan ->
  Go.closed attemptChan = false ->
  exists r s' new,
    alerting.processJob cfg e attemptID attemptChan cancelChan job s
    = (Go.Returned r, s') /\
    alerting.trace s' = alerting.trace s ++ new /\
    alerting.evaluated new
    = [alerting.EvalContext.with_Ctx
         (alerting.NewEvalContext (alerting.evaluation_context cfg (alerting.contexts s))
            rule (alerting.Job.EvalTime job) (alerting.RequestValidator e))
         (alerting.evaluation_context cfg (alerting.contexts s))] /\
    readings.builds new = [] /\
    readings.lookups new = [].
Proof.
  intros Hrule [Hopen Hroom] Hattempt.
  unfold alerting.processJob, Go.bind, alerting.WithTimeout, alerting.lift,
    alerting.emit, alerting.call, alerting.Log, alerting.emit, Go.modify, Go.panic,
    Go.ret.
  simpl. rewrite send_with_room by (done || lia). simpl. rewrite Hrule.
  destruct (alerting.evalHandler_Eval e _ _) as [ec1 w1] eqn:Heval. simpl.
  assert (Hsend : forall x,
             Go.send (Go.mkChan (Go.cap cancelChan)
                        (Go.buf cancelChan ++ [alerting.contexts s]) false) x
             = Go.Returned (Go.mkChan (Go.cap cancelChan)
                              ((Go.buf cancelChan ++ [alerting.contexts s]) ++ [x])
                              false)).
  { intros x. rewrite send_with_room; simpl; [done | done |].
    rewrite length_app. simpl. lia. }
  assert (Hclose : Go.close attemptChan
                   = Go.Returned (Go.mkChan (Go.cap attemptChan) (Go.buf attemptChan) true)).
  { unfold Go.close. by rewrite Hattempt. }
  destruct (alerting.EvalContext.Error ec1) as [err|]; simpl;
    rewrite Hsend; simpl;
    destruct (alerting.resultHandler_handle e _ _) as [[ec2 [herr|]] w2]; simpl;
    repeat (match goal with
            | |- context [if ?b then _ else _] => destruct b
            end; simpl);
    rewrite Hclose; simpl; rewrite <- ?app_assoc; simpl;
    do 3 eexists; (split; [reflexivity|]); (split; [reflexivity|]);
    split_and!; reflexivity.
Qed.

(** Whenever [handleRule] returns, it has evaluated its rule once, at its
    instant, and has neither built nor looked up a rule. *)
Lemma handleRule_evaluates (rule : alerting.Rule.t) (evalTime : Time)
    (s s' : @alerting.St _ World) r :
  alerting.handleRule cfg e rule evalTime s = (Go.Returned r, s') ->
  exists result new,
    r = Some result /\
    alerting.trace s' = alerting.trace s ++ new /\
    alerting.evaluated new
    = [alerting.EvalContext.with_Ctx
         (alerting.NewEvalContext (alerting.evaluation_context cfg (alerting.contexts s))
            rule evalTime (alerting.RequestValidator e))
         (alerting.evaluation_context cfg (alerting.contexts s))] /\
    readings.builds new = [] /\
    readings.lookups new = [].
Proof.
  intros Hreturned.
  destruct (handleRule_returned cfg e rule evalTime s s' r Hreturned) as [Hcap Hfit].
  unfold alerting.cancel_capacity in *.
  revert Hreturned.
  unfold alerting.handleRule, Go.bind. rewrite handleRule_job_run.
  unfold alerting.lift.
  rewrite make_chan_fits by lia. rewrite make_chan_one. simpl.
  match goal with
  | |- context [alerting.processJob cfg e ?a ?ac ?cc ?j ?s1] =>
      destruct (processJob_evaluates a ac cc j rule s1)
        as (r2 & s2 & new2 & Hrun2 & Htrace2 & Hev2 & Hb2 & Hl2);
      [reflexivity | split; simpl; [reflexivity | lia] | reflexivity |];
      destruct (processJob_run cfg e a ac cc j rule s1)
        as (ec0 & ec1 & w1 & ech & ec2 & herr & w2 & chans & job' & s3 & new3
            & Hrun3 & _ & _ & _ & _ & _ & _ & _ & _ & _ & _ & _ & Hres & _);
      [reflexivity | split; simpl; [reflexivity | lia] | reflexivity |]
  end.
  rewrite Hrun2 in Hrun3. injection Hrun3 as -> ->.
  rewrite Hrun2. destruct chans as [ac cc]. simpl in *.
  intros [= <- <-].
  exists ec2, ([alerting.Locked; alerting.RunningSet false; alerting.Unlocked] ++ new2).
  rewrite Htrace2, <- app_assoc. done.
Qed.


(** X19. [HandleEvaluateAlertByIdCommand] on an id for which no rule is
    found returns nil and the command as it was, and evaluates nothing. On
    a rule that is found, whenever the handler returns (which takes a cancel
    channel that could be made, with room for the two cancel functions), it
    returns nil after evaluating that rule once, with the headers of the
    command and at the instant of the command, and it has set the result of
    the command; the rule was looked up once. *)
Theorem command_by_id_evaluates_found_rule
    (cmd : alerting.EvaluateAlertByIdCommand.t) (s : @alerting.St _ World) :
  (forall w,
     alerting.ruleReader_fetchOne e (alerting.EvaluateAlertByIdCommand.AlertId cmd)
       (alerting.world s) = (None, w) ->
     exists s',
       alerting.HandleEvaluateAlertByIdCommand cfg e cmd s
       = (Go.Returned (cmd, None), s') /\
       alerting.world s' = w /\
       alerting.evaluated (alerting.trace s') = alerting.evaluated (alerting.trace s) /\
       alerting.handled (alerting.trace s') = alerting.handled (alerting.trace s)) /\
  (forall rule w cmd' r s',
     alerting.ruleReader_fetchOne e (alerting.EvaluateAlertByIdCommand.AlertId cmd)
       (alerting.world s) = (Some rule, w) ->
     alerting.HandleEvaluateAlertByIdCommand cfg e cmd s = (Go.Returned (cmd', r), s') ->
     exists ec0 result,
       cmd' = alerting.EvaluateAlertByIdCommand.with_Result cmd (Some result) /\
       r = None /\
       alerting.evaluated (alerting.trace s')
       = alerting.evaluated (alerting.trace s) ++ [ec0] /\
       alerting.EvalContext.EvalTime ec0 = alerting.EvaluateAlertByIdCommand.EvalTime cmd /\
       alerting.EvalContext.Rule ec0
       = alerting.Rule.with_LogzIoHeaders rule
           (alerting.EvaluateAlertByIdCommand.LogzIoHeaders cmd) /\
       readings.lookups (alerting.trace s')
       = readings.lookups (alerting.trace s)
         ++ [alerting.EvaluateAlertByIdCommand.AlertId cmd]).
Proof.
  split.
  - intros w Hfetch.
    unfold alerting.HandleEvaluateAlertByIdCommand, Go.bind, alerting.call,
      alerting.Log, alerting.emit, Go.modify, Go.ret.
    rewrite Hfetch. simpl. eexists. split; [reflexivity|]. simpl.
    rewrite !evaluated_app, !handled_app. simpl. by rewrite !app_nil_r.
  - intros rule w cmd' r s' Hfetch.
    unfold alerting.HandleEvaluateAlertByIdCommand, Go.bind, alerting.call.
    rewrite Hfetch. simpl.
    match goal with
    | |- context [alerting.handleRule cfg e ?r ?t ?s1] =>
        destruct (alerting.handleRule cfg e r t s1) as [[res| |msg] s2] eqn:Hrun;
          [|discriminate..];
        destruct (handleRule_evaluates r t s1 s2 res Hrun)
          as (result & new & -> & Htrace & Hev & _ & Hl)
    end.
    simpl in *. intros [= <- <- <-].
    eexists. exists result. split; [reflexivity|]. split; [reflexivity|].
    rewrite Htrace, !evaluated_app, !lookups_app. simpl.
    rewrite Hev, Hl, !app_nil_r. split_and!; reflexivity.
Qed.

End command_handlers.

(** ** The rule reader *)

Section rule_reading.

Context `{models.Types} {World : Type}.
Variable deps : @rule_reader.Deps _ World.

Lemma gauge_sets_app (tr1 tr2 : list rule_reader.Event) :
  rule_reader.gauge_sets (tr1 ++ tr2)
  = rule_reader.gauge_sets tr1 ++ rule_reader.gauge_sets tr2.
Proof. apply omap_app. Qed.

Lemma rules_built_app (tr1 tr2 : list rule_reader.Event) :
  rule_reader.rules_built (tr1 ++ tr2)
  = rule_reader.rules_built tr1 ++ rule_reader.rules_built tr2.
Proof. apply omap_app. Qed.





(** X21. [fetchOne] returns nil, without setting the gauge, when the alert
    cannot be loaded, and when the alert that was loaded is not nil and
    does not build into a rule; when the builder refuses a nil alert,
    [fetchOne] panics on reading the id of the alert for the log, the gauge
    not set. When the builder returns no error, [fetchOne] returns what the
    builder returned and sets the gauge to one. The alert is loaded once and
    built at most once. *)
Theorem fetch_one_returns_built_rule (Id : Z) (s : rule_reader.St) :
  let '(Result, err, w) :=
    rule_reader.Dispatch_GetAlertByIdQuery deps Id (rule_reader.world s) in
  let '(outcome, s') := rule_reader.fetchOne deps Id s in
  match err with
  | Some _ =>
      outcome = Go.Returned None /\
      rule_reader.rules_built (rule_reader.trace s')
      = rule_reader.rules_built (rule_reader.trace s) /\
      rule_reader.gauge_sets (rule_reader.trace s')
      = rule_reader.gauge_sets (rule_reader.trace s)
  | None =>
      let '(model, built_err, _) := rule_reader.NewRuleFromDBAlert deps Result true w in
      rule_reader.rules_built (rule_reader.trace s')
      = rule_reader.rules_built (rule_reader.trace s) ++ [models.Alert_Id <$> Result] /\
      match built_err with
      | Some _ =>
          outcome
          = match Result with
            | Some _ => Go.Returned None
            | None => Go.Panicked "invalid memory address or nil pointer dereference"
            end /\
          rule_reader.gauge_sets (rule_reader.trace s')
          = rule_reader.gauge_sets (rule_reader.trace s)
      | None =>
          outcome = Go.Returned model /\
          rule_reader.gauge_sets (rule_reader.trace s')
          = rule_reader.gauge_sets (rule_reader.trace s) ++ [Go.Float64.of_int 1]
      end
  end.
Proof.
  destruct (rule_reader.Dispatch_GetAlertByIdQuery deps Id (rule_reader.world s))
    as [[Result err] w] eqn:Hdispatch.
  destruct (rule_reader.fetchOne deps Id s) as [outcome s'] eqn:Hfetch.
  revert Hfetch.
  unfold rule_reader.fetchOne, Go.bind, rule_reader.call, rule_reader.Log,
    rule_reader.emit, rule_reader.Id_of, Go.modify, Go.ret, Go.panic.
  rewrite Hdispatch. simpl.
  destruct err as [err|]; simpl.
  - intros [= <- <-]. simpl.
    rewrite !rules_built_app, !gauge_sets_app. simpl. by rewrite !app_nil_r.
  - destruct (rule_reader.NewRuleFromDBAlert deps Result true w)
      as [[model [built_err|]] w1]; simpl;
      destruct Result as [alert|]; simpl;
      intros [= <- <-]; simpl;
      rewrite !rules_built_app, !gauge_sets_app; simpl;
      rewrite ?app_nil_r, <- ?app_assoc; done.
Qed.

End rule_reading.

(** ** The further properties at the fixtures *)

Lemma process_returns_pushed_alerts_witness :
  exists alerts s',
    api.RouteProcessAlert fixtures.imports
      (fixtures_more.service_with (fixtures_more.alertmanagers fixtures_more.accepting))
      fixtures_more.process_request fixtures.start
    = (Go.Returned (response.JSONStreaming http.StatusOK alerts), s') /\
    api.alerts_put (api.trace s') = api.alerts_put (api.trace fixtures.start) ++ [alerts].
Proof.
  apply (@process_returns_pushed_alerts fixtures.types fixtures.imports
           (fixtures_more.service_with (fixtures_more.alertmanagers fixtures_more.accepting))
           fixtures_more.process_request fixtures.start fixtures_more.accepting).
  - intros w. by exists w.
  - intros alerts w. by exists w.
Defined.

Lemma process_reports_refused_batch_witness :
  exists s',
    api.RouteProcessAlert fixtures.imports
      (fixtures_more.service_with (fixtures_more.alertmanagers fixtures_more.refusing))
      fixtures_more.process_request fixtures.start
    = (Go.Returned
         (response.Error http.StatusInternalServerError "Failed to process alert"
            (Go.Sentinel "alert validation failed")), s') /\
    length (api.alerts_put (api.trace s'))
    = S (length (api.alerts_put (api.trace fixtures.start))) /\
    api.saved_commands (api.trace s')
    = api.saved_commands (api.trace fixtures.start)
      ++ map api.SaveAlertInstanceCommand_of
           (api.processed_states
              (fixtures_more.service_with
                 (fixtures_more.alertmanagers fixtures_more.refusing))
              fixtures_more.process_request (api.world fixtures.start)).
Proof.
  apply (@process_reports_refused_batch fixtures.types fixtures.imports
           (fixtures_more.service_with (fixtures_more.alertmanagers fixtures_more.refusing))
           fixtures_more.process_request fixtures.start fixtures_more.refusing
           (Go.Sentinel "alert validation failed")).
  - intros w. by exists w.
  - intros alerts w. by exists w.
Defined.

Lemma process_reports_unavailable_alertmanager_witness :
  exists s',
    api.RouteProcessAlert fixtures.imports
      (fixtures_more.service_with fixtures_more.not_ready)
      fixtures_more.process_request fixtures.start
    = (Go.Returned
         (response.Error http.StatusInternalServerError "Failed to process alert"
            (Go.Sentinel "Alertmanager is not ready yet")), s') /\
    api.alerts_put (api.trace s') = api.alerts_put (api.trace fixtures.start).
Proof.
  apply (@process_reports_unavailable_alertmanager fixtures.types fixtures.imports
           (fixtures_more.service_with fixtures_more.not_ready)
           fixtures_more.process_request fixtures.start
           (Go.Sentinel "Alertmanager is not ready yet")).
  - reflexivity.
  - intros w. by exists None, w.
Defined.

Lemma evaluate_converts_each_result_witness :
  exists body s',
    api.RouteEvaluateAlert (fixtures_more.service_with fixtures_more.not_ready)
      fixtures_more.evaluation_request fixtures.start
    = (Go.Returned (response.JSONStreaming http.StatusOK body), s') /\
    length body = length [fixtures_more.normal_result] /\
    forall i r,
      [fixtures_more.normal_result] !! i = Some r ->
      body !! i = Some (api.evaluationResultsToApi r).
Proof.
  apply (@evaluate_converts_each_result fixtures.types
           (fixtures_more.service_with fixtures_more.not_ready)
           fixtures_more.evaluation_request fixtures.start
           [fixtures_more.normal_result] tt).
  reflexivity.
Defined.

Lemma api_result_roundtrip_witness :
  let a :=
    @apimodels.ApiEvalResult.mk eval.NumberValueCapture.t ∅ eval.Alerting "Alerting"
      None 100 5 "" None in
  api.evaluationResultsToApi (api.apiToEvaluationResult a) = a.
Proof.
  intros a. apply (api_result_roundtrip a); reflexivity.
Defined.

Lemma sts_options_only_when_forced_witness :
  let cfg := middleware.mkCfg true true false "https" true 31536000 true false "" in
  let o := middleware.createSecureOptions "https" "h2" cfg in
  middleware.STSSeconds o = 31536000 /\
  middleware.STSPreload o = true /\
  middleware.STSIncludeSubdomains o = false.
Proof.
  intros cfg o.
  destruct (sts_options_only_when_forced "https" "h2" cfg) as (_ & Hforced & _).
  apply Hforced. reflexivity.
Defined.

Lemma offset_is_frequency_witness :
  exists job s',
    alerting.handleRule_job (fixtures.legacy_rule 60) 100 fixtures.engine_start
    = (Go.Returned job, s') /\
    alerting.Job.Offset job = 60.
Proof.
  apply (@offset_is_frequency fixtures.model_types unit (fixtures.legacy_rule 60) 100
           fixtures.engine_start).
  - discriminate.
  - split; vm_compute; reflexivity.
Defined.

Lemma get_running_after_set_witness :
  exists j' s1 s2,
    alerting.SetRunning (@alerting.Job.zero fixtures.model_types) true
      fixtures.engine_start = (Go.Returned j', s1) /\
    alerting.GetRunning j' s1 = (Go.Returned (true, j'), s2) /\
    j' = alerting.Job.with_running (@alerting.Job.zero fixtures.model_types) true /\
    alerting.world s2 = alerting.world fixtures.engine_start /\
    alerting.running_sets (alerting.trace s2)
    = alerting.running_sets (alerting.trace fixtures.engine_start) ++ [true].
Proof.
  apply (@get_running_after_set fixtures.model_types unit
           (@alerting.Job.zero fixtures.model_types) true fixtures.engine_start).
  reflexivity.
Defined.

Lemma attempts_decide_outcome_witness :
  (alerting.handleRule (setting.mk 30 30 0) fixtures.engine (fixtures.legacy_rule 60)
     100 fixtures.engine_start).1 = Go.Blocked /\
  (alerting.handleRule (setting.mk 30 30 (-1)) fixtures.engine (fixtures.legacy_rule 60)
     100 fixtures.engine_start).1 = Go.Panicked "makechan: size out of range" /\
  (alerting.handleRule (setting.mk 30 30 (2 ^ 44 - 5)) fixtures.engine
     (fixtures.legacy_rule 60) 100 fixtures.engine_start).1
  = Go.Panicked "makechan: size out of range" /\
  (exists r,
     (alerting.handleRule fixtures.settings fixtures.engine (fixtures.legacy_rule 60)
        100 fixtures.engine_start).1 = Go.Returned r) /\
  1 <= setting.AlertingMaxAttempts fixtures.settings <= 2 ^ 44 - 6.
Proof.
  pose proof (@attempts_decide_outcome fixtures.model_types unit (setting.mk 30 30 0)
                fixtures.engine (fixtures.legacy_rule 60) 100 fixtures.engine_start)
    as Hzero.
  pose proof (@attempts_decide_outcome fixtures.model_types unit (setting.mk 30 30 (-1))
                fixtures.engine (fixtures.legacy_rule 60) 100 fixtures.engine_start)
    as Hnegative.
  pose proof (@attempts_decide_outcome fixtures.model_types unit
                (setting.mk 30 30 (2 ^ 44 - 5)) fixtures.engine (fixtures.legacy_rule 60)
                100 fixtures.engine_start)
    as Hlarge.
  pose proof (@attempts_decide_outcome fixtures.model_types unit fixtures.settings
                fixtures.engine (fixtures.legacy_rule 60) 100 fixtures.engine_start)
    as Hthree.
  cbv zeta in Hzero, Hnegative, Hlarge, Hthree.
  destruct (alerting.handleRule (setting.mk 30 30 0) _ _ _ _) as [o0 s0].
  destruct (alerting.handleRule (setting.mk 30 30 (-1)) _ _ _ _) as [o1 s1].
  destruct (alerting.handleRule (setting.mk 30 30 (2 ^ 44 - 5)) _ _ _ _) as [o2 s2].
  destruct (alerting.handleRule fixtures.settings _ _ _ _) as [o3 s3] eqn:Hrun.
  vm_compute in Hrun. injection Hrun as <- <-.
  simpl in *. split_and!.
  - apply Hzero; [split; vm_compute; [discriminate | reflexivity] | reflexivity].
  - apply Hnegative; [split; vm_compute; [discriminate | reflexivity] |].
    left. reflexivity.
  - apply Hlarge; [split; vm_compute; [discriminate | reflexivity] |].
    right. vm_compute. reflexivity.
  - eexists. reflexivity.
  - eapply Hthree; [split; vm_compute; [discriminate | reflexivity] | reflexivity].
  - eapply Hthree; [split; vm_compute; [discriminate | reflexivity] | reflexivity].
Defined.

Lemma cancel_functions_handed_over_witness :
  let job :=
    @alerting.Job.mk fixtures.model_types 60 false false false
      (Some (fixtures.legacy_rule 60)) false 100 None in
  exists attemptChan' cancelChan' job' s' new,
    alerting.processJob fixtures.settings fixtures.engine 1 (Go.mkChan 1 [1] false)
      (Go.mkChan 6 [] false) job fixtures.engine_start
    = (Go.Returned (attemptChan', cancelChan', job'), s') /\
    alerting.trace s' = alerting.trace fixtures.engine_start ++ new /\
    Go.closed attemptChan' = true /\
    Go.buf cancelChan' = [0%nat; 1%nat] /\
    readings.cancels_sent new = map fst (readings.timers_started new) /\
    map snd (readings.timers_started new) = [30; 30].
Proof.
  intros job.
  apply (@cancel_functions_handed_over fixtures.model_types unit
           fixtures.settings fixtures.engine 1 (Go.mkChan 1 [1] false)
           (Go.mkChan 6 [] false) job (fixtures.legacy_rule 60) fixtures.engine_start).
  - reflexivity.
  - split; [reflexivity | vm_compute; discriminate].
  - reflexivity.
Defined.

Lemma handler_error_is_only_logged_witness :
  let job :=
    @alerting.Job.mk fixtures.model_types 60 false false false
      (Some (fixtures.legacy_rule 60)) false 100 None in
  exists ech w1 ec2 herr w2 chans job' s' new,
    alerting.processJob fixtures.settings fixtures_more.quiet_engine 1
      (Go.mkChan 1 [1] false) (Go.mkChan 6 [] false) job fixtures.engine_start
    = (Go.Returned (chans, job'), s') /\
    alerting.trace s' = alerting.trace fixtures.engine_start ++ new /\
    alerting.handled new = [ech] /\
    alerting.resultHandler_handle fixtures_more.quiet_engine ech w1 = (ec2, herr, w2) /\
    alerting.Job.Result job' = Some ec2 /\
    forall err,
      In (log.mk log.Error "Failed to handle result" [("err", log.Err err)])
        (readings.logged new) <->
      herr = Some err /\
      Go.errors_Is err context.Canceled = false /\
      Go.errors_Is err context.DeadlineExceeded = false.
Proof.
  intros job.
  apply (@handler_error_is_only_logged fixtures.model_types unit
           fixtures.settings fixtures_more.quiet_engine 1 (Go.mkChan 1 [1] false)
           (Go.mkChan 6 [] false) job (fixtures.legacy_rule 60) fixtures.engine_start).
  - reflexivity.
  - split; [reflexivity | vm_compute; discriminate].
  - reflexivity.
Defined.


Lemma command_by_id_evaluates_found_rule_witness :
  let cmd := @alerting.EvaluateAlertByIdCommand.mk fixtures.model_types 7 100 (Some tt) None in
  exists ec0 result s',
    alerting.HandleEvaluateAlertByIdCommand fixtures.settings fixtures_more.quiet_engine
      cmd fixtures.engine_start
    = (Go.Returned (alerting.EvaluateAlertByIdCommand.with_Result cmd (Some result), None),
       s') /\
    alerting.evaluated (alerting.trace s')
    = alerting.evaluated (alerting.trace fixtures.engine_start) ++ [ec0] /\
    alerting.EvalContext.EvalTime ec0 = 100 /\
    alerting.EvalContext.Rule ec0
    = alerting.Rule.with_LogzIoHeaders (fixtures.legacy_rule 60) (Some tt) /\
    readings.lookups (alerting.trace s')
    = readings.lookups (alerting.trace fixtures.engine_start) ++ [7].
Proof.
  intros cmd.
  destruct (@command_by_id_evaluates_found_rule fixtures.model_types unit
              fixtures.settings fixtures_more.quiet_engine cmd fixtures.engine_start)
    as (_ & Hfound).
  destruct (alerting.HandleEvaluateAlertByIdCommand fixtures.settings
              fixtures_more.quiet_engine cmd fixtures.engine_start)
    as [[[cmd' r]| |msg] s'] eqn:Hrun; [|vm_compute in Hrun; discriminate..].
  destruct (Hfound (fixtures.legacy_rule 60) tt cmd' r s' eq_refl eq_refl)
    as (ec0 & result & -> & -> & Hev & Htime & Hrule & Hlookups).
  by exists ec0, result, s'.
Defined.


Lemma fetch_one_returns_built_rule_witness :
  let start := @rule_reader.mkSt unit tt [] in
  let '(outcome, s') := rule_reader.fetchOne fixtures_more.reader_deps 3 start in
  let '(refused, _) := rule_reader.fetchOne fixtures_more.reader_deps 2 start in
  outcome = Go.Returned (Some (fixtures.legacy_rule 3)) /\
  rule_reader.gauge_sets (rule_reader.trace s') = [Go.Float64.of_int 1] /\
  refused = Go.Returned None.
Proof.
  intros start.
  pose proof (@fetch_one_returns_built_rule fixtures.model_types unit
                fixtures_more.reader_deps 3 start) as Hfetch.
  pose proof (@fetch_one_returns_built_rule fixtures.model_types unit
                fixtures_more.reader_deps 2 start) as Hrefused.
  vm_compute in Hfetch, Hrefused. vm_compute.
  destruct Hfetch as (_ & Hout & Hgauge). destruct Hrefused as (_ & Hnone & _).
  split_and!; [exact Hout | exact Hgauge | exact Hnone].
Defined.
